(** * Rajeev Classes: billing-period and attendance reconciliation

    A shallow embedding of the reconciliation logic of [src/App.tsx]
    ([fetchData], [attendanceSummary], [markAttendance], the "Mark All"
    handlers and [exportCSV]) together with the properties the
    specification states about it.

    Conventions.
    - JavaScript numbers that hold integers (ids, amounts, counters) are [Z].
      Sums of amounts are exact in [sum_amounts]; [reduce_amounts] gives them
      as double arithmetic does, and the two agree up to 2^53.
    - A calendar date ('YYYY-MM-DD') is a record of year, month (1..12) and
      day; the store compares them as dates, i.e. lexicographically.
    - A nullable column is an [option].
    - [new Set(...)] of ids is a [gset Z]; the [summary] object of
      [attendanceSummary] is a [gmap Z stats].
    - The result [{ data, error }] of a store query is an [option]: [None]
      stands for [data = null]. *)

From Stdlib Require Import ZArith List String Ascii Bool Lia DecimalString Sorted.
From stdpp Require Import gmap strings list.

Local Open Scope Z_scope.

(* ===================================================================== *)
(** ** Calendar dates and the JavaScript [Date] object *)
(* ===================================================================== *)

Record date := mkDate { d_year : Z; d_month : Z; d_day : Z }.

(** The reporting period [selectedMonth], a 'YYYY-MM' string. *)
Record ym := mkYm { ym_year : Z; ym_month : Z }.

Definition date_eqb (a b : date) : bool :=
  (d_year a =? d_year b) && (d_month a =? d_month b) && (d_day a =? d_day b).

(** [a <= b] on dates, as the store's [lte] / [gte] filters compare them. *)
Definition date_leb (a b : date) : bool :=
  (d_year a <? d_year b)
  || ((d_year a =? d_year b)
      && ((d_month a <? d_month b)
          || ((d_month a =? d_month b) && (d_day a <=? d_day b)))).

Definition ym_eqb (a b : ym) : bool :=
  (ym_year a =? ym_year b) && (ym_month a =? ym_month b).

Definition is_leap (y : Z) : bool :=
  ((y mod 4 =? 0) && negb (y mod 100 =? 0)) || (y mod 400 =? 0).

Definition days_in_month (y m : Z) : Z :=
  if m =? 2 then (if is_leap y then 29 else 28)
  else if (m =? 4) || (m =? 6) || (m =? 9) || (m =? 11) then 30
  else 31.

(** The last calendar day of a month: what the specification calls
    end-of-month(M). *)
Definition last_day_of (m : ym) : date :=
  mkDate (ym_year m) (ym_month m) (days_in_month (ym_year m) (ym_month m)).

(** The time value of a JavaScript [Date] is a number of milliseconds since
    1970-01-01T00:00Z.  The functions below follow the abstract operations
    of ECMAScript (Day, MakeDay, MakeDate, LocalTime, UTC, YearFromTime,
    MonthFromTime, DateFromTime) over the proleptic Gregorian calendar, for
    a host whose local time is a fixed offset from UTC. *)
Module JSDate.

Definition msPerDay : Z := 86400000.
Definition msPerMinute : Z := 60000.

(** Day number (days since 1970-01-01) of the civil date [y]-[m]-[d],
    with [m] in 1..12. *)
Definition days_from_civil (y m d : Z) : Z :=
  let y' := if m <=? 2 then y - 1 else y in
  let era := y' / 400 in
  let yoe := y' - era * 400 in
  let mp := (m + 9) mod 12 in
  let doy := (153 * mp + 2) / 5 + d - 1 in
  let doe := yoe * 365 + yoe / 4 - yoe / 100 + doy in
  era * 146097 + doe - 719468.

(** Civil date of a day number. *)
Definition civil_from_days (z : Z) : date :=
  let z := z + 719468 in
  let era := z / 146097 in
  let doe := z - era * 146097 in
  let yoe := (doe - doe / 1460 + doe / 36524 - doe / 146096) / 365 in
  let y := yoe + era * 400 in
  let doy := doe - (365 * yoe + yoe / 4 - yoe / 100) in
  let mp := (5 * doy + 2) / 153 in
  let d := doy - (153 * mp + 2) / 5 + 1 in
  let m := if mp <? 10 then mp + 3 else mp - 9 in
  mkDate (if m <=? 2 then y + 1 else y) m d.

Definition Day (t : Z) : Z := t / msPerDay.

(** [MakeDay(year, month, date)]: [month] is 0-based and may lie outside
    0..11, [date] may lie outside the month (day 0 is the day before the
    first). *)
Definition MakeDay (year month dt : Z) : Z :=
  days_from_civil (year + month / 12) (month mod 12 + 1) 1 + dt - 1.

Definition MakeDate (day time : Z) : Z := day * msPerDay + time.

(** [tz] is the host's offset from UTC in minutes, east positive
    (330 for Asia/Kolkata, 0 for UTC, -300 for UTC-05:00). *)
Definition LocalTime (tz t : Z) : Z := t + tz * msPerMinute.
Definition UTC (tz t : Z) : Z := t - tz * msPerMinute.

Definition YearFromTime (t : Z) : Z := d_year (civil_from_days (Day t)).
(** 0-based, as [getMonth] returns it. *)
Definition MonthFromTime (t : Z) : Z := d_month (civil_from_days (Day t)) - 1.
Definition DateFromTime (t : Z) : Z := d_day (civil_from_days (Day t)).

(** [new Date('YYYY-MM-DD')]: a date-only string is read as UTC midnight. *)
Definition parse_date_only (d : date) : Z :=
  MakeDate (MakeDay (d_year d) (d_month d - 1) (d_day d)) 0.

(** [new Date(year, monthIndex, day)]: the arguments are local time; a
    year in 0..99 stands for 1900 + year. *)
Definition of_local_ymd (tz year monthIndex day : Z) : Z :=
  let yr := if (0 <=? year) && (year <=? 99) then 1900 + year else year in
  UTC tz (MakeDate (MakeDay yr monthIndex day) 0).

Definition getFullYear (tz t : Z) : Z := YearFromTime (LocalTime tz t).
Definition getMonth (tz t : Z) : Z := MonthFromTime (LocalTime tz t).

(** [t.toISOString().split('T')[0]]: the UTC calendar date of [t]. *)
Definition toISODate (t : Z) : date := civil_from_days (Day t).

End JSDate.

(** [const startOfMonth = `${selectedMonth}-01`]. *)
Definition startOfMonth (selectedMonth : ym) : date :=
  mkDate (ym_year selectedMonth) (ym_month selectedMonth) 1.

(** [const endOfMonth = new Date(new Date(startOfMonth).getFullYear(),
    new Date(startOfMonth).getMonth() + 1, 0).toISOString().split('T')[0]]
    on a host at [tz] minutes from UTC. *)
Definition endOfMonth (tz : Z) (selectedMonth : ym) : date :=
  let t0 := JSDate.parse_date_only (startOfMonth selectedMonth) in
  JSDate.toISODate
    (JSDate.of_local_ymd tz (JSDate.getFullYear tz t0) (JSDate.getMonth tz t0 + 1) 0).

(** The month before [m]. *)
Definition prev_month (m : ym) : ym :=
  if ym_month m =? 1 then mkYm (ym_year m - 1) 12 else mkYm (ym_year m) (ym_month m - 1).

Definition months : list Z := [1; 2; 3; 4; 5; 6; 7; 8; 9; 10; 11; 12].

(** The calendar facts the analysis of [endOfMonth] rests on, for the month
    [m] of year [y]: the day numbers of its first day, of its last day, of
    the day before its last and of the day before its first are the day
    numbers of those very dates.  They are checked by evaluation over one
    400-year cycle of the Gregorian calendar. *)
Definition month_facts (y m : Z) : bool :=
  date_eqb (JSDate.civil_from_days (JSDate.days_from_civil y m 1)) (mkDate y m 1)
  && date_eqb (JSDate.civil_from_days (JSDate.MakeDay y m 0)) (last_day_of (mkYm y m))
  && date_eqb (JSDate.civil_from_days (JSDate.MakeDay y m 0 - 1))
       (mkDate y m (days_in_month y m - 1))
  && date_eqb (JSDate.civil_from_days (JSDate.days_from_civil y m 1 - 1))
       (last_day_of (prev_month (mkYm y m))).

(* ===================================================================== *)
(** ** Data model (the interfaces [Student], [AttendanceRecord], [Fee]) *)
(* ===================================================================== *)

Inductive student_status := Active | Left.
Inductive attendance_status := Present | Absent | Leave | Holiday.
Inductive payment_mode := Cash | Online.

Definition student_status_eqb (a b : student_status) : bool :=
  match a, b with Active, Active | Left, Left => true | _, _ => false end.

Definition attendance_status_eqb (a b : attendance_status) : bool :=
  match a, b with
  | Present, Present | Absent, Absent | Leave, Leave | Holiday, Holiday => true
  | _, _ => false
  end.

Definition payment_mode_eqb (a b : payment_mode) : bool :=
  match a, b with Cash, Cash | Online, Online => true | _, _ => false end.

Module Student.
Record t := mk {
  id : Z;
  full_name : string;
  class_grade : string;
  parent_phone : string;
  admission_date : date;
  batch_timing : option string;
  status : student_status;
  leaving_date : option date
}.
End Student.

Module AttendanceRecord.
(** The surrogate [id] the store generates is never read by the modelled
    code and is left out; [teacher_id] is the owner written on upsert. *)
Record t := mk {
  student_id : Z;
  attendance_date : date;
  status : attendance_status;
  teacher_id : string
}.
End AttendanceRecord.

Module Fee.
(** The columns of [students] that the fees query joins in
    ([student:students(full_name, class_grade, batch_timing)]). *)
Record joined := mkJoined {
  j_full_name : string;
  j_class_grade : string;
  j_batch_timing : option string
}.

(** A row of the [fees] table; [student] is the joined student, [None]
    when the row carries none. *)
Record t := mk {
  id : Z;
  student_id : Z;
  fee_month : ym;
  amount : Z;
  paid_date : string;
  payment_mode : payment_mode;
  payment_reference : option string;
  student : option joined
}.
End Fee.

Record stats := mkStats { present : Z; absent : Z; leave : Z; holiday : Z }.

Module DashboardData.
Record t := mk {
  activeCount : Z;
  totalCollected : Z;
  cashCollected : Z;
  onlineCollected : Z;
  paidCount : Z;
  unpaidCount : Z;
  leftThisMonth : Z;
  unpaidStudents : list Student.t;
  paidFees : list Fee.t;
  monthlyAttendance : list AttendanceRecord.t
}.
End DashboardData.

(* ===================================================================== *)
(** ** The store queries issued by [fetchData] *)
(* ===================================================================== *)

(** The tables, each as the list of its rows ([students] in the order
    [order('full_name')] returns them; [profiles] as the list of its ids). *)
Record Store := mkStore {
  tbl_students : list Student.t;
  tbl_fees : list Fee.t;
  tbl_attendance : list AttendanceRecord.t;
  tbl_profiles : list string
}.

(** [leaving_date.gte.X] on a nullable column: a NULL never satisfies it. *)
Definition opt_date_gte (d : option date) (x : date) : bool :=
  match d with Some d' => date_leb x d' | None => false end.

Definition opt_date_lte (d : option date) (x : date) : bool :=
  match d with Some d' => date_leb d' x | None => false end.

(** The row filter of query 1:
    [.lte('admission_date', endOfMonth)
     .or(`status.eq.Active,leaving_date.gte.${startOfMonth}`)]. *)
Definition active_filter (som eom : date) (s : Student.t) : bool :=
  date_leb (Student.admission_date s) eom
  && (student_status_eqb (Student.status s) Active
      || opt_date_gte (Student.leaving_date s) som).

Section Queries.
(** Offset of the host's local time from UTC, in minutes. *)
Variable tz : Z.
Variable selectedMonth : ym.

(** 1. Active students for this month. *)
Definition activeStudentsQuery (students : list Student.t) : list Student.t :=
  List.filter (active_filter (startOfMonth selectedMonth) (endOfMonth tz selectedMonth))
    students.

(** 2. Paid fees for this month: [.eq('fee_month', selectedMonth)]. *)
Definition paidFeesQuery (fees : list Fee.t) : list Fee.t :=
  List.filter (fun f => ym_eqb (Fee.fee_month f) selectedMonth) fees.

(** 3. Left this month: [.select('id').eq('status', 'Left')
    .gte('leaving_date', startOfMonth).lte('leaving_date', endOfMonth)]. *)
Definition leftStudentsQuery (students : list Student.t) : list Z :=
  List.map Student.id
    (List.filter
       (fun s => student_status_eqb (Student.status s) Left
                 && opt_date_gte (Student.leaving_date s) (startOfMonth selectedMonth)
                 && opt_date_lte (Student.leaving_date s) (endOfMonth tz selectedMonth))
       students).

(** 4. Monthly attendance: [.gte('attendance_date', startOfMonth)
    .lte('attendance_date', endOfMonth)]. *)
Definition monthlyAttQuery (att : list AttendanceRecord.t) : list AttendanceRecord.t :=
  List.filter
    (fun a => date_leb (startOfMonth selectedMonth) (AttendanceRecord.attendance_date a)
              && date_leb (AttendanceRecord.attendance_date a) (endOfMonth tz selectedMonth))
    att.
End Queries.

(** Attendance of the selected day: [.eq('attendance_date', attendanceDate)]. *)
Definition attendanceQuery (attendanceDate : date) (att : list AttendanceRecord.t)
  : list AttendanceRecord.t :=
  List.filter (fun a => date_eqb (AttendanceRecord.attendance_date a) attendanceDate) att.

(* ===================================================================== *)
(** ** The fee reconciliation of [fetchData] *)
(* ===================================================================== *)

(** [rows.reduce((sum, f) => sum + f.amount, 0)]. *)
Definition sum_amounts (rows : list Fee.t) : Z :=
  fold_left (fun sum f => sum + Fee.amount f) rows 0.

Definition totalCollected_of (paidFees : list Fee.t) : Z := sum_amounts paidFees.

Definition cashCollected_of (paidFees : list Fee.t) : Z :=
  sum_amounts (List.filter (fun f => payment_mode_eqb (Fee.payment_mode f) Cash) paidFees).

Definition onlineCollected_of (paidFees : list Fee.t) : Z :=
  sum_amounts (List.filter (fun f => payment_mode_eqb (Fee.payment_mode f) Online) paidFees).

(** [new Set(paidFees.map(f => f.student_id))]. *)
Definition paidStudentIds (paidFees : list Fee.t) : gset Z :=
  list_to_set (List.map Fee.student_id paidFees).

(** [activeStudents.filter(s => !paidStudentIds.has(s.id))]. *)
Definition unpaidStudents_of (activeStudents : list Student.t) (paidFees : list Fee.t)
  : list Student.t :=
  List.filter (fun s => negb (bool_decide (Student.id s ∈ paidStudentIds paidFees)))
    activeStudents.

(** The object passed to [setDashboard] inside
    [if (activeStudents && paidFees) { ... }]; [leftStudents] and
    [monthlyAtt] may be [null] ([leftStudents?.length || 0],
    [monthlyAtt || []]). *)
Definition mkDashboard (activeStudents : list Student.t) (paidFees : list Fee.t)
    (leftStudents : option (list Z)) (monthlyAtt : option (list AttendanceRecord.t))
  : DashboardData.t :=
  let unpaidStudents := unpaidStudents_of activeStudents paidFees in
  DashboardData.mk
    (Z.of_nat (length activeStudents))
    (totalCollected_of paidFees)
    (cashCollected_of paidFees)
    (onlineCollected_of paidFees)
    (Z.of_nat (length paidFees))
    (Z.of_nat (length unpaidStudents))
    (match leftStudents with Some l => Z.of_nat (length l) | None => 0 end)
    unpaidStudents
    paidFees
    (match monthlyAtt with Some l => l | None => [] end).

(* ===================================================================== *)
(** ** Sums as JavaScript computes them *)
(* ===================================================================== *)

(** Amounts and their sums are JavaScript numbers, IEEE-754 doubles.  Every
    integer of magnitude up to 2^53 is a double, and the sum of two
    integer-valued doubles is the double nearest to their exact sum. *)
Definition safe_bound : Z := 2 ^ 53.

(** The double nearest to the integer [x], ties going to the even
    significand: from 2^53 on the doubles are the multiples of [2^e] with
    [e = floor(log2 |x|) - 52].  (Overflow to Infinity, beyond 2^1024, is
    left out.) *)
Definition round_double (x : Z) : Z :=
  let a := Z.abs x in
  if a <=? safe_bound then x
  else
    let e := Z.log2 a - 52 in
    let q := a / 2 ^ e in
    let r := a mod 2 ^ e in
    let half := 2 ^ (e - 1) in
    let q' := if r <? half then q
              else if half <? r then q + 1
              else if Z.even q then q else q + 1 in
    Z.sgn x * (q' * 2 ^ e).

(** [a + b] on integer-valued doubles. *)
Definition js_add (a b : Z) : Z := round_double (a + b).

(** [rows.reduce((sum, f) => sum + f.amount, 0)] in double arithmetic. *)
Definition reduce_amounts (rows : list Fee.t) : Z :=
  fold_left (fun sum f => js_add sum (Fee.amount f)) rows 0.

Definition totalCollected_js (paidFees : list Fee.t) : Z := reduce_amounts paidFees.

Definition cashCollected_js (paidFees : list Fee.t) : Z :=
  reduce_amounts
    (List.filter (fun f => payment_mode_eqb (Fee.payment_mode f) Cash) paidFees).

Definition onlineCollected_js (paidFees : list Fee.t) : Z :=
  reduce_amounts
    (List.filter (fun f => payment_mode_eqb (Fee.payment_mode f) Online) paidFees).

(** The sum of the magnitudes of the amounts: while it is at most 2^53 no
    partial sum of the rows leaves the range where doubles are exact. *)
Definition abs_total (rows : list Fee.t) : Z :=
  fold_right (fun f acc => Z.abs (Fee.amount f) + acc) 0 rows.

(* ===================================================================== *)
(** ** [attendanceSummary] *)
(* ===================================================================== *)

Definition zero_stats : stats := mkStats 0 0 0 0.

(** The four [if (record.status === ...) summary[...].x++] statements. *)
Definition bump (st : attendance_status) (c : stats) : stats :=
  let c := if attendance_status_eqb st Present
           then mkStats (present c + 1) (absent c) (leave c) (holiday c) else c in
  let c := if attendance_status_eqb st Absent
           then mkStats (present c) (absent c + 1) (leave c) (holiday c) else c in
  let c := if attendance_status_eqb st Leave
           then mkStats (present c) (absent c) (leave c + 1) (holiday c) else c in
  if attendance_status_eqb st Holiday
  then mkStats (present c) (absent c) (leave c) (holiday c + 1) else c.

(** The body of [monthlyAttendance.forEach(record => ...)] on the object
    [summary]. *)
Definition tally_step (summary : gmap Z stats) (record : AttendanceRecord.t)
  : gmap Z stats :=
  let sid := AttendanceRecord.student_id record in
  let summary :=
    match summary !! sid with
    | None => <[sid := zero_stats]> summary
    | Some _ => summary
    end in
  alter (bump (AttendanceRecord.status record)) sid summary.

Definition tally (records : list AttendanceRecord.t) : gmap Z stats :=
  fold_left tally_step records ∅.

Record summary_row := mkRow { row_student : Student.t; row_stats : stats }.

(** [!reportFilter || x === reportFilter]: the empty string is "no filter". *)
Definition matches_filter (reportFilter x : string) : bool :=
  String.eqb reportFilter EmptyString || String.eqb x reportFilter.

Definition attendanceSummary (dashboard : option DashboardData.t)
    (students : list Student.t) (reportFilter : string) : list summary_row :=
  match dashboard with
  | None => []
  | Some d =>
      let summary := tally (DashboardData.monthlyAttendance d) in
      List.map
        (fun s => mkRow s (default zero_stats (summary !! Student.id s)))
        (List.filter (fun s => matches_filter reportFilter (Student.class_grade s))
           (List.filter (fun s => student_status_eqb (Student.status s) Active) students))
  end.

(** Number of rows of [records] that belong to student [sid] and carry
    status [st]; used to state what the counters are. *)
Definition count_rows (records : list AttendanceRecord.t) (sid : Z)
    (st : attendance_status) : Z :=
  Z.of_nat (length (List.filter
    (fun r => (AttendanceRecord.student_id r =? sid)
              && attendance_status_eqb (AttendanceRecord.status r) st) records)).

Definition rows_of (records : list AttendanceRecord.t) (sid : Z)
  : list AttendanceRecord.t :=
  List.filter (fun r => AttendanceRecord.student_id r =? sid) records.

(* ===================================================================== *)
(** ** Attendance writes: [markAttendance] and the "Mark All" handlers *)
(* ===================================================================== *)

Definition att_key (r : AttendanceRecord.t) : Z * date :=
  (AttendanceRecord.student_id r, AttendanceRecord.attendance_date r).

Definition same_key (a b : AttendanceRecord.t) : bool :=
  (AttendanceRecord.student_id a =? AttendanceRecord.student_id b)
  && date_eqb (AttendanceRecord.attendance_date a) (AttendanceRecord.attendance_date b).

(** Modelled from the spec: the store's
    [upsert(row, { onConflict: 'student_id,attendance_date' })] is executed
    by the hosted table store, which is not part of the sources.  Following
    sections 3, 4.4 and 6 of the specification, a write for (student, date)
    replaces the existing record for that exact key, or inserts a new record
    when there is none. *)
Fixpoint upsertAttendance (row : AttendanceRecord.t) (tbl : list AttendanceRecord.t)
  : list AttendanceRecord.t :=
  match tbl with
  | [] => [row]
  | r :: rest =>
      if same_key r row then row :: rest else r :: upsertAttendance row rest
  end.

(** Modelled from the spec: an upsert of an array of rows applies the same
    replace-or-insert to every row of the batch. *)
Definition upsertAttendanceMany (rows tbl : list AttendanceRecord.t)
  : list AttendanceRecord.t :=
  fold_left (fun t r => upsertAttendance r t) rows tbl.

(** The write of [markAttendance(studentId, status)]. *)
Definition markAttendance (attendanceDate : date) (teacher : string)
    (studentId : Z) (status : attendance_status) (tbl : list AttendanceRecord.t)
  : list AttendanceRecord.t :=
  upsertAttendance (AttendanceRecord.mk studentId attendanceDate status teacher) tbl.

(** [String.prototype.toLowerCase], on the ASCII letters. *)
Definition lower_ascii (c : ascii) : ascii :=
  let n := nat_of_ascii c in
  if ((65 <=? n) && (n <=? 90))%nat then ascii_of_nat (n + 32) else c.

Fixpoint toLowerCase (s : string) : string :=
  match s with
  | EmptyString => EmptyString
  | String c r => String (lower_ascii c) (toLowerCase r)
  end.

(** [hay.includes(needle)]. *)
Fixpoint includes (hay needle : string) : bool :=
  String.prefix needle hay
  || match hay with
     | EmptyString => false
     | String _ r => includes r needle
     end.

(** The [filteredStudents] memo. *)
Definition filteredStudents (students : list Student.t) (searchTerm : string)
  : list Student.t :=
  List.filter
    (fun s => includes (toLowerCase (Student.full_name s)) (toLowerCase searchTerm)
              || includes (Student.parent_phone s) searchTerm
              || includes (toLowerCase (Student.class_grade s)) (toLowerCase searchTerm))
    students.

(** The rows built by a "Mark All" handler:
    [filteredStudents.filter(s => s.status === 'Active').map(s => ({...}))]. *)
Definition markAll_rows (students : list Student.t) (searchTerm : string)
    (attendanceDate : date) (teacher : string) (status : attendance_status)
  : list AttendanceRecord.t :=
  List.map (fun s => AttendanceRecord.mk (Student.id s) attendanceDate status teacher)
    (List.filter (fun s => student_status_eqb (Student.status s) Active)
       (filteredStudents students searchTerm)).

(** "Mark All Present" / "Mark All Holiday": one batch upsert. *)
Definition markAll (students : list Student.t) (searchTerm : string)
    (attendanceDate : date) (teacher : string) (status : attendance_status)
    (tbl : list AttendanceRecord.t) : list AttendanceRecord.t :=
  upsertAttendanceMany (markAll_rows students searchTerm attendanceDate teacher status) tbl.

(* ===================================================================== *)
(** ** [exportCSV] *)
(* ===================================================================== *)

(** An element of a row array: a string or a number. *)
Inductive cell := CStr (s : string) | CNum (n : Z).

(** [Number.prototype.toString] on an integer: its decimal digits. *)
Definition number_to_string (n : Z) : string :=
  DecimalString.NilZero.string_of_int (Z.to_int n).

(** The string [Array.prototype.join] makes of an element. *)
Definition cell_to_string (c : cell) : string :=
  match c with CStr s => s | CNum n => number_to_string n end.

Definition comma : ascii := ","%char.
Definition newline : ascii := ascii_of_nat 10.

(** [e.join(",")]. *)
Definition join_row (e : list cell) : string :=
  String.concat (String comma EmptyString) (List.map cell_to_string e).

(** [[headers, ...rows].map(e => e.join(",")).join("\n")]. *)
Definition csvContent (headers : list cell) (rows : list (list cell)) : string :=
  String.concat (String newline EmptyString) (List.map join_row (headers :: rows)).

Definition payment_mode_to_string (m : payment_mode) : string :=
  match m with Cash => "Cash" | Online => "Online" end.

(** [x || fallback] on an optional string: [undefined], [null] and the empty
    string all give the fallback. *)
Definition or_else (x : option string) (fallback : string) : string :=
  match x with
  | Some s => if String.eqb s EmptyString then fallback else s
  | None => fallback
  end.

Definition fees_headers : list cell :=
  [CStr "Student Name"; CStr "Amount"; CStr "Date"; CStr "Mode"; CStr "Reference"].

Definition attendance_headers : list cell :=
  [CStr "Student Name"; CStr "Class"; CStr "Present"; CStr "Absent"; CStr "Leave";
   CStr "Holiday"].

(** [f.student?.class_grade === reportFilter] inside
    [!reportFilter || ...]: a fee without joined student passes only when
    no filter is set. *)
Definition fee_matches_filter (reportFilter : string) (f : Fee.t) : bool :=
  String.eqb reportFilter EmptyString
  || match Fee.student f with
     | Some j => String.eqb (Fee.j_class_grade j) reportFilter
     | None => false
     end.

Definition fee_row (f : Fee.t) : list cell :=
  [CStr (or_else (option_map Fee.j_full_name (Fee.student f)) "Unknown");
   CNum (Fee.amount f);
   CStr (Fee.paid_date f);
   CStr (payment_mode_to_string (Fee.payment_mode f));
   CStr (or_else (Fee.payment_reference f) "")].

Definition attendance_row (row : summary_row) : list cell :=
  [CStr (Student.full_name (row_student row));
   CStr (Student.class_grade (row_student row));
   CNum (present (row_stats row));
   CNum (absent (row_stats row));
   CNum (leave (row_stats row));
   CNum (holiday (row_stats row))].

Inductive report_type := ReportFees | ReportAttendance.

Definition fees_rows (d : DashboardData.t) (reportFilter : string) : list (list cell) :=
  List.map fee_row
    (List.filter (fee_matches_filter reportFilter) (DashboardData.paidFees d)).

Definition attendance_rows (dashboard : option DashboardData.t)
    (students : list Student.t) (reportFilter : string) : list (list cell) :=
  List.map attendance_row (attendanceSummary dashboard students reportFilter).

(** The text handed to the download, [None] when [exportCSV] returns without
    producing a file. *)
Definition exportCSV (reportType : report_type) (dashboard : option DashboardData.t)
    (students : list Student.t) (reportFilter : string) : option string :=
  match reportType with
  | ReportFees =>
      match dashboard with
      | None => None
      | Some d => Some (csvContent fees_headers (fees_rows d reportFilter))
      end
  | ReportAttendance =>
      Some (csvContent attendance_headers (attendance_rows dashboard students reportFilter))
  end.

(** How a reader of the file cuts a line into fields: at every separator. *)
Fixpoint split_on (sep : ascii) (s : string) : list string :=
  match s with
  | EmptyString => [EmptyString]
  | String c r =>
      if Ascii.eqb c sep then EmptyString :: split_on sep r
      else match split_on sep r with
           | [] => [String c EmptyString]
           | f :: fs => String c f :: fs
           end
  end.

Fixpoint contains_char (c : ascii) (s : string) : bool :=
  match s with
  | EmptyString => false
  | String x r => Ascii.eqb x c || contains_char c r
  end.


(* ===================================================================== *)
(** ** [fetchData] as a resumable pass, and the reconciliation loop *)
(* ===================================================================== *)

Record db_health := mkHealth { h_students : bool; h_profiles : bool; h_profileExists : bool }.

(** The React state that [fetchData] reads and publishes. *)
Module AppState.
Record t := mk {
  students : list Student.t;
  attendance : list AttendanceRecord.t;
  dashboard : option DashboardData.t;
  dbHealth : db_health;
  selectedMonth : ym;
  attendanceDate : date
}.

Definition setStudents (v : list Student.t) (a : t) : t :=
  mk v (attendance a) (dashboard a) (dbHealth a) (selectedMonth a) (attendanceDate a).
Definition setAttendance (v : list AttendanceRecord.t) (a : t) : t :=
  mk (students a) v (dashboard a) (dbHealth a) (selectedMonth a) (attendanceDate a).
Definition setDashboard (v : DashboardData.t) (a : t) : t :=
  mk (students a) (attendance a) (Some v) (dbHealth a) (selectedMonth a) (attendanceDate a).
Definition setDbHealth (v : db_health) (a : t) : t :=
  mk (students a) (attendance a) (dashboard a) v (selectedMonth a) (attendanceDate a).
Definition setSelectedMonth (v : ym) (a : t) : t :=
  mk (students a) (attendance a) (dashboard a) (dbHealth a) v (attendanceDate a).
Definition setAttendanceDate (v : date) (a : t) : t :=
  mk (students a) (attendance a) (dashboard a) (dbHealth a) (selectedMonth a) v.
End AppState.

(** The [await] at which a call of [fetchData] is suspended. *)
Inductive pc :=
  | AwaitHealthStudents | AwaitHealthProfiles | AwaitMyProfile
  | AwaitStudents | AwaitAttendance
  | AwaitActiveStudents | AwaitPaidFees | AwaitLeftStudents | AwaitMonthlyAtt
  | Finished.

(** One call of [fetchData]: the [selectedMonth] and [attendanceDate] its
    closure captured, where it is suspended, and its local constants. *)
Record pass := mkPass {
  p_selectedMonth : ym;
  p_attendanceDate : date;
  p_pc : pc;
  p_studentsError : bool;
  p_profilesError : bool;
  p_activeStudents : option (list Student.t);
  p_paidFees : option (list Fee.t);
  p_leftStudents : option (list Z)
}.

Definition new_pass (m : ym) (d : date) : pass :=
  mkPass m d AwaitHealthStudents false false None None None.

Definition is_none {A} (o : option A) : bool :=
  match o with None => true | Some _ => false end.

Section Loop.
Variable tz : Z.
(** [session.user.id]. *)
Variable teacher : string.

(** The pass runs from the [await] it is suspended at to the next one.
    [resp] is the store as the pending query saw it, or [None] when the
    store could not be reached ([data] is [null], [error] is set). *)
Definition resume (resp : option Store) (p : pass) (app : AppState.t)
  : pass * AppState.t :=
  let m := p_selectedMonth p in
  let d := p_attendanceDate p in
  let at_ c se pe a f l := mkPass m d c se pe a f l in
  let se := p_studentsError p in
  let pe := p_profilesError p in
  let a := p_activeStudents p in
  let f := p_paidFees p in
  let l := p_leftStudents p in
  match p_pc p with
  | AwaitHealthStudents =>
      (at_ AwaitHealthProfiles (is_none resp) pe a f l, app)
  | AwaitHealthProfiles =>
      (at_ AwaitMyProfile se (is_none resp) a f l, app)
  | AwaitMyProfile =>
      let myProfile :=
        match resp with
        | Some s => existsb (String.eqb teacher) (tbl_profiles s)
        | None => false
        end in
      (at_ AwaitStudents se pe a f l,
       AppState.setDbHealth (mkHealth (negb se) (negb pe) myProfile) app)
  | AwaitStudents =>
      (at_ AwaitAttendance se pe a f l,
       match resp with
       | Some s => AppState.setStudents (tbl_students s) app
       | None => app
       end)
  | AwaitAttendance =>
      (at_ AwaitActiveStudents se pe a f l,
       match resp with
       | Some s => AppState.setAttendance (attendanceQuery d (tbl_attendance s)) app
       | None => app
       end)
  | AwaitActiveStudents =>
      (at_ AwaitPaidFees se pe
         (option_map (fun s => activeStudentsQuery tz m (tbl_students s)) resp) f l,
       app)
  | AwaitPaidFees =>
      (at_ AwaitLeftStudents se pe a
         (option_map (fun s => paidFeesQuery m (tbl_fees s)) resp) l,
       app)
  | AwaitLeftStudents =>
      (at_ AwaitMonthlyAtt se pe a f
         (option_map (fun s => leftStudentsQuery tz m (tbl_students s)) resp),
       app)
  | AwaitMonthlyAtt =>
      let monthlyAtt := option_map (fun s => monthlyAttQuery tz m (tbl_attendance s)) resp in
      (at_ Finished se pe a f l,
       match a, f with
       | Some activeStudents, Some paidFees =>
           AppState.setDashboard (mkDashboard activeStudents paidFees l monthlyAtt) app
       | _, _ => app
       end)
  | Finished => (p, app)
  end.

Fixpoint run_pass (resps : list (option Store)) (p : pass) (app : AppState.t)
  : pass * AppState.t :=
  match resps with
  | [] => (p, app)
  | r :: rs => let '(p', app') := resume r p app in run_pass rs p' app'
  end.

(** One call of [fetchData] running alone, with a signed-in session;
    [resps] are the answers to its nine queries, in order. *)
Definition fetchData (resps : list (option Store)) (app : AppState.t) : AppState.t :=
  snd (run_pass resps
         (new_pass (AppState.selectedMonth app) (AppState.attendanceDate app)) app).

(** The loop: the store, the published state and the calls of [fetchData]
    in flight. *)
Record world := mkWorld {
  w_store : Store;
  w_app : AppState.t;
  w_passes : list pass
}.

Inductive event :=
  | Trigger                         (** [fetchData()]: a change notification, or after a write *)
  | SelectMonth (m : ym)            (** [setSelectedMonth]; the effect calls [fetchData()] *)
  | SelectDate (d : date)           (** [setAttendanceDate]; the effect calls [fetchData()] *)
  | StoreChange (s : Store)         (** rows of the store are written *)
  | Resume (i : nat) (ok : bool).   (** the pending query of call [i] is answered, or fails *)

Definition start_pass (w : world) : world :=
  mkWorld (w_store w) (w_app w)
    (w_passes w ++ [new_pass (AppState.selectedMonth (w_app w))
                             (AppState.attendanceDate (w_app w))]).

Definition do_event (w : world) (e : event) : world :=
  match e with
  | Trigger => start_pass w
  | SelectMonth m =>
      start_pass (mkWorld (w_store w) (AppState.setSelectedMonth m (w_app w)) (w_passes w))
  | SelectDate d =>
      start_pass (mkWorld (w_store w) (AppState.setAttendanceDate d (w_app w)) (w_passes w))
  | StoreChange s => mkWorld s (w_app w) (w_passes w)
  | Resume i ok =>
      match w_passes w !! i with
      | Some p =>
          let '(p', app') :=
            resume (if ok then Some (w_store w) else None) p (w_app w) in
          mkWorld (w_store w) app' (<[i := p']> (w_passes w))
      | None => w
      end
  end.

Definition run (events : list event) (w : world) : world :=
  fold_left do_event events w.

End Loop.

Definition empty_store : Store := mkStore [] [] [] [].

(** The state [App] starts from: nothing published, no call in flight. *)
Definition initial_app (m : ym) (d : date) : AppState.t :=
  AppState.mk [] [] None (mkHealth true true true) m d.

Definition initial_world (s : Store) (m : ym) (d : date) : world :=
  mkWorld s (initial_app m d) [].

(* ===================================================================== *)
(** ** Notions used to state the properties *)
(* ===================================================================== *)

#[global] Instance date_eq_dec : EqDecision date.
Proof. solve_decision. Defined.

(** The tally a student's rows amount to. *)
Definition counts (records : list AttendanceRecord.t) (sid : Z) : stats :=
  mkStats (count_rows records sid Present) (count_rows records sid Absent)
          (count_rows records sid Leave) (count_rows records sid Holiday).

Definition stats_add (a b : stats) : stats :=
  mkStats (present a + present b) (absent a + absent b)
          (leave a + leave b) (holiday a + holiday b).

(** The periods selected in a run that starts at period [m0]. *)
Definition selected_in (m0 : ym) (events : list event) (m : ym) : Prop :=
  m = m0 \/ In (SelectMonth m) events.

Definition finished (p : pass) : bool :=
  match p_pc p with Finished => true | _ => false end.

(* ===================================================================== *)
(** ** Notions used to state the attendance report *)
(* ===================================================================== *)

#[global] Instance student_status_eq_dec : EqDecision student_status.
Proof. solve_decision. Defined.

(** The students the attendance report is to list: those whose status is
    Active and, when a class filter is set, whose class is the filter. *)
Definition reported (reportFilter : string) (s : Student.t) : Prop :=
  Student.status s = Active
  /\ (reportFilter = EmptyString \/ Student.class_grade s = reportFilter).

#[global] Instance reported_dec reportFilter s : Decision (reported reportFilter s).
Proof. unfold reported. apply _. Defined.

(** The day [d] belongs to the calendar month [M]. *)
Definition in_month (M : ym) (d : date) : bool :=
  (d_year d =? ym_year M) && (d_month d =? ym_month M).

(** A day that exists in its month, as a [date] column of the store holds. *)
Definition calendar_day (d : date) : bool :=
  (1 <=? d_day d) && (d_day d <=? days_in_month (d_year d) (d_month d)).

(** The attendance rows of month [M]. *)
Definition rows_in_month (M : ym) (att : list AttendanceRecord.t)
  : list AttendanceRecord.t :=
  List.filter (fun a => in_month M (AttendanceRecord.attendance_date a)) att.

(** The attendance rows of month [M] that are not dated on its last day. *)
Definition rows_before_last_day (M : ym) (att : list AttendanceRecord.t)
  : list AttendanceRecord.t :=
  List.filter
    (fun a => in_month M (AttendanceRecord.attendance_date a)
              && negb (date_eqb (AttendanceRecord.attendance_date a) (last_day_of M)))
    att.

(* ===================================================================== *)
(** ** The calls of [fetchData] in a run of the loop *)
(* ===================================================================== *)

(** What one call of [fetchData] is given: the period and the day its
    closure captured when it was started, and the answers that its queries
    have received so far, oldest first. *)
Record call := mkCall {
  c_selectedMonth : ym;
  c_attendanceDate : date;
  c_answers : list (option Store)
}.

(** The number of answers after which a call is suspended at an [await]. *)
Definition pc_index (c : pc) : nat :=
  match c with
  | AwaitHealthStudents => 0 | AwaitHealthProfiles => 1 | AwaitMyProfile => 2
  | AwaitStudents => 3 | AwaitAttendance => 4
  | AwaitActiveStudents => 5 | AwaitPaidFees => 6 | AwaitLeftStudents => 7
  | AwaitMonthlyAtt => 8
  | Finished => 9
  end.

Section History.
Variable tz : Z.
Variable teacher : string.

(** A call is started with the period and the day selected in [app]. *)
Definition log_start (app : AppState.t) (log : list call) : list call :=
  log ++ [mkCall (AppState.selectedMonth app) (AppState.attendanceDate app) []].

(** The calls after event [e] arrives in world [w].  A started call enters
    the list with the period and day selected at that moment.  An answer
    goes to the call it is addressed to while that call has a query pending
    (a call makes nine): it is the store as it is at that moment, or
    [None] for a query that fails. *)
Definition log_event (w : world) (log : list call) (e : event) : list call :=
  match e with
  | Trigger => log_start (w_app w) log
  | SelectMonth m => log_start (AppState.setSelectedMonth m (w_app w)) log
  | SelectDate d => log_start (AppState.setAttendanceDate d (w_app w)) log
  | StoreChange _ => log
  | Resume i ok =>
      match log !! i with
      | Some c =>
          if (length (c_answers c) <? 9)%nat
          then <[i := mkCall (c_selectedMonth c) (c_attendanceDate c)
                        (c_answers c ++ [if ok then Some (w_store w) else None])]> log
          else log
      | None => log
      end
  end.

(** The calls made in a run of the loop, in the order they were started,
    each with the answers it received. *)
Fixpoint history (events : list event) (w : world) (log : list call) : list call :=
  match events with
  | [] => log
  | e :: es => history es (do_event tz teacher w e) (log_event w log e)
  end.

(** The local state of a call that has been given [c]. *)
Definition replay (c : call) : pass :=
  fst (run_pass tz teacher (c_answers c)
         (new_pass (c_selectedMonth c) (c_attendanceDate c))
         (initial_app (c_selectedMonth c) (c_attendanceDate c))).

(** [d] is the dashboard that call [c] computes for the period it captured
    from the answers to its sixth to ninth query. *)
Definition dashboard_of_call (c : call) (d : DashboardData.t) : Prop :=
  exists (r1 r2 r3 r4 r5 r8 r9 : option Store) (s6 s7 : Store),
    c_answers c = [r1; r2; r3; r4; r5; Some s6; Some s7; r8; r9]
    /\ d = mkDashboard
             (activeStudentsQuery tz (c_selectedMonth c) (tbl_students s6))
             (paidFeesQuery (c_selectedMonth c) (tbl_fees s7))
             (option_map (fun s => leftStudentsQuery tz (c_selectedMonth c) (tbl_students s)) r8)
             (option_map (fun s => monthlyAttQuery tz (c_selectedMonth c) (tbl_attendance s)) r9).

(** The periods that are ever selected and the contents the store ever
    has. *)
Variable selected : ym -> Prop.
Variable stored : Store -> Prop.

Definition call_ok (c : call) : Prop :=
  selected (c_selectedMonth c)
  /\ Forall (fun r => forall s, r = Some s -> stored s) (c_answers c).

(** The calls in flight are in the state their answers brought them to, and
    the published dashboard is the one some call computed. *)
Definition history_ok (w : world) (log : list call) : Prop :=
  selected (AppState.selectedMonth (w_app w))
  /\ stored (w_store w)
  /\ Forall2 (fun p c => p = replay c) (w_passes w) log
  /\ Forall call_ok log
  /\ forall d, AppState.dashboard (w_app w) = Some d ->
               exists i c, log !! i = Some c /\ dashboard_of_call c d.
End History.

(* ===================================================================== *)
(** ** Helpers of the views: initials, badges, class options *)
(* ===================================================================== *)

Definition space : ascii := " "%char.

(** [String.prototype.toUpperCase], on the ASCII letters. *)
Definition upper_ascii (c : ascii) : ascii :=
  let n := nat_of_ascii c in
  if ((97 <=? n) && (n <=? 122))%nat then ascii_of_nat (n - 32) else c.

Fixpoint toUpperCase (s : string) : string :=
  match s with
  | EmptyString => EmptyString
  | String c r => String (upper_ascii c) (toUpperCase r)
  end.

(** [n[0]] as [join('')] prints it: the first character, or nothing for the
    empty string ([undefined] joins as the empty string). *)
Definition first_char (n : string) : string :=
  match n with
  | EmptyString => EmptyString
  | String c _ => String c EmptyString
  end.

(** [name.split(' ').map(n => n[0]).join('').substring(0, 2).toUpperCase()]. *)
Definition getInitials (name : string) : string :=
  toUpperCase
    (String.substring 0 2
       (String.concat EmptyString (List.map first_char (split_on space name)))).

Fixpoint all_chars (p : ascii -> bool) (s : string) : bool :=
  match s with
  | EmptyString => true
  | String c r => p c && all_chars p r
  end.

(** Text of 7-bit characters, on which the byte strings of this development
    and the case mappings above are those of JavaScript. *)
Definition ascii_only (s : string) : bool :=
  all_chars (fun c => (nat_of_ascii c <? 128)%nat) s.

Definition is_lower (c : ascii) : bool :=
  ((97 <=? nat_of_ascii c) && (nat_of_ascii c <=? 122))%nat.

(** The fees view: [dashboard?.paidFees.find(f => f.student_id === s.id)]. *)
Definition isPaid (dashboard : option DashboardData.t) (s : Student.t) : option Fee.t :=
  match dashboard with
  | None => None
  | Some d =>
      List.find (fun f => Fee.student_id f =? Student.id s) (DashboardData.paidFees d)
  end.

(** The attendance view: [attendance.find(a => a.student_id === s.id)]. *)
Definition attendance_record (attendance : list AttendanceRecord.t) (s : Student.t)
  : option AttendanceRecord.t :=
  List.find (fun a => AttendanceRecord.student_id a =? Student.id s) attendance.

(** [new Set(xs)] spread into an array: the elements in the order of their
    first occurrence. *)
Fixpoint set_order (seen : list string) (xs : list string) : list string :=
  match xs with
  | [] => []
  | x :: r =>
      if existsb (String.eqb x) seen then set_order seen r
      else x :: set_order (x :: seen) r
  end.

Fixpoint insert_sorted (x : string) (l : list string) : list string :=
  match l with
  | [] => [x]
  | y :: r => if String.leb x y then x :: l else y :: insert_sorted x r
  end.

(** [Array.prototype.sort()] with the default comparison, on strings: the
    ascending arrangement (how an engine gets there is not observable). *)
Definition sort_strings (l : list string) : list string :=
  fold_right insert_sorted [] l.

(** The class options of the attendance and reports views:
    [[...new Set(students.map(s => s.class_grade))].sort()]. *)
Definition classOptions (students : list Student.t) : list string :=
  sort_strings (set_order [] (List.map Student.class_grade students)).

(* ===================================================================== *)
(** ** The fees export of the earlier variant of [App] *)
(* ===================================================================== *)

Inductive export_outcome :=
  | NoFile                   (** [return] before anything is built *)
  | Throws                   (** a [TypeError] escapes the handler *)
  | File (content : string).

(** The row of the earlier [exportCSV]: [f.student.full_name] without
    optional chaining or fallback; reading [full_name] of a missing
    [student] throws. *)
Definition fee_row_v0 (f : Fee.t) : option (list cell) :=
  match Fee.student f with
  | None => None
  | Some j =>
      Some [CStr (Fee.j_full_name j);
            CNum (Fee.amount f);
            CStr (Fee.paid_date f);
            CStr (payment_mode_to_string (Fee.payment_mode f));
            CStr (or_else (Fee.payment_reference f) "")]
  end.

(** [paidFees.map(f => [...])], stopped by the first row that throws. *)
Fixpoint fee_rows_v0 (fees : list Fee.t) : option (list (list cell)) :=
  match fees with
  | [] => Some []
  | f :: r =>
      match fee_row_v0 f with
      | None => None
      | Some e =>
          match fee_rows_v0 r with
          | None => None
          | Some es => Some (e :: es)
          end
      end
  end.

Definition exportCSV_v0 (dashboard : option DashboardData.t) : export_outcome :=
  match dashboard with
  | None => NoFile
  | Some d =>
      match fee_rows_v0 (DashboardData.paidFees d) with
      | None => Throws
      | Some rows => File (csvContent fees_headers rows)
      end
  end.

(* ===================================================================== *)
(** ** [markAsLeft] *)
(* ===================================================================== *)

(** [new Date().toISOString().split('T')[0]] at the instant [now]. *)
Definition today_iso (now : Z) : date := JSDate.toISODate now.

(** Modelled from the spec: [update({ status: 'Left', leaving_date }).eq('id', id)]
    is executed by the hosted table store; following section 6
    ([updateStudentStatus(id, Left, leavingDate)]) it sets the two columns
    of the rows whose [id] is the given one and leaves the others. *)
Definition updateStudentStatus (id : Z) (leaving : date) (students : list Student.t)
  : list Student.t :=
  List.map
    (fun s =>
       if Student.id s =? id
       then Student.mk (Student.id s) (Student.full_name s) (Student.class_grade s)
              (Student.parent_phone s) (Student.admission_date s)
              (Student.batch_timing s) Left (Some leaving)
       else s)
    students.

(** [markAsLeft(id)]: nothing is written unless the [confirm] dialog is
    accepted. *)
Definition markAsLeft (confirmed : bool) (now : Z) (id : Z) (students : list Student.t)
  : list Student.t :=
  if confirmed then updateStudentStatus id (today_iso now) students else students.

(** [leaving_date] is set if and only if [status] is [Left]. *)
Definition leaving_consistent (s : Student.t) : bool :=
  match Student.status s, Student.leaving_date s with
  | Left, Some _ | Active, None => true
  | _, _ => false
  end.

#[local] Set Warnings "-clear-no-such-hyp".

(* ===================================================================== *)
(** * Properties *)
(* ===================================================================== *)

(** ** The calendar *)

Lemma date_eqb_eq a b : date_eqb a b = true <-> a = b.
Proof.
  unfold date_eqb. destruct a as [y1 m1 d1], b as [y2 m2 d2]; cbn [d_year d_month d_day].
  rewrite !andb_true_iff, !Z.eqb_eq. split.
  - intros [[-> ->] ->]. reflexivity.
  - intros [= -> -> ->]. auto.
Qed.

Lemma date_leb_refl a : date_leb a a = true.
Proof.
  unfold date_leb. rewrite !Z.eqb_refl, Z.leb_refl, !orb_true_r. reflexivity.
Qed.

Lemma ym_eqb_eq a b : ym_eqb a b = true <-> a = b.
Proof.
  unfold ym_eqb. destruct a as [y1 m1], b as [y2 m2]; cbn [ym_year ym_month].
  rewrite andb_true_iff, !Z.eqb_eq. split.
  - intros [-> ->]. reflexivity.
  - intros [= -> ->]. auto.
Qed.

Lemma days_from_civil_period y m d k :
  JSDate.days_from_civil (y + 400 * k) m d = JSDate.days_from_civil y m d + 146097 * k.
Proof.
  unfold JSDate.days_from_civil. cbv zeta.
  set (y1 := if m <=? 2 then y + 400 * k - 1 else y + 400 * k).
  set (y0 := if m <=? 2 then y - 1 else y).
  assert (Hy : y1 = y0 + k * 400) by (unfold y1, y0; destruct (m <=? 2); lia).
  rewrite Hy, Z.div_add by lia.
  replace (y0 + k * 400 - (y0 / 400 + k) * 400) with (y0 - y0 / 400 * 400) by lia.
  lia.
Qed.

Lemma civil_from_days_period z k :
  JSDate.civil_from_days (z + 146097 * k) =
  mkDate (d_year (JSDate.civil_from_days z) + 400 * k)
    (d_month (JSDate.civil_from_days z)) (d_day (JSDate.civil_from_days z)).
Proof.
  unfold JSDate.civil_from_days. cbv zeta.
  replace (z + 146097 * k + 719468) with (z + 719468 + k * 146097) by lia.
  rewrite Z.div_add by lia.
  set (era := (z + 719468) / 146097).
  replace (z + 719468 + k * 146097 - (era + k) * 146097)
    with (z + 719468 - era * 146097) by lia.
  set (doe := z + 719468 - era * 146097).
  cbn [d_year d_month d_day].
  f_equal. destruct (_ <=? 2); lia.
Qed.

Lemma is_leap_period y k : is_leap (y + 400 * k) = is_leap y.
Proof.
  unfold is_leap.
  replace (y + 400 * k) with (y + (100 * k) * 4) at 1 by lia.
  replace (y + 400 * k) with (y + (4 * k) * 100) at 1 by lia.
  replace (y + 400 * k) with (y + k * 400) by lia.
  now rewrite !Z.mod_add by lia.
Qed.

Lemma days_in_month_period y m k : days_in_month (y + 400 * k) m = days_in_month y m.
Proof. unfold days_in_month. now rewrite is_leap_period. Qed.

Lemma MakeDay_period y m d k :
  JSDate.MakeDay (y + 400 * k) m d = JSDate.MakeDay y m d + 146097 * k.
Proof.
  unfold JSDate.MakeDay.
  replace (y + 400 * k + m / 12) with (y + m / 12 + 400 * k) by lia.
  rewrite days_from_civil_period. lia.
Qed.

Lemma forallb_seq (P : nat -> bool) N :
  forallb P (seq 0 N) = true -> forall n, (n < N)%nat -> P n = true.
Proof.
  intros H n Hn. rewrite forallb_forall in H. apply H. apply in_seq. lia.
Qed.

Lemma cycle_computed :
  forallb (fun n => forallb (month_facts (Z.of_nat n)) months) (seq 0 400) = true.
Proof. vm_compute. reflexivity. Qed.

Lemma cycle_table n m :
  (n < 400)%nat -> 1 <= m <= 12 -> month_facts (Z.of_nat n) m = true.
Proof.
  intros Hn Hm.
  pose proof (forallb_seq (fun n => forallb (month_facts (Z.of_nat n)) months)
                400 cycle_computed n Hn) as H.
  rewrite forallb_forall in H. apply H.
  assert (Hc : m = 1 \/ m = 2 \/ m = 3 \/ m = 4 \/ m = 5 \/ m = 6 \/ m = 7
               \/ m = 8 \/ m = 9 \/ m = 10 \/ m = 11 \/ m = 12) by lia.
  unfold months. cbn [In]. intuition auto.
Qed.

Lemma month_facts_iff y m :
  month_facts y m = true <->
  JSDate.civil_from_days (JSDate.days_from_civil y m 1) = mkDate y m 1
  /\ JSDate.civil_from_days (JSDate.MakeDay y m 0) = last_day_of (mkYm y m)
  /\ JSDate.civil_from_days (JSDate.MakeDay y m 0 - 1) = mkDate y m (days_in_month y m - 1)
  /\ JSDate.civil_from_days (JSDate.days_from_civil y m 1 - 1)
     = last_day_of (prev_month (mkYm y m)).
Proof.
  unfold month_facts. rewrite !andb_true_iff, !date_eqb_eq. tauto.
Qed.

(** Every year lies in the first 400-year cycle up to whole cycles. *)
Lemma month_facts_cycle y m :
  1 <= m <= 12 -> exists y0 k, y = y0 + 400 * k /\ month_facts y0 m = true.
Proof.
  intros Hm. exists (y mod 400), (y / 400).
  pose proof (Z.mod_pos_bound y 400 ltac:(lia)) as Hb.
  pose proof (Z.div_mod y 400 ltac:(lia)) as Hd.
  split; [lia|].
  rewrite <- (Z2Nat.id (y mod 400)) by lia.
  apply cycle_table; lia.
Qed.

Lemma shift_date c y m d k :
  c = mkDate y m d ->
  mkDate (d_year c + 400 * k) (d_month c) (d_day c) = mkDate (y + 400 * k) m d.
Proof. intros ->. reflexivity. Qed.

Lemma civil_first y m :
  1 <= m <= 12 -> JSDate.civil_from_days (JSDate.days_from_civil y m 1) = mkDate y m 1.
Proof.
  intros Hm. destruct (month_facts_cycle y m Hm) as (y0 & k & -> & H).
  apply month_facts_iff in H. destruct H as (H & _).
  rewrite days_from_civil_period, civil_from_days_period.
  now apply shift_date.
Qed.

Lemma civil_last y m :
  1 <= m <= 12 -> JSDate.civil_from_days (JSDate.MakeDay y m 0) = last_day_of (mkYm y m).
Proof.
  intros Hm. destruct (month_facts_cycle y m Hm) as (y0 & k & -> & H).
  apply month_facts_iff in H. destruct H as (_ & H & _).
  rewrite MakeDay_period, civil_from_days_period.
  unfold last_day_of in *. cbn [ym_year ym_month] in *.
  rewrite days_in_month_period. now apply shift_date.
Qed.

Lemma civil_before_last y m :
  1 <= m <= 12 ->
  JSDate.civil_from_days (JSDate.MakeDay y m 0 - 1) = mkDate y m (days_in_month y m - 1).
Proof.
  intros Hm. destruct (month_facts_cycle y m Hm) as (y0 & k & -> & H).
  apply month_facts_iff in H. destruct H as (_ & _ & H & _).
  rewrite MakeDay_period.
  replace (JSDate.MakeDay y0 m 0 + 146097 * k - 1)
    with (JSDate.MakeDay y0 m 0 - 1 + 146097 * k) by lia.
  rewrite civil_from_days_period, days_in_month_period. now apply shift_date.
Qed.

Lemma civil_before_first y m :
  1 <= m <= 12 ->
  JSDate.civil_from_days (JSDate.days_from_civil y m 1 - 1)
  = last_day_of (prev_month (mkYm y m)).
Proof.
  intros Hm. destruct (month_facts_cycle y m Hm) as (y0 & k & -> & H).
  apply month_facts_iff in H. destruct H as (_ & _ & _ & H).
  rewrite days_from_civil_period.
  replace (JSDate.days_from_civil y0 m 1 + 146097 * k - 1)
    with (JSDate.days_from_civil y0 m 1 - 1 + 146097 * k) by lia.
  rewrite civil_from_days_period.
  unfold last_day_of, prev_month in *. cbn [ym_year ym_month] in *.
  destruct (m =? 1); cbn [ym_year ym_month] in *.
  - replace (y0 + 400 * k - 1) with (y0 - 1 + 400 * k) by lia.
    rewrite days_in_month_period. now apply shift_date.
  - rewrite days_in_month_period. now apply shift_date.
Qed.

(** ** [endOfMonth] on hosts at, east of and west of UTC *)

Lemma Day_LocalTime_east tz D :
  0 <= tz < 1440 -> JSDate.Day (JSDate.LocalTime tz (JSDate.MakeDate D 0)) = D.
Proof.
  intros H.
  unfold JSDate.Day, JSDate.LocalTime, JSDate.MakeDate, JSDate.msPerDay, JSDate.msPerMinute.
  Z.div_mod_to_equations. lia.
Qed.

Lemma Day_LocalTime_west tz D :
  -1440 <= tz < 0 -> JSDate.Day (JSDate.LocalTime tz (JSDate.MakeDate D 0)) = D - 1.
Proof.
  intros H.
  unfold JSDate.Day, JSDate.LocalTime, JSDate.MakeDate, JSDate.msPerDay, JSDate.msPerMinute.
  Z.div_mod_to_equations. lia.
Qed.

Lemma Day_UTC_east tz D :
  0 < tz <= 1440 -> JSDate.Day (JSDate.UTC tz (JSDate.MakeDate D 0)) = D - 1.
Proof.
  intros H.
  unfold JSDate.Day, JSDate.UTC, JSDate.MakeDate, JSDate.msPerDay, JSDate.msPerMinute.
  Z.div_mod_to_equations. lia.
Qed.

Lemma Day_UTC_west tz D :
  -1440 < tz <= 0 -> JSDate.Day (JSDate.UTC tz (JSDate.MakeDate D 0)) = D.
Proof.
  intros H.
  unfold JSDate.Day, JSDate.UTC, JSDate.MakeDate, JSDate.msPerDay, JSDate.msPerMinute.
  Z.div_mod_to_equations. lia.
Qed.

Lemma MakeDay_first y m :
  1 <= m <= 12 -> JSDate.MakeDay y (m - 1) 1 = JSDate.days_from_civil y m 1.
Proof.
  intros H. unfold JSDate.MakeDay.
  rewrite Z.div_small, Z.mod_small by lia.
  replace (y + 0) with y by lia. replace (m - 1 + 1) with m by lia. lia.
Qed.

Lemma of_local_ymd_last tz y m :
  100 <= y ->
  JSDate.of_local_ymd tz y m 0 = JSDate.UTC tz (JSDate.MakeDate (JSDate.MakeDay y m 0) 0).
Proof.
  intros H. unfold JSDate.of_local_ymd.
  replace (y <=? 99) with false by (symmetry; apply Z.leb_gt; lia).
  now rewrite andb_false_r.
Qed.

(** What [endOfMonth] computes, in terms of the local date of the UTC
    midnight that starts the month. *)
Lemma endOfMonth_unfold tz M :
  1 <= ym_month M <= 12 ->
  endOfMonth tz M =
  JSDate.toISODate
    (JSDate.of_local_ymd tz
       (d_year (JSDate.civil_from_days (JSDate.Day (JSDate.LocalTime tz
          (JSDate.MakeDate (JSDate.days_from_civil (ym_year M) (ym_month M) 1) 0)))))
       (d_month (JSDate.civil_from_days (JSDate.Day (JSDate.LocalTime tz
          (JSDate.MakeDate (JSDate.days_from_civil (ym_year M) (ym_month M) 1) 0))))
        - 1 + 1) 0).
Proof.
  intros Hm.
  unfold endOfMonth, JSDate.getFullYear, JSDate.getMonth, JSDate.YearFromTime,
    JSDate.MonthFromTime, JSDate.parse_date_only, startOfMonth.
  cbn [d_year d_month d_day]. rewrite MakeDay_first by exact Hm. reflexivity.
Qed.

(** On a host at UTC, [endOfMonth] is the last calendar day of the month. *)
Lemma endOfMonth_utc M :
  100 <= ym_year M -> 1 <= ym_month M <= 12 ->
  endOfMonth 0 M = last_day_of M.
Proof.
  intros Hy Hm. rewrite endOfMonth_unfold by exact Hm.
  rewrite Day_LocalTime_east by lia. rewrite civil_first by exact Hm.
  cbn [d_year d_month].
  replace (ym_month M - 1 + 1) with (ym_month M) by lia.
  rewrite of_local_ymd_last by exact Hy. unfold JSDate.toISODate.
  rewrite Day_UTC_west by lia. rewrite civil_last by exact Hm.
  destruct M; reflexivity.
Qed.

(** On a host east of UTC (Asia/Kolkata is at +330 minutes), local midnight
    of the last day is still the day before in UTC: [endOfMonth] is the day
    before the last calendar day. *)
Lemma endOfMonth_east tz M :
  0 < tz < 1440 -> 100 <= ym_year M -> 1 <= ym_month M <= 12 ->
  endOfMonth tz M =
  mkDate (ym_year M) (ym_month M) (days_in_month (ym_year M) (ym_month M) - 1).
Proof.
  intros Htz Hy Hm. rewrite endOfMonth_unfold by exact Hm.
  rewrite Day_LocalTime_east by lia. rewrite civil_first by exact Hm.
  cbn [d_year d_month].
  replace (ym_month M - 1 + 1) with (ym_month M) by lia.
  rewrite of_local_ymd_last by exact Hy. unfold JSDate.toISODate.
  rewrite Day_UTC_east by lia. now rewrite civil_before_last by exact Hm.
Qed.

Lemma prev_month_range M :
  1 <= ym_month M <= 12 ->
  1 <= ym_month (prev_month M) <= 12 /\ ym_year M - 1 <= ym_year (prev_month M).
Proof.
  intros H. unfold prev_month. destruct (Z.eqb_spec (ym_month M) 1); cbn; lia.
Qed.

(** On a host west of UTC, the UTC midnight that starts the month still
    belongs to the month before in local time: [endOfMonth] is the last day
    of the month before. *)
Lemma endOfMonth_west tz M :
  -1440 < tz < 0 -> 101 <= ym_year M -> 1 <= ym_month M <= 12 ->
  endOfMonth tz M = last_day_of (prev_month M).
Proof.
  intros Htz Hy Hm. rewrite endOfMonth_unfold by exact Hm.
  rewrite Day_LocalTime_west by lia. rewrite civil_before_first by exact Hm.
  replace (mkYm (ym_year M) (ym_month M)) with M by (destruct M; reflexivity).
  destruct (prev_month_range M Hm) as [Hpm Hpy].
  unfold last_day_of at 1 2. cbn [d_year d_month].
  replace (ym_month (prev_month M) - 1 + 1) with (ym_month (prev_month M)) by lia.
  rewrite of_local_ymd_last by lia. unfold JSDate.toISODate.
  rewrite Day_UTC_west by lia. rewrite civil_last by exact Hpm.
  destruct (prev_month M); reflexivity.
Qed.

Example endOfMonth_utc_jan : endOfMonth 0 (mkYm 2024 1) = mkDate 2024 1 31.
Proof. reflexivity. Qed.

Example endOfMonth_utc_feb : endOfMonth 0 (mkYm 2024 2) = mkDate 2024 2 29.
Proof. reflexivity. Qed.

Example endOfMonth_kolkata_jan : endOfMonth 330 (mkYm 2024 1) = mkDate 2024 1 30.
Proof. reflexivity. Qed.

Example endOfMonth_new_york_jan : endOfMonth (-300) (mkYm 2024 1) = mkDate 2023 12 31.
Proof. reflexivity. Qed.

(** ** The active set (query 1 of [fetchData]) *)

Lemma student_status_eqb_eq a b : student_status_eqb a b = true <-> a = b.
Proof. destruct a, b; cbn; split; congruence. Qed.

(** The filter of the query is the inclusion rule of the specification: the
    [or] of the query has no [status = Left] conjunct, but a status is
    [Active] or [Left], and a missing [leaving_date] satisfies no
    comparison. *)
Lemma active_filter_iff som eom s :
  active_filter som eom s = true <->
  date_leb (Student.admission_date s) eom = true
  /\ (Student.status s = Active
      \/ (Student.status s = Left
          /\ exists d, Student.leaving_date s = Some d /\ date_leb som d = true)).
Proof.
  unfold active_filter, opt_date_gte.
  rewrite andb_true_iff, orb_true_iff, student_status_eqb_eq.
  split; intros [Ha Hb]; (split; [exact Ha|]).
  - destruct Hb as [Hb|Hb]; [now left|].
    destruct (Student.status s); [now left|right].
    split; [reflexivity|]. destruct (Student.leaving_date s) as [d|]; [eauto|discriminate].
  - destruct Hb as [Hb|(_ & d & -> & Hd)]; [now left|now right].
Qed.

Lemma activeStudentsQuery_In tz M students s :
  In s (activeStudentsQuery tz M students) <->
  In s students
  /\ date_leb (Student.admission_date s) (endOfMonth tz M) = true
  /\ (Student.status s = Active
      \/ (Student.status s = Left
          /\ exists d, Student.leaving_date s = Some d
                       /\ date_leb (startOfMonth M) d = true)).
Proof.
  unfold activeStudentsQuery. rewrite filter_In, active_filter_iff. tauto.
Qed.

(** On a host at UTC the active set is the one the inclusion rule
    describes, with the last calendar day of the month as its bound. *)
Lemma active_set_rule_utc M students s :
  100 <= ym_year M -> 1 <= ym_month M <= 12 ->
  In s (activeStudentsQuery 0 M students) <->
  In s students
  /\ date_leb (Student.admission_date s) (last_day_of M) = true
  /\ (Student.status s = Active
      \/ (Student.status s = Left
          /\ exists d, Student.leaving_date s = Some d
                       /\ date_leb (startOfMonth M) d = true)).
Proof.
  intros Hy Hm. rewrite activeStudentsQuery_In, endOfMonth_utc by assumption. tauto.
Qed.

(** East of UTC no student admitted on the last day of the month is in the
    active set of that month, whatever the status. *)
Lemma active_set_east_drops_last_day tz M students s :
  0 < tz < 1440 -> 100 <= ym_year M -> 1 <= ym_month M <= 12 ->
  Student.admission_date s = last_day_of M ->
  ~ In s (activeStudentsQuery tz M students).
Proof.
  intros Htz Hy Hm Hadm Hin. apply activeStudentsQuery_In in Hin.
  destruct Hin as (_ & Hle & _).
  rewrite Hadm, endOfMonth_east in Hle by assumption.
  unfold date_leb, last_day_of in Hle. cbn [d_year d_month d_day] in Hle.
  rewrite !Z.ltb_irrefl, !Z.eqb_refl in Hle. cbn [orb andb] in Hle.
  apply Z.leb_le in Hle. lia.
Qed.

(** C1 (code defect).  The specification includes a student in the active
    set of month M iff [admission_date <= end-of-month(M)] and the student
    is Active or left on or after the first of M.  On a host east of UTC
    [fetchData] bounds admissions by the day before the last day of M: with
    the browser in Asia/Kolkata (UTC+05:30) and [selectedMonth = 2024-01],
    an Active student admitted on 2024-01-31 satisfies the rule and is
    absent from the active set. *)
Theorem C1_active_set_drops_last_day :
  let M := mkYm 2024 1 in
  let s := Student.mk 1 "Asha" "10" "9000000001" (mkDate 2024 1 31) None Active None in
  date_leb (Student.admission_date s) (last_day_of M) = true
  /\ Student.status s = Active
  /\ endOfMonth 330 M = mkDate 2024 1 30
  /\ activeStudentsQuery 330 M [s] = []
  /\ activeStudentsQuery 0 M [s] = [s].
Proof. cbv zeta. repeat split; reflexivity. Qed.

(** ** Fee reconciliation *)

Lemma fold_amounts rows acc :
  fold_left (fun sum f => sum + Fee.amount f) rows acc = acc + sum_amounts rows.
Proof.
  unfold sum_amounts. revert acc.
  induction rows as [|f rows IH]; intros acc; cbn [fold_left].
  - lia.
  - rewrite IH, (IH (0 + Fee.amount f)). lia.
Qed.

Lemma sum_amounts_cons f rows : sum_amounts (f :: rows) = Fee.amount f + sum_amounts rows.
Proof. unfold sum_amounts at 1. cbn [fold_left]. rewrite fold_amounts. lia. Qed.


(** Splitting the rows by any test splits the sum. *)
Lemma sum_amounts_partition (p : Fee.t -> bool) rows :
  sum_amounts rows
  = sum_amounts (List.filter p rows) + sum_amounts (List.filter (fun f => negb (p f)) rows).
Proof.
  induction rows as [|f rows IH]; [reflexivity|].
  cbn [List.filter]. destruct (p f); cbn [negb]; rewrite !sum_amounts_cons; lia.
Qed.

Lemma filter_ext_bool {A} (p q : A -> bool) l :
  (forall x, p x = q x) -> List.filter p l = List.filter q l.
Proof.
  intros H. induction l as [|x l IH]; [reflexivity|].
  cbn [List.filter]. rewrite H, IH. reflexivity.
Qed.

Lemma payment_mode_split m : payment_mode_eqb m Online = negb (payment_mode_eqb m Cash).
Proof. destruct m; reflexivity. Qed.

Lemma paidStudentIds_spec paidFees sid :
  sid ∈ paidStudentIds paidFees <-> exists f, In f paidFees /\ Fee.student_id f = sid.
Proof.
  unfold paidStudentIds. rewrite elem_of_list_to_set, list_elem_of_In, in_map_iff.
  split; intros (f & H1 & H2); exists f; tauto.
Qed.

Lemma paidFeesQuery_In M fees f :
  In f (paidFeesQuery M fees) <-> In f fees /\ Fee.fee_month f = M.
Proof. unfold paidFeesQuery. rewrite filter_In, ym_eqb_eq. reflexivity. Qed.

Lemma unpaidStudents_In activeStudents paidFees s :
  In s (unpaidStudents_of activeStudents paidFees) <->
  In s activeStudents /\ ~ exists f, In f paidFees /\ Fee.student_id f = Student.id s.
Proof.
  unfold unpaidStudents_of. rewrite filter_In, negb_true_iff, bool_decide_eq_false.
  rewrite paidStudentIds_spec. reflexivity.
Qed.



(** In exact integer arithmetic the Cash sum plus the Online sum is the
    total: a payment mode is Cash or Online, so the two filters split the
    rows. *)
Lemma exact_cash_plus_online (paidFees : list Fee.t) :
  cashCollected_of paidFees + onlineCollected_of paidFees = totalCollected_of paidFees.
Proof.
  unfold cashCollected_of, onlineCollected_of, totalCollected_of.
  rewrite (sum_amounts_partition (fun f => payment_mode_eqb (Fee.payment_mode f) Cash) paidFees).
  f_equal. f_equal. apply filter_ext_bool. intros f. apply payment_mode_split.
Qed.

Lemma round_double_exact x : Z.abs x <= safe_bound -> round_double x = x.
Proof.
  intros H. unfold round_double. cbv zeta.
  now rewrite (proj2 (Z.leb_le _ _) H).
Qed.

Lemma abs_total_nonneg rows : 0 <= abs_total rows.
Proof. induction rows as [|f rows IH]; cbn [abs_total fold_right]; [lia|]. unfold abs_total in IH. lia. Qed.

Lemma abs_total_filter (p : Fee.t -> bool) rows :
  abs_total (List.filter p rows) <= abs_total rows.
Proof.
  induction rows as [|f rows IH]; [reflexivity|].
  cbn [List.filter]. destruct (p f); cbn [abs_total fold_right] in *; unfold abs_total in *; lia.
Qed.

(** Within the exact range the double sum is the exact sum. *)
Lemma reduce_exact rows : forall acc,
  Z.abs acc + abs_total rows <= safe_bound ->
  fold_left (fun sum f => js_add sum (Fee.amount f)) rows acc = acc + sum_amounts rows.
Proof.
  induction rows as [|f rows IH]; intros acc H; cbn [fold_left].
  - unfold sum_amounts. cbn [fold_left]. lia.
  - cbn [abs_total fold_right] in H. fold (abs_total rows) in H.
    pose proof (abs_total_nonneg rows).
    unfold js_add at 2. rewrite round_double_exact by lia.
    rewrite IH by lia. rewrite sum_amounts_cons. lia.
Qed.

Lemma reduce_amounts_exact rows :
  abs_total rows <= safe_bound -> reduce_amounts rows = sum_amounts rows.
Proof.
  intros H. unfold reduce_amounts. rewrite reduce_exact by (cbn; lia). lia.
Qed.

(** The claim of C3 fails beyond the range where doubles are exact: with a
    Cash payment of 2^53 and two Online payments of 1, the running total
    stays at 2^53 (2^53 + 1 rounds back to 2^53, twice), the Cash sum is
    2^53 and the Online sum is 2, so Cash plus Online is 2 more than the
    total, in exact and in double arithmetic alike. *)
Lemma C3_rounded_total_counterexample :
  let M := mkYm 2024 1 in
  let fees := [Fee.mk 1 1 M 9007199254740992 "2024-01-05" Cash None None;
               Fee.mk 2 2 M 1 "2024-01-06" Online None None;
               Fee.mk 3 3 M 1 "2024-01-07" Online None None] in
  totalCollected_js fees = 9007199254740992
  /\ cashCollected_js fees = 9007199254740992
  /\ onlineCollected_js fees = 2
  /\ cashCollected_js fees + onlineCollected_js fees = totalCollected_js fees + 2
  /\ js_add (cashCollected_js fees) (onlineCollected_js fees) = totalCollected_js fees + 2.
Proof. cbv zeta. repeat split; vm_compute; reflexivity. Qed.

(** C3 (amended).  For every reconciled fee result whose amounts have
    magnitudes that add up to at most 2^53, the sums the code computes in
    double arithmetic are the exact sums, and the Cash sum plus the Online
    sum is the total. *)
Theorem C3_cash_plus_online_is_total_when_exact
    (activeStudents : list Student.t) (paidFees : list Fee.t)
    (leftStudents : option (list Z)) (monthlyAtt : option (list AttendanceRecord.t)) :
  abs_total paidFees <= 2 ^ 53 ->
  let d := mkDashboard activeStudents paidFees leftStudents monthlyAtt in
  totalCollected_js paidFees = DashboardData.totalCollected d
  /\ cashCollected_js paidFees = DashboardData.cashCollected d
  /\ onlineCollected_js paidFees = DashboardData.onlineCollected d
  /\ cashCollected_js paidFees + onlineCollected_js paidFees = totalCollected_js paidFees
  /\ js_add (cashCollected_js paidFees) (onlineCollected_js paidFees)
     = totalCollected_js paidFees
  /\ DashboardData.cashCollected d + DashboardData.onlineCollected d
     = DashboardData.totalCollected d.
Proof.
  intros H. cbv zeta.
  cbn [mkDashboard DashboardData.cashCollected DashboardData.onlineCollected
       DashboardData.totalCollected].
  change (2 ^ 53) with safe_bound in H.
  pose proof (abs_total_filter (fun f => payment_mode_eqb (Fee.payment_mode f) Cash) paidFees).
  pose proof (abs_total_filter (fun f => payment_mode_eqb (Fee.payment_mode f) Online) paidFees).
  assert (Ht : totalCollected_js paidFees = totalCollected_of paidFees)
    by (apply reduce_amounts_exact; exact H).
  assert (Hc : cashCollected_js paidFees = cashCollected_of paidFees)
    by (apply reduce_amounts_exact; lia).
  assert (Ho : onlineCollected_js paidFees = onlineCollected_of paidFees)
    by (apply reduce_amounts_exact; lia).
  pose proof (exact_cash_plus_online paidFees) as Hsum.
  rewrite Ht, Hc, Ho.
  split; [reflexivity|]. split; [reflexivity|]. split; [reflexivity|].
  split; [exact Hsum|]. split; [|exact Hsum].
  unfold js_add. rewrite Hsum, round_double_exact; [reflexivity|].
  rewrite <- Ht. unfold totalCollected_js. rewrite reduce_amounts_exact by exact H.
  assert (Hb : forall rows, Z.abs (sum_amounts rows) <= abs_total rows).
  { clear. induction rows as [|f rows IH]; [cbn; lia|].
    rewrite sum_amounts_cons. cbn [abs_total fold_right]. fold (abs_total rows). lia. }
  specialize (Hb paidFees). lia.
Qed.

Lemma C3_cash_plus_online_is_total_when_exact_witness :
  let fees := [Fee.mk 1 1 (mkYm 2024 1) 500 "2024-01-05" Cash None None;
               Fee.mk 2 2 (mkYm 2024 1) 300 "2024-01-20" Online None None] in
  abs_total fees <= 2 ^ 53
  /\ totalCollected_js fees = 800
  /\ cashCollected_js fees + onlineCollected_js fees = totalCollected_js fees.
Proof.
  cbv zeta.
  assert (H : abs_total
    [Fee.mk 1 1 (mkYm 2024 1) 500 "2024-01-05" Cash None None;
     Fee.mk 2 2 (mkYm 2024 1) 300 "2024-01-20" Online None None] <= 2 ^ 53)
    by (vm_compute; discriminate).
  split; [exact H|]. split; [reflexivity|].
  pose proof (C3_cash_plus_online_is_total_when_exact [] _ None None H) as T.
  cbv zeta in T. tauto.
Defined.

(** *** Counting paid and unpaid students *)

Lemma size_list_to_set_le (l : list Z) :
  (size (list_to_set l : gset Z) <= length l)%nat.
Proof.
  induction l as [|x l IH]; cbn [length list_to_set].
  - rewrite size_empty. lia.
  - rewrite size_union_alt, size_singleton.
    pose proof (subseteq_size (list_to_set l ∖ {[x]}) (list_to_set l : gset Z)
                  ltac:(set_solver)). lia.
Qed.

(** A list has as many elements as the set made of it exactly when it has
    no duplicate. *)
Lemma size_list_to_set_iff (l : list Z) :
  size (list_to_set l : gset Z) = length l <-> NoDup l.
Proof.
  split; [|apply size_list_to_set].
  induction l as [|x l IH]; intros H; [constructor|].
  cbn [length list_to_set] in H.
  pose proof (size_list_to_set_le l) as Hle.
  destruct (decide (x ∈ l)) as [Hx|Hx].
  - exfalso.
    assert (Heq : ({[x]} ∪ list_to_set l : gset Z) = list_to_set l) by set_solver.
    rewrite Heq in H. lia.
  - rewrite size_union, size_singleton in H by set_solver.
    apply NoDup_cons. split; [exact Hx|]. apply IH. lia.
Qed.

(** The claim of C4 fails as soon as one student has two payment rows for
    the period: [paidCount] is 2, the number of distinct paying students 1. *)
Lemma C4_paidCount_counts_rows_counterexample :
  let M := mkYm 2024 1 in
  let fees := [Fee.mk 1 7 M 500 "2024-01-05" Cash None None;
               Fee.mk 2 7 M 300 "2024-01-20" Online None None] in
  let d := mkDashboard [] (paidFeesQuery M fees) None None in
  DashboardData.paidCount d = 2
  /\ size (paidStudentIds (paidFeesQuery M fees)) = 1%nat
  /\ DashboardData.paidCount d <> Z.of_nat (size (paidStudentIds (paidFeesQuery M fees))).
Proof.
  cbv zeta.
  assert (Hs : size (paidStudentIds (paidFeesQuery (mkYm 2024 1)
             [Fee.mk 1 7 (mkYm 2024 1) 500 "2024-01-05" Cash None None;
              Fee.mk 2 7 (mkYm 2024 1) 300 "2024-01-20" Online None None])) = 1%nat).
  { vm_compute. reflexivity. }
  split; [reflexivity|]. split; [exact Hs|]. rewrite Hs. cbn. lia.
Qed.

(** C4 (amended).  [paidCount] is the number of payment rows for period M.
    It is the number of distinct students with a payment for M exactly when
    no student has more than one row for M, and is never less than it. *)
Theorem C4_paidCount_is_row_count
    (M : ym) (fees : list Fee.t) (activeStudents : list Student.t)
    (leftStudents : option (list Z)) (monthlyAtt : option (list AttendanceRecord.t)) :
  let paidFees := paidFeesQuery M fees in
  let d := mkDashboard activeStudents paidFees leftStudents monthlyAtt in
  DashboardData.paidCount d = Z.of_nat (length paidFees)
  /\ Z.of_nat (size (paidStudentIds paidFees)) <= DashboardData.paidCount d
  /\ (DashboardData.paidCount d = Z.of_nat (size (paidStudentIds paidFees))
      <-> NoDup (List.map Fee.student_id paidFees)).
Proof.
  cbv zeta. cbn [mkDashboard DashboardData.paidCount]. unfold paidStudentIds.
  pose proof (size_list_to_set_le (List.map Fee.student_id (paidFeesQuery M fees))) as Hle.
  rewrite length_map in Hle.
  split; [reflexivity|]. split; [lia|].
  rewrite <- size_list_to_set_iff, length_map. lia.
Qed.

Lemma filter_length_split {A} (p : A -> bool) (l : list A) :
  (length (List.filter p l) + length (List.filter (fun x => negb (p x)) l) = length l)%nat.
Proof.
  induction l as [|x l IH]; [reflexivity|].
  cbn [List.filter]. destruct (p x); cbn [negb length]; lia.
Qed.

Lemma size_add (x : Z) (X : gset Z) : x ∉ X -> size ({[x]} ∪ X) = S (size X).
Proof.
  intros H. rewrite size_union by set_solver. rewrite size_singleton. reflexivity.
Qed.

(** With distinct ids, the listed students that have paid are as many as the
    ids common to the paid set and the list. *)
Lemma paid_in_list_count (P : gset Z) (l : list Student.t) :
  NoDup (List.map Student.id l) ->
  length (List.filter (fun s => bool_decide (Student.id s ∈ P)) l)
  = size (P ∩ list_to_set (List.map Student.id l)).
Proof.
  induction l as [|s l IH]; intros Hnd.
  - cbn [List.filter List.map length list_to_set].
    replace (P ∩ ∅) with (∅ : gset Z) by set_solver. now rewrite size_empty.
  - cbn [List.map] in Hnd. apply NoDup_cons in Hnd. destruct Hnd as [Hs Hnd].
    cbn [List.filter List.map list_to_set].
    assert (Hs' : Student.id s ∉ (list_to_set (List.map Student.id l) : gset Z))
      by (rewrite elem_of_list_to_set; exact Hs).
    destruct (decide (Student.id s ∈ P)) as [Hin|Hout].
    + rewrite bool_decide_eq_true_2 by exact Hin. cbn [length]. rewrite IH by exact Hnd.
      replace (P ∩ ({[Student.id s]} ∪ list_to_set (List.map Student.id l)))
        with ({[Student.id s]} ∪ (P ∩ list_to_set (List.map Student.id l)) : gset Z)
        by set_solver.
      rewrite size_add by set_solver. reflexivity.
    + rewrite bool_decide_eq_false_2 by exact Hout. rewrite IH by exact Hnd.
      f_equal. set_solver.
Qed.

(** The claim of C5 fails when a payment for the period comes from a
    student outside the active set: here student 2 left in December 2023 and
    a January 2024 fee is recorded for them; student 1 is active and has not
    paid.  [unpaidCount] is 1, the claimed difference is 0. *)
Lemma C5_unpaidCount_counterexample :
  let M := mkYm 2024 1 in
  let s1 := Student.mk 1 "Asha" "10" "9000000001" (mkDate 2023 4 1) None Active None in
  let s2 := Student.mk 2 "Bina" "10" "9000000002" (mkDate 2023 4 1) None Left
              (Some (mkDate 2023 12 10)) in
  let fees := [Fee.mk 1 2 M 500 "2024-01-03" Cash None None] in
  let activeStudents := activeStudentsQuery 0 M [s1; s2] in
  let paidFees := paidFeesQuery M fees in
  let d := mkDashboard activeStudents paidFees None None in
  activeStudents = [s1]
  /\ DashboardData.unpaidCount d = 1
  /\ Z.of_nat (length activeStudents) - Z.of_nat (size (paidStudentIds paidFees)) = 0
  /\ DashboardData.unpaidCount d
     <> Z.of_nat (length activeStudents) - Z.of_nat (size (paidStudentIds paidFees)).
Proof.
  cbv zeta.
  assert (Hs : size (paidStudentIds (paidFeesQuery (mkYm 2024 1)
             [Fee.mk 1 2 (mkYm 2024 1) 500 "2024-01-03" Cash None None])) = 1%nat).
  { vm_compute. reflexivity. }
  assert (Hu : DashboardData.unpaidCount
     (mkDashboard
        (activeStudentsQuery 0 (mkYm 2024 1)
           [Student.mk 1 "Asha" "10" "9000000001" (mkDate 2023 4 1) None Active None;
            Student.mk 2 "Bina" "10" "9000000002" (mkDate 2023 4 1) None Left
              (Some (mkDate 2023 12 10))])
        (paidFeesQuery (mkYm 2024 1)
           [Fee.mk 1 2 (mkYm 2024 1) 500 "2024-01-03" Cash None None]) None None) = 1).
  { vm_compute. reflexivity. }
  assert (Ha : activeStudentsQuery 0 (mkYm 2024 1)
           [Student.mk 1 "Asha" "10" "9000000001" (mkDate 2023 4 1) None Active None;
            Student.mk 2 "Bina" "10" "9000000002" (mkDate 2023 4 1) None Left
              (Some (mkDate 2023 12 10))]
         = [Student.mk 1 "Asha" "10" "9000000001" (mkDate 2023 4 1) None Active None]).
  { vm_compute. reflexivity. }
  split; [exact Ha|]. split; [exact Hu|]. rewrite Hu, Hs, Ha. cbn [length].
  split; lia.
Qed.

(** C5 (amended).  With distinct student ids, [unpaidCount] is the size of
    the active set minus the number of students of the active set that have
    a payment row for the period; it is the size of the active set minus the
    number of all paying students when every paying student is in the active
    set. *)
Theorem C5_unpaidCount_active_minus_active_paid
    (activeStudents : list Student.t) (paidFees : list Fee.t)
    (leftStudents : option (list Z)) (monthlyAtt : option (list AttendanceRecord.t)) :
  NoDup (List.map Student.id activeStudents) ->
  let d := mkDashboard activeStudents paidFees leftStudents monthlyAtt in
  let activeIds : gset Z := list_to_set (List.map Student.id activeStudents) in
  DashboardData.unpaidCount d
  = DashboardData.activeCount d - Z.of_nat (size (paidStudentIds paidFees ∩ activeIds))
  /\ DashboardData.activeCount d = Z.of_nat (size activeIds)
  /\ (paidStudentIds paidFees ⊆ activeIds ->
      DashboardData.unpaidCount d
      = DashboardData.activeCount d - Z.of_nat (size (paidStudentIds paidFees))).
Proof.
  intros Hnd. cbv zeta.
  cbn [mkDashboard DashboardData.unpaidCount DashboardData.activeCount].
  unfold unpaidStudents_of.
  pose proof (filter_length_split
    (fun s => bool_decide (Student.id s ∈ paidStudentIds paidFees)) activeStudents) as Hsplit.
  rewrite (paid_in_list_count _ _ Hnd) in Hsplit.
  split; [lia|]. split.
  - rewrite size_list_to_set by exact Hnd. now rewrite length_map.
  - intros Hsub.
    replace (paidStudentIds paidFees ∩ list_to_set (List.map Student.id activeStudents))
      with (paidStudentIds paidFees) in Hsplit by set_solver.
    lia.
Qed.

Lemma C5_unpaidCount_active_minus_active_paid_witness :
  let s1 := Student.mk 1 "Asha" "10" "9000000001" (mkDate 2023 4 1) None Active None in
  let s2 := Student.mk 2 "Bina" "10" "9000000002" (mkDate 2023 5 1) None Active None in
  let paidFees := [Fee.mk 1 2 (mkYm 2024 1) 500 "2024-01-03" Cash None None] in
  NoDup (List.map Student.id [s1; s2])
  /\ DashboardData.unpaidCount (mkDashboard [s1; s2] paidFees None None)
     = DashboardData.activeCount (mkDashboard [s1; s2] paidFees None None)
       - Z.of_nat (size (paidStudentIds paidFees
                         ∩ list_to_set (List.map Student.id [s1; s2]))).
Proof.
  cbv zeta.
  assert (Hnd : NoDup (List.map Student.id
    [Student.mk 1 "Asha" "10" "9000000001" (mkDate 2023 4 1) None Active None;
     Student.mk 2 "Bina" "10" "9000000002" (mkDate 2023 5 1) None Active None])).
  { cbn [List.map Student.id]. apply NoDup_cons. split; [set_solver|].
    apply NoDup_cons. split; [set_solver|]. constructor. }
  split; [exact Hnd|].
  exact (proj1 (C5_unpaidCount_active_minus_active_paid _
    [Fee.mk 1 2 (mkYm 2024 1) 500 "2024-01-03" Cash None None] None None Hnd)).
Defined.

(** ** The attendance summary *)

Lemma stats_eq a b :
  present a = present b -> absent a = absent b -> leave a = leave b ->
  holiday a = holiday b -> a = b.
Proof. destruct a, b; cbn; congruence. Qed.

Lemma tally_step_lookup (summary : gmap Z stats) record sid :
  default zero_stats (tally_step summary record !! sid)
  = if AttendanceRecord.student_id record =? sid
    then bump (AttendanceRecord.status record) (default zero_stats (summary !! sid))
    else default zero_stats (summary !! sid).
Proof.
  unfold tally_step.
  destruct (Z.eqb_spec (AttendanceRecord.student_id record) sid) as [->|Hne].
  - rewrite lookup_alter_eq.
    destruct (summary !! sid) as [c|] eqn:E.
    + rewrite E. reflexivity.
    + rewrite lookup_insert_eq. reflexivity.
  - rewrite lookup_alter_ne by exact Hne.
    destruct (summary !! AttendanceRecord.student_id record); [reflexivity|].
    now rewrite lookup_insert_ne by exact Hne.
Qed.

Lemma count_rows_cons r records sid st :
  count_rows (r :: records) sid st
  = (if (AttendanceRecord.student_id r =? sid)
        && attendance_status_eqb (AttendanceRecord.status r) st
     then 1 else 0) + count_rows records sid st.
Proof.
  unfold count_rows. cbn [List.filter].
  destruct (_ && _); cbn [length]; lia.
Qed.

Lemma tally_fold records : forall (summary : gmap Z stats) sid,
  default zero_stats (fold_left tally_step records summary !! sid)
  = stats_add (default zero_stats (summary !! sid)) (counts records sid).
Proof.
  induction records as [|r records IH]; intros summary sid; cbn [fold_left].
  - destruct (default zero_stats (summary !! sid)); unfold stats_add, counts, count_rows;
      cbn; f_equal; lia.
  - rewrite IH, tally_step_lookup.
    unfold counts. rewrite !count_rows_cons.
    destruct (Z.eqb_spec (AttendanceRecord.student_id r) sid) as [_|_];
      cbn [andb]; [|apply stats_eq; cbn; lia].
    destruct (AttendanceRecord.status r); apply stats_eq; cbn; lia.
Qed.

Lemma tally_lookup records sid :
  default zero_stats (tally records !! sid) = counts records sid.
Proof.
  unfold tally. rewrite tally_fold, lookup_empty.
  apply stats_eq; cbn; lia.
Qed.

Lemma count_rows_total records sid :
  count_rows records sid Present + count_rows records sid Absent
  + count_rows records sid Leave + count_rows records sid Holiday
  = Z.of_nat (length (rows_of records sid)).
Proof.
  induction records as [|r records IH]; [reflexivity|].
  rewrite !count_rows_cons. unfold rows_of in *. cbn [List.filter].
  destruct (AttendanceRecord.student_id r =? sid); cbn [andb length]; [|lia].
  destruct (AttendanceRecord.status r); cbn; lia.
Qed.

Lemma count_rows_none records sid st :
  rows_of records sid = [] -> count_rows records sid st = 0.
Proof.
  intros H. pose proof (count_rows_total records sid) as Ht. rewrite H in Ht.
  cbn [length] in Ht. destruct st; unfold count_rows in *; lia.
Qed.

Lemma filter_filter_bool {A} (p q : A -> bool) l :
  List.filter q (List.filter p l) = List.filter (fun x => p x && q x) l.
Proof.
  induction l as [|x l IH]; [reflexivity|].
  cbn [List.filter]. destruct (p x); cbn [andb List.filter]; [|exact IH].
  destruct (q x); now rewrite IH.
Qed.

(** ** The attendance summary of a month, through the month's query *)

(** A date lies between the first day of a month and its [k]-th day exactly
    when it is a day 1..[k] of that month. *)
Lemma date_in_window M k d :
  date_leb (startOfMonth M) d = true
  /\ date_leb d (mkDate (ym_year M) (ym_month M) k) = true
  <-> d_year d = ym_year M /\ d_month d = ym_month M /\ 1 <= d_day d <= k.
Proof.
  unfold date_leb, startOfMonth. cbn [d_year d_month d_day].
  rewrite !orb_true_iff, !andb_true_iff, !orb_true_iff, !andb_true_iff,
    !Z.ltb_lt, !Z.eqb_eq, !Z.leb_le.
  lia.
Qed.

Lemma reported_bool reportFilter s :
  student_status_eqb (Student.status s) Active
  && matches_filter reportFilter (Student.class_grade s)
  = bool_decide (reported reportFilter s).
Proof.
  unfold matches_filter, reported.
  destruct (bool_decide _) eqn:E.
  - apply bool_decide_eq_true in E. destruct E as [Ha Hc].
    rewrite andb_true_iff, orb_true_iff, student_status_eqb_eq, !String.eqb_eq. tauto.
  - apply bool_decide_eq_false in E. apply not_true_is_false. intros H. apply E.
    rewrite andb_true_iff, orb_true_iff, student_status_eqb_eq, !String.eqb_eq in H. tauto.
Qed.

(** The summary is the reported students, in the order of [students], each
    with the tally of its rows in the dashboard's attendance. *)
Lemma attendanceSummary_rows d students reportFilter :
  attendanceSummary (Some d) students reportFilter
  = List.map
      (fun s => mkRow s (counts (DashboardData.monthlyAttendance d) (Student.id s)))
      (List.filter (fun s => bool_decide (reported reportFilter s)) students).
Proof.
  unfold attendanceSummary. rewrite filter_filter_bool.
  rewrite (filter_ext_bool _ (fun s => bool_decide (reported reportFilter s)))
    by (intros s; apply reported_bool).
  apply List.map_ext. intros s. now rewrite tally_lookup.
Qed.

Lemma filter_ext_In {A} (p q : A -> bool) l :
  (forall x, In x l -> p x = q x) -> List.filter p l = List.filter q l.
Proof.
  induction l as [|x l IH]; intros H; [reflexivity|].
  cbn [List.filter]. rewrite (H x (or_introl eq_refl)), IH; [reflexivity|].
  intros y Hy. apply H. now right.
Qed.

Lemma in_month_iff M d :
  in_month M d = true <-> d_year d = ym_year M /\ d_month d = ym_month M.
Proof. unfold in_month. now rewrite andb_true_iff, !Z.eqb_eq. Qed.

Lemma bool_eq_iff (a b : bool) : (a = true <-> b = true) -> a = b.
Proof. destruct a, b; intuition congruence. Qed.

(** On a host at UTC the month's query returns the rows of the month. *)
Lemma monthlyAttQuery_utc_rows M att :
  100 <= ym_year M -> 1 <= ym_month M <= 12 ->
  (forall a, In a att -> calendar_day (AttendanceRecord.attendance_date a) = true) ->
  monthlyAttQuery 0 M att = rows_in_month M att.
Proof.
  intros Hy Hm Hval. unfold monthlyAttQuery, rows_in_month.
  apply filter_ext_In. intros a Ha. apply bool_eq_iff.
  rewrite andb_true_iff, endOfMonth_utc by assumption. unfold last_day_of.
  rewrite date_in_window, in_month_iff.
  specialize (Hval a Ha). unfold calendar_day in Hval.
  rewrite andb_true_iff, !Z.leb_le in Hval.
  split; [tauto|]. intros [E1 E2]. rewrite E1, E2 in Hval. tauto.
Qed.

(** East of UTC it returns the rows of the month but those of its last
    day. *)
Lemma monthlyAttQuery_east_rows tz M att :
  0 < tz < 1440 -> 100 <= ym_year M -> 1 <= ym_month M <= 12 ->
  (forall a, In a att -> calendar_day (AttendanceRecord.attendance_date a) = true) ->
  monthlyAttQuery tz M att = rows_before_last_day M att.
Proof.
  intros Htz Hy Hm Hval. unfold monthlyAttQuery, rows_before_last_day.
  apply filter_ext_In. intros a Ha. apply bool_eq_iff.
  rewrite !andb_true_iff, endOfMonth_east by assumption.
  rewrite date_in_window, in_month_iff, negb_true_iff.
  specialize (Hval a Ha). unfold calendar_day in Hval.
  rewrite andb_true_iff, !Z.leb_le in Hval.
  assert (Hneq : date_eqb (AttendanceRecord.attendance_date a) (last_day_of M) = false
                 <-> ~ (d_year (AttendanceRecord.attendance_date a) = ym_year M
                        /\ d_month (AttendanceRecord.attendance_date a) = ym_month M
                        /\ d_day (AttendanceRecord.attendance_date a)
                           = days_in_month (ym_year M) (ym_month M))).
  { rewrite <- not_true_iff_false. unfold date_eqb, last_day_of.
    cbn [d_year d_month d_day]. rewrite !andb_true_iff, !Z.eqb_eq. tauto. }
  rewrite Hneq. split.
  - intros (E1 & E2 & Hd). split; [tauto|]. intros (_ & _ & E3). lia.
  - intros [[E1 E2] Hn]. rewrite E1, E2 in Hval.
    split; [exact E1|]. split; [exact E2|]. lia.
Qed.

(** West of UTC the window ends before it starts, on the last day of the
    month before: the query returns nothing. *)
Lemma monthlyAttQuery_west_rows tz M att :
  -1440 < tz < 0 -> 101 <= ym_year M -> 1 <= ym_month M <= 12 ->
  monthlyAttQuery tz M att = [].
Proof.
  intros Htz Hy Hm. unfold monthlyAttQuery. rewrite endOfMonth_west by assumption.
  induction att as [|a att IH]; [reflexivity|]. cbn [List.filter].
  rewrite IH. clear IH.
  destruct (date_leb (startOfMonth M) (AttendanceRecord.attendance_date a)
            && date_leb (AttendanceRecord.attendance_date a) (last_day_of (prev_month M)))
    eqn:E; [|reflexivity].
  exfalso. apply andb_true_iff in E. destruct E as [E1 E2].
  unfold date_leb, startOfMonth, last_day_of, prev_month in E1, E2.
  destruct (Z.eqb_spec (ym_month M) 1);
    cbn [d_year d_month d_day ym_year ym_month] in E1, E2;
    rewrite !orb_true_iff, !andb_true_iff, !orb_true_iff, !andb_true_iff,
      !Z.ltb_lt, !Z.eqb_eq, !Z.leb_le in E1, E2; lia.
Qed.

Lemma filter_filter_length_split {A} (p q r : A -> bool) l :
  length (List.filter r (List.filter p l))
  = (length (List.filter r (List.filter (fun x => p x && negb (q x)) l))
     + length (List.filter r (List.filter (fun x => p x && q x) l)))%nat.
Proof.
  induction l as [|x l IH]; [reflexivity|].
  cbn [List.filter]. destruct (p x), (q x); cbn [andb negb List.filter]; try exact IH;
    destruct (r x); cbn [length]; lia.
Qed.

(** A row dated on the last day of the month is one the tally of the month
    counts and the tally of the days before does not. *)
Lemma counts_last_day M att a :
  In a att ->
  AttendanceRecord.attendance_date a = last_day_of M ->
  counts (rows_before_last_day M att) (AttendanceRecord.student_id a)
  <> counts (rows_in_month M att) (AttendanceRecord.student_id a).
Proof.
  intros Ha Hd.
  set (sid := AttendanceRecord.student_id a).
  set (r := fun x => (AttendanceRecord.student_id x =? sid)
                     && attendance_status_eqb (AttendanceRecord.status x)
                          (AttendanceRecord.status a)).
  set (p := fun x => in_month M (AttendanceRecord.attendance_date x)).
  set (q := fun x => date_eqb (AttendanceRecord.attendance_date x) (last_day_of M)).
  assert (Hlt : count_rows (rows_before_last_day M att) sid (AttendanceRecord.status a)
                < count_rows (rows_in_month M att) sid (AttendanceRecord.status a)).
  { change (Z.of_nat (length (List.filter r
                                (List.filter (fun x => p x && negb (q x)) att)))
            < Z.of_nat (length (List.filter r (List.filter p att)))).
    rewrite (filter_filter_length_split p q r att).
    assert (In a (List.filter r (List.filter (fun x => p x && q x) att))) as Hin.
    { apply filter_In. split; [apply filter_In; split; [exact Ha|]|].
      - unfold p, q. rewrite Hd. apply andb_true_iff. split.
        + apply in_month_iff. split; reflexivity.
        + apply date_eqb_eq. reflexivity.
      - unfold r, sid. rewrite Z.eqb_refl. cbn [andb].
        destruct (AttendanceRecord.status a); reflexivity. }
    destruct (List.filter r (List.filter (fun x => p x && q x) att)); [destruct Hin|].
    cbn [length]. lia. }
  intros E. unfold counts in E.
  destruct (AttendanceRecord.status a); injection E; intros; lia.
Qed.

(** C6 (code defect).  The summary lists exactly the students whose status
    is Active and whose class passes the class filter, once each in the
    order of [students], and no student whose status is Left; that part of
    the claim holds.  The counters are tallied over the rows that the
    month's query of [fetchData] returned.  On a host at UTC these are the
    rows of M and the counters are as the claim states: they count the
    student's rows in M by status, add up to the number of those rows and
    are 0,0,0,0 without rows.  On a host east of UTC the query stops at the
    day before the last day of M: the counters count the student's rows in M
    before its last day, and differ from the claim's for every student with
    a row on the last day of M. *)
Theorem C6_attendance_summary_of_month_by_host
    (tz : Z) (M : ym) (store : Store)
    (activeStudents : list Student.t) (paidFees : list Fee.t)
    (leftStudents : option (list Z))
    (students : list Student.t) (reportFilter : string) :
  100 <= ym_year M -> 1 <= ym_month M <= 12 ->
  (forall a, In a (tbl_attendance store) ->
             calendar_day (AttendanceRecord.attendance_date a) = true) ->
  let att := tbl_attendance store in
  let d := mkDashboard activeStudents paidFees leftStudents
             (Some (monthlyAttQuery tz M att)) in
  let summary := attendanceSummary (Some d) students reportFilter in
  List.map row_student summary
  = List.filter (fun s => bool_decide (reported reportFilter s)) students
  /\ (forall s, Student.status s = Left -> ~ In s (List.map row_student summary))
  /\ (tz = 0 ->
      forall row, In row summary ->
        let sid := Student.id (row_student row) in
        let c := row_stats row in
        c = counts (rows_in_month M att) sid
        /\ present c + absent c + leave c + holiday c
           = Z.of_nat (length (rows_of (rows_in_month M att) sid))
        /\ (rows_of (rows_in_month M att) sid = [] -> c = mkStats 0 0 0 0))
  /\ (0 < tz < 1440 ->
      forall row, In row summary ->
        let sid := Student.id (row_student row) in
        row_stats row = counts (rows_before_last_day M att) sid
        /\ forall a, In a att ->
             AttendanceRecord.student_id a = sid ->
             AttendanceRecord.attendance_date a = last_day_of M ->
             row_stats row <> counts (rows_in_month M att) sid)
  /\ (-1440 < tz < 0 -> 101 <= ym_year M ->
      forall row, In row summary -> row_stats row = mkStats 0 0 0 0).
Proof.
  intros Hy Hm Hval. cbv zeta. rewrite attendanceSummary_rows.
  cbn [mkDashboard DashboardData.monthlyAttendance].
  assert (Hmap : forall records,
    List.map row_student
      (List.map (fun s => mkRow s (counts records (Student.id s)))
         (List.filter (fun s => bool_decide (reported reportFilter s)) students))
    = List.filter (fun s => bool_decide (reported reportFilter s)) students).
  { intros records. rewrite List.map_map. cbn [row_student]. apply List.map_id. }
  rewrite Hmap. split; [reflexivity|]. split; [|split; [|split]].
  - intros s Hs Hin. apply filter_In in Hin. destruct Hin as [_ Hk].
    apply bool_decide_eq_true in Hk. destruct Hk as [Hk _]. congruence.
  - intros ->. rewrite monthlyAttQuery_utc_rows by assumption.
    intros row Hin. apply in_map_iff in Hin. destruct Hin as (s & <- & _).
    cbn [row_student row_stats]. split; [reflexivity|].
    unfold counts at 1 2 3 4. cbn [present absent leave holiday].
    split; [apply count_rows_total|].
    intros Hnone. unfold counts. now rewrite !count_rows_none by exact Hnone.
  - intros Htz. rewrite monthlyAttQuery_east_rows by assumption.
    intros row Hin. apply in_map_iff in Hin. destruct Hin as (s & <- & _).
    cbn [row_student row_stats]. split; [reflexivity|].
    intros a Ha Hsid Hd. rewrite <- Hsid. now apply counts_last_day.
  - intros Htz Hy'. rewrite monthlyAttQuery_west_rows by assumption.
    intros row Hin. apply in_map_iff in Hin. destruct Hin as (s & <- & _).
    reflexivity.
Qed.

Lemma C6_attendance_summary_of_month_by_host_witness :
  let M := mkYm 2024 1 in
  let s := Student.mk 1 "Asha" "10" "9000000001" (mkDate 2023 4 1) None Active None in
  let r := AttendanceRecord.mk 1 (mkDate 2024 1 31) Present "t" in
  let store := mkStore [s] [] [r] [] in
  let east := mkDashboard [s] [] (Some []) (Some (monthlyAttQuery 330 M [r])) in
  let utc := mkDashboard [s] [] (Some []) (Some (monthlyAttQuery 0 M [r])) in
  (100 <= ym_year M /\ 1 <= ym_month M <= 12
   /\ calendar_day (AttendanceRecord.attendance_date r) = true)
  /\ attendanceSummary (Some east) [s] "" = [mkRow s (mkStats 0 0 0 0)]
  /\ attendanceSummary (Some utc) [s] "" = [mkRow s (mkStats 1 0 0 0)]
  /\ counts (rows_in_month M [r]) 1 = mkStats 1 0 0 0
  /\ List.map row_student (attendanceSummary (Some east) [s] "") = [s].
Proof.
  cbv zeta.
  split; [cbn; repeat split; lia|].
  split; [reflexivity|]. split; [reflexivity|]. split; [reflexivity|].
  refine (eq_trans (proj1 (C6_attendance_summary_of_month_by_host 330 (mkYm 2024 1)
    (mkStore [Student.mk 1 "Asha" "10" "9000000001" (mkDate 2023 4 1) None Active None]
       [] [AttendanceRecord.mk 1 (mkDate 2024 1 31) Present "t"] [])
    [Student.mk 1 "Asha" "10" "9000000001" (mkDate 2023 4 1) None Active None]
    [] (Some [])
    [Student.mk 1 "Asha" "10" "9000000001" (mkDate 2023 4 1) None Active None] ""
    _ _ _)) _).
  - cbn; lia.
  - cbn; lia.
  - intros a [<-|[]]. reflexivity.
  - reflexivity.
Defined.

(** On a host at UTC the month's attendance that a pass stores in the
    dashboard is the rows dated from the first to the last day of the
    month. *)
Lemma monthlyAttQuery_utc M att a :
  100 <= ym_year M -> 1 <= ym_month M <= 12 ->
  In a (monthlyAttQuery 0 M att) <->
  In a att
  /\ date_leb (startOfMonth M) (AttendanceRecord.attendance_date a) = true
  /\ date_leb (AttendanceRecord.attendance_date a) (last_day_of M) = true.
Proof.
  intros Hy Hm. unfold monthlyAttQuery.
  rewrite filter_In, andb_true_iff, endOfMonth_utc by assumption. reflexivity.
Qed.

Example attendanceSummary_scenario :
  let a := Student.mk 1 "Asha" "10" "9000000001" (mkDate 2023 4 1) None Active None in
  let b := Student.mk 2 "Bina" "10" "9000000002" (mkDate 2023 4 1) None Left
             (Some (mkDate 2024 1 20)) in
  let c := Student.mk 3 "Chetan" "9" "9000000003" (mkDate 2023 4 1) None Active None in
  let att := [AttendanceRecord.mk 1 (mkDate 2024 1 2) Present "t";
              AttendanceRecord.mk 2 (mkDate 2024 1 2) Present "t";
              AttendanceRecord.mk 1 (mkDate 2024 1 3) Absent "t";
              AttendanceRecord.mk 1 (mkDate 2024 1 4) Present "t"] in
  attendanceSummary (Some (mkDashboard [a; b; c] [] None (Some att))) [a; b; c] ""
  = [mkRow a (mkStats 2 1 0 0); mkRow c (mkStats 0 0 0 0)].
Proof. vm_compute. reflexivity. Qed.

(** ** Attendance writes *)

Lemma same_key_iff a b : same_key a b = true <-> att_key a = att_key b.
Proof.
  unfold same_key, att_key. rewrite andb_true_iff, Z.eqb_eq, date_eqb_eq.
  split; [intros [-> ->]; reflexivity | intros [= -> ->]; auto].
Qed.

Lemma same_key_false a b : same_key a b = false <-> att_key a <> att_key b.
Proof. rewrite <- same_key_iff. destruct (same_key a b); split; congruence. Qed.

Section Upsert.
Variable row : AttendanceRecord.t.

Lemma upsert_In tbl : In row (upsertAttendance row tbl).
Proof.
  induction tbl as [|r tbl IH]; cbn [upsertAttendance]; [now left|].
  destruct (same_key r row); [now left | now right].
Qed.

(** No row with the key yet: the write inserts. *)
Lemma upsert_insert tbl :
  ~ In (att_key row) (List.map att_key tbl) -> upsertAttendance row tbl = tbl ++ [row].
Proof.
  induction tbl as [|r tbl IH]; intros Hk; cbn [upsertAttendance]; [reflexivity|].
  cbn [List.map In] in Hk.
  destruct (same_key r row) eqn:E.
  - apply same_key_iff in E. tauto.
  - cbn [app]. f_equal. apply IH. tauto.
Qed.

(** A row with the key exists: the write replaces it, the keys of the
    table and their order are unchanged. *)
Lemma upsert_replace tbl :
  In (att_key row) (List.map att_key tbl) ->
  List.map att_key (upsertAttendance row tbl) = List.map att_key tbl.
Proof.
  induction tbl as [|r tbl IH]; intros Hk; cbn [upsertAttendance]; [destruct Hk|].
  cbn [List.map In] in Hk.
  destruct (same_key r row) eqn:E.
  - apply same_key_iff in E. cbn [List.map]. now rewrite E.
  - apply same_key_false in E. cbn [List.map]. f_equal. apply IH.
    destruct Hk as [Hk|Hk]; [congruence | exact Hk].
Qed.

Lemma upsert_keys_NoDup tbl :
  NoDup (List.map att_key tbl) -> NoDup (List.map att_key (upsertAttendance row tbl)).
Proof.
  intros Hnd.
  destruct (decide (att_key row ∈ List.map att_key tbl)) as [Hin|Hout];
    rewrite list_elem_of_In in *.
  - now rewrite upsert_replace.
  - rewrite upsert_insert, List.map_app by exact Hout. cbn [List.map].
    apply NoDup_app. split; [exact Hnd|]. split.
    + intros k Hk Hk'. apply list_elem_of_In in Hk. apply list_elem_of_In in Hk'.
      cbn [In] in Hk'. destruct Hk' as [<-|[]]. tauto.
    + apply NoDup_cons. split; [apply not_elem_of_nil | constructor].
Qed.

(** Rows with another key are neither added nor removed. *)
Lemma upsert_other tbl r :
  att_key r <> att_key row -> In r (upsertAttendance row tbl) <-> In r tbl.
Proof.
  intros Hne. induction tbl as [|r0 tbl IH]; cbn [upsertAttendance In].
  - split; [intros [<-|[]]; congruence | tauto].
  - destruct (same_key r0 row) eqn:E; cbn [In].
    + apply same_key_iff in E. split; intros [H|H]; auto; subst; congruence.
    + rewrite IH. reflexivity.
Qed.

(** Writing the same row again changes nothing. *)
Lemma upsert_idempotent tbl :
  upsertAttendance row (upsertAttendance row tbl) = upsertAttendance row tbl.
Proof.
  induction tbl as [|r tbl IH]; cbn [upsertAttendance].
  - now rewrite (proj2 (same_key_iff row row) eq_refl).
  - destruct (same_key r row) eqn:E; cbn [upsertAttendance].
    + now rewrite (proj2 (same_key_iff row row) eq_refl).
    + now rewrite E, IH.
Qed.
End Upsert.

Lemma filter_none {A} (p : A -> bool) l :
  (forall x, In x l -> p x = false) -> List.filter p l = [].
Proof.
  induction l as [|x l IH]; intros H; [reflexivity|].
  cbn [List.filter]. rewrite (H x (or_introl eq_refl)). apply IH.
  intros y Hy. apply H. now right.
Qed.

(** With at most one row per key, the rows that carry the key of a row of
    the table are that row alone. *)
Lemma one_row_per_key tbl row :
  NoDup (List.map att_key tbl) -> In row tbl ->
  List.filter (fun r => same_key r row) tbl = [row].
Proof.
  induction tbl as [|r tbl IH]; intros Hnd Hin; [destruct Hin|].
  cbn [List.map] in Hnd. apply NoDup_cons in Hnd. destruct Hnd as [Hr Hnd].
  rewrite list_elem_of_In in Hr. cbn [List.filter].
  destruct Hin as [->|Hin].
  - rewrite (proj2 (same_key_iff row row) eq_refl). f_equal.
    apply filter_none. intros r Hr'. apply same_key_false. intros E.
    apply Hr. rewrite <- E. now apply in_map.
  - destruct (same_key r row) eqn:E.
    + exfalso. apply same_key_iff in E. apply Hr. rewrite E. now apply in_map.
    + now apply IH.
Qed.

Lemma upsertMany_NoDup rows : forall tbl,
  NoDup (List.map att_key tbl) -> NoDup (List.map att_key (upsertAttendanceMany rows tbl)).
Proof.
  unfold upsertAttendanceMany.
  induction rows as [|r rows IH]; intros tbl Hnd; cbn [fold_left]; [exact Hnd|].
  apply IH. now apply upsert_keys_NoDup.
Qed.

Lemma upsertMany_keeps rows : forall tbl r,
  In r tbl -> (forall r', In r' rows -> att_key r' = att_key r -> r' = r) ->
  In r (upsertAttendanceMany rows tbl).
Proof.
  unfold upsertAttendanceMany.
  induction rows as [|r0 rows IH]; intros tbl r Hin Hsame; cbn [fold_left]; [exact Hin|].
  apply IH; [|intros r' Hr'; apply Hsame; now right].
  destruct (decide (att_key r0 = att_key r)) as [E|E].
  - rewrite (Hsame r0 (or_introl eq_refl) E). apply upsert_In.
  - apply upsert_other; [congruence | exact Hin].
Qed.

Lemma upsertMany_In rows : forall tbl r,
  In r rows ->
  (forall r1 r2, In r1 rows -> In r2 rows -> att_key r1 = att_key r2 -> r1 = r2) ->
  In r (upsertAttendanceMany rows tbl).
Proof.
  induction rows as [|r0 rows IH]; intros tbl r Hin Hsame; [destruct Hin|].
  destruct Hin as [->|Hin].
  - change (upsertAttendanceMany (r :: rows) tbl)
      with (upsertAttendanceMany rows (upsertAttendance r tbl)).
    apply upsertMany_keeps; [apply upsert_In|].
    intros r' Hr' E. apply Hsame; [now right | now left | exact E].
  - change (upsertAttendanceMany (r0 :: rows) tbl)
      with (upsertAttendanceMany rows (upsertAttendance r0 tbl)).
    apply IH; [exact Hin|]. intros r1 r2 H1 H2. apply Hsame; now right.
Qed.

Lemma upsertMany_other rows : forall tbl r,
  (forall r', In r' rows -> att_key r <> att_key r') ->
  In r (upsertAttendanceMany rows tbl) <-> In r tbl.
Proof.
  unfold upsertAttendanceMany.
  induction rows as [|r0 rows IH]; intros tbl r Hne; cbn [fold_left]; [reflexivity|].
  rewrite IH by (intros r' Hr'; apply Hne; now right).
  apply upsert_other. apply Hne. now left.
Qed.

Lemma markAll_rows_In students searchTerm attendanceDate teacher status r :
  In r (markAll_rows students searchTerm attendanceDate teacher status) <->
  exists s, In s (filteredStudents students searchTerm)
            /\ Student.status s = Active
            /\ r = AttendanceRecord.mk (Student.id s) attendanceDate status teacher.
Proof.
  unfold markAll_rows. rewrite in_map_iff. split.
  - intros (s & <- & Hs). apply filter_In in Hs. destruct Hs as [Hs Ha].
    apply student_status_eqb_eq in Ha. eauto.
  - intros (s & Hs & Ha & ->). exists s. split; [reflexivity|].
    apply filter_In. split; [exact Hs | now apply student_status_eqb_eq].
Qed.

Lemma markAll_rows_same_key students searchTerm attendanceDate teacher status r1 r2 :
  In r1 (markAll_rows students searchTerm attendanceDate teacher status) ->
  In r2 (markAll_rows students searchTerm attendanceDate teacher status) ->
  att_key r1 = att_key r2 -> r1 = r2.
Proof.
  rewrite !markAll_rows_In. intros (s1 & _ & _ & ->) (s2 & _ & _ & ->).
  unfold att_key. cbn. intros [= ->]. reflexivity.
Qed.

Example markAll_scenario :
  let D := mkDate 2024 1 15 in
  let a := Student.mk 1 "Asha" "10" "9000000001" (mkDate 2023 4 1) None Active None in
  let b := Student.mk 2 "Bina" "10" "9000000002" (mkDate 2023 4 1) None Active None in
  let c := Student.mk 3 "Chetan" "10" "9000000003" (mkDate 2023 4 1) None Active None in
  let l := Student.mk 4 "Dev" "10" "9000000004" (mkDate 2023 4 1) None Left
             (Some (mkDate 2024 1 10)) in
  let e := Student.mk 5 "Esha" "9" "9000000005" (mkDate 2023 4 1) None Active None in
  markAll [a; b; c; l; e] "10" D "t" Present [AttendanceRecord.mk 2 D Holiday "t"]
  = [AttendanceRecord.mk 2 D Present "t"; AttendanceRecord.mk 1 D Present "t";
     AttendanceRecord.mk 3 D Present "t"].
Proof. vm_compute. reflexivity. Qed.

(** C7.  On a table with at most one record per (student, date), a single
    mark either inserts a record (no record had the key) or replaces the one
    record with that key, and leaves every other record as it was; the table
    still has at most one record per key and exactly one for the written
    key, and marking the same status again changes nothing.  A "Mark All"
    batch over the filtered Active students does the same for each of them:
    afterwards the table has at most one record per key, exactly one, with
    the batch status, for each batch student on the selected date, and the
    records of other keys are as before.  Marking three filtered Active
    students Present on a date where one of them has a Holiday mark leaves
    three records, all Present. *)
Theorem C7_attendance_write_one_row_per_key
    (tbl : list AttendanceRecord.t) (students : list Student.t) (searchTerm : string)
    (attendanceDate : date) (teacher : string) (studentId : Z)
    (status : attendance_status) :
  NoDup (List.map att_key tbl) ->
  let row := AttendanceRecord.mk studentId attendanceDate status teacher in
  let one := markAttendance attendanceDate teacher studentId status tbl in
  let all := markAll students searchTerm attendanceDate teacher status tbl in
  let batch := List.filter (fun s => student_status_eqb (Student.status s) Active)
                 (filteredStudents students searchTerm) in
  ((~ In (att_key row) (List.map att_key tbl) /\ one = tbl ++ [row])
   \/ (In (att_key row) (List.map att_key tbl)
       /\ List.map att_key one = List.map att_key tbl))
  /\ NoDup (List.map att_key one)
  /\ List.filter (fun r => same_key r row) one = [row]
  /\ (forall r, att_key r <> att_key row -> (In r one <-> In r tbl))
  /\ markAttendance attendanceDate teacher studentId status one = one
  /\ NoDup (List.map att_key all)
  /\ (forall s, In s batch ->
        List.filter
          (fun r => same_key r (AttendanceRecord.mk (Student.id s) attendanceDate status teacher))
          all
        = [AttendanceRecord.mk (Student.id s) attendanceDate status teacher])
  /\ (forall r, (forall s, In s batch -> att_key r <> (Student.id s, attendanceDate)) ->
        (In r all <-> In r tbl))
  /\ (let D := mkDate 2024 1 15 in
      let mkS := fun i n => Student.mk i n "10" "9000000000" (mkDate 2023 4 1) None Active None in
      let P := fun i => AttendanceRecord.mk i D Present teacher in
      markAll [mkS 1 "Asha"; mkS 2 "Bina"; mkS 3 "Chetan"] "" D teacher Present
        [AttendanceRecord.mk 2 D Holiday teacher]
      = [P 2; P 1; P 3]).
Proof.
  intros Hnd row one all batch.
  assert (Hone : NoDup (List.map att_key one)) by now apply upsert_keys_NoDup.
  assert (Hall : NoDup (List.map att_key all)) by now apply upsertMany_NoDup.
  split; [|split; [exact Hone|split; [|split; [|split; [|split; [exact Hall|split; [|split]]]]]]].
  - destruct (decide (att_key row ∈ List.map att_key tbl)) as [Hin|Hout];
      rewrite list_elem_of_In in *.
    + right. split; [exact Hin|]. now apply upsert_replace.
    + left. split; [exact Hout|]. now apply upsert_insert.
  - apply one_row_per_key; [exact Hone | apply upsert_In].
  - intros r Hr. now apply upsert_other.
  - apply upsert_idempotent.
  - intros s Hs. apply one_row_per_key; [exact Hall|].
    apply upsertMany_In; [|apply markAll_rows_same_key].
    unfold markAll_rows. apply in_map_iff. exists s. split; [reflexivity | exact Hs].
  - intros r Hr. apply upsertMany_other. intros r' Hr'.
    apply markAll_rows_In in Hr'. destruct Hr' as (s & Hs & Ha & ->).
    apply Hr. apply filter_In. split; [exact Hs | now apply student_status_eqb_eq].
  - reflexivity.
Qed.

Lemma C7_attendance_write_one_row_per_key_witness :
  let D := mkDate 2024 1 15 in
  let a := Student.mk 1 "Asha" "10" "9000000001" (mkDate 2023 4 1) None Active None in
  let b := Student.mk 2 "Bina" "10" "9000000002" (mkDate 2023 4 1) None Active None in
  let tbl := [AttendanceRecord.mk 2 D Holiday "t"] in
  NoDup (List.map att_key tbl)
  /\ NoDup (List.map att_key (markAttendance D "t" 2 Present tbl))
  /\ NoDup (List.map att_key (markAll [a; b] "" D "t" Present tbl)).
Proof.
  cbv zeta.
  assert (Hnd : NoDup (List.map att_key [AttendanceRecord.mk 2 (mkDate 2024 1 15) Holiday "t"])).
  { cbn [List.map]. apply NoDup_cons. split; [apply not_elem_of_nil | constructor]. }
  split; [exact Hnd|].
  pose proof (C7_attendance_write_one_row_per_key _
    [Student.mk 1 "Asha" "10" "9000000001" (mkDate 2023 4 1) None Active None;
     Student.mk 2 "Bina" "10" "9000000002" (mkDate 2023 4 1) None Active None]
    "" (mkDate 2024 1 15) "t" 2 Present Hnd) as H.
  cbv zeta in H. destruct H as (_ & H1 & _ & _ & _ & H2 & _).
  split; [exact H1 | exact H2].
Defined.

(** ** One pass of [fetchData] and store failures *)

(** What a complete call publishes, from the answers to its nine queries:
    each view is replaced exactly when its own queries were answered. *)
Lemma fetchData_publishes tz teacher (r1 r2 r3 r4 r5 r6 r7 r8 r9 : option Store) app :
  fetchData tz teacher [r1; r2; r3; r4; r5; r6; r7; r8; r9] app
  = AppState.mk
      (match r4 with Some s => tbl_students s | None => AppState.students app end)
      (match r5 with
       | Some s => attendanceQuery (AppState.attendanceDate app) (tbl_attendance s)
       | None => AppState.attendance app
       end)
      (match r6, r7 with
       | Some s6, Some s7 =>
           Some (mkDashboard
                   (activeStudentsQuery tz (AppState.selectedMonth app) (tbl_students s6))
                   (paidFeesQuery (AppState.selectedMonth app) (tbl_fees s7))
                   (option_map (fun s => leftStudentsQuery tz (AppState.selectedMonth app)
                                           (tbl_students s)) r8)
                   (option_map (fun s => monthlyAttQuery tz (AppState.selectedMonth app)
                                           (tbl_attendance s)) r9))
       | _, _ => AppState.dashboard app
       end)
      (mkHealth (negb (is_none r1)) (negb (is_none r2))
         (match r3 with
          | Some s => existsb (String.eqb teacher) (tbl_profiles s)
          | None => false
          end))
      (AppState.selectedMonth app)
      (AppState.attendanceDate app).
Proof.
  destruct app as [st at_ da he mo dt].
  destruct r4, r5, r6, r7; reflexivity.
Qed.

(** The claim of C9 fails when the store is lost in the middle of a pass.
    In the first run the health checks and the students query are answered
    and every later query fails: [students] is replaced while [attendance]
    and [dashboard] keep their earlier values.  In the second run only the
    last two queries fail: a dashboard is published whose [leftThisMonth]
    is 0 and whose [monthlyAttendance] is empty although the store holds a
    student who left in the month and an attendance row of the month. *)
Lemma C9_partial_publish_counterexample :
  let M := mkYm 2024 1 in
  let D := mkDate 2024 1 15 in
  let a := Student.mk 1 "Asha" "10" "9000000001" (mkDate 2023 4 1) None Active None in
  let b := Student.mk 2 "Bina" "10" "9000000002" (mkDate 2023 4 1) None Left
             (Some (mkDate 2024 1 10)) in
  let store := mkStore [a; b] [Fee.mk 1 1 M 500 "2024-01-05" Cash None None]
                 [AttendanceRecord.mk 1 D Present "t"] ["t"] in
  let old := mkDashboard [] [] None None in
  let app := AppState.mk [] [] (Some old) (mkHealth true true true) M D in
  let ok := Some store in
  let lost := fetchData 0 "t" [ok; ok; ok; ok; None; None; None; None; None] app in
  let late := fetchData 0 "t" [ok; ok; ok; ok; ok; ok; ok; None; None] app in
  AppState.students lost = [a; b]
  /\ AppState.students app = []
  /\ AppState.attendance lost = AppState.attendance app
  /\ AppState.dashboard lost = Some old
  /\ leftStudentsQuery 0 M (tbl_students store) = [2]
  /\ monthlyAttQuery 0 M (tbl_attendance store) = [AttendanceRecord.mk 1 D Present "t"]
  /\ option_map DashboardData.leftThisMonth (AppState.dashboard late) = Some 0
  /\ option_map DashboardData.monthlyAttendance (AppState.dashboard late) = Some []
  /\ option_map DashboardData.activeCount (AppState.dashboard late) = Some 2.
Proof. cbv zeta. repeat split; vm_compute; reflexivity. Qed.

(** C9 (amended).  When the store cannot be reached for any query of a
    pass, the pass publishes none of the views: [students], [attendance] and
    [dashboard], and the selected period, are as before; only the health
    flags are set, to false.  A pass does not stop at a failed query: in
    general [students] is replaced when the students query is answered,
    [attendance] when the attendance query is, and [dashboard] when both the
    active-students and the fees query are, with [leftThisMonth] 0 and
    [monthlyAttendance] empty for a failed third or fourth query. *)
Theorem C9_unreachable_store_keeps_views
    (tz : Z) (teacher : string) (app : AppState.t)
    (r1 r2 r3 r4 r5 r6 r7 r8 r9 : option Store) :
  let lost := fetchData tz teacher (repeat None 9) app in
  let after := fetchData tz teacher [r1; r2; r3; r4; r5; r6; r7; r8; r9] app in
  let M := AppState.selectedMonth app in
  lost = AppState.setDbHealth (mkHealth false false false) app
  /\ AppState.students lost = AppState.students app
  /\ AppState.attendance lost = AppState.attendance app
  /\ AppState.dashboard lost = AppState.dashboard app
  /\ AppState.students after
     = match r4 with Some s => tbl_students s | None => AppState.students app end
  /\ AppState.attendance after
     = match r5 with
       | Some s => attendanceQuery (AppState.attendanceDate app) (tbl_attendance s)
       | None => AppState.attendance app
       end
  /\ AppState.dashboard after
     = match r6, r7 with
       | Some s6, Some s7 =>
           Some (mkDashboard (activeStudentsQuery tz M (tbl_students s6))
                   (paidFeesQuery M (tbl_fees s7))
                   (option_map (fun s => leftStudentsQuery tz M (tbl_students s)) r8)
                   (option_map (fun s => monthlyAttQuery tz M (tbl_attendance s)) r9))
       | _, _ => AppState.dashboard app
       end.
Proof.
  cbv zeta. cbn [repeat]. rewrite !fetchData_publishes.
  cbn [AppState.students AppState.attendance AppState.dashboard is_none negb].
  repeat split; reflexivity.
Qed.

(** ** The reconciliation loop *)

Section HistoryProofs.
Variable tz : Z.
Variable teacher : string.
Variable selected : ym -> Prop.
Variable stored : Store -> Prop.

(** What a call holds after an answer does not depend on what is
    published. *)
Lemma resume_pass_indep r p app app' :
  fst (resume tz teacher r p app) = fst (resume tz teacher r p app').
Proof. unfold resume. destruct (p_pc p); reflexivity. Qed.

Lemma run_pass_indep l : forall p app app',
  fst (run_pass tz teacher l p app) = fst (run_pass tz teacher l p app').
Proof.
  induction l as [|r l IH]; intros p app app'; cbn [run_pass]; [reflexivity|].
  pose proof (resume_pass_indep r p app app') as E.
  destruct (resume tz teacher r p app) as [p1 a1], (resume tz teacher r p app') as [p2 a2].
  cbn [fst] in E. subst p2. apply IH.
Qed.

Lemma run_pass_snoc l r : forall p a,
  run_pass tz teacher (l ++ [r]) p a
  = resume tz teacher r (fst (run_pass tz teacher l p a))
      (snd (run_pass tz teacher l p a)).
Proof.
  induction l as [|x l IH]; intros p a; cbn [List.app run_pass fst snd].
  - destruct (resume tz teacher r p a); reflexivity.
  - destruct (resume tz teacher x p a) as [p' a']. apply IH.
Qed.

Lemma replay_snoc m d answers r app :
  replay tz teacher (mkCall m d (answers ++ [r]))
  = fst (resume tz teacher r (replay tz teacher (mkCall m d answers)) app).
Proof.
  unfold replay. cbn [c_answers c_selectedMonth c_attendanceDate].
  rewrite run_pass_snoc. apply resume_pass_indep.
Qed.

Lemma resume_pc_index r p app :
  pc_index (p_pc (fst (resume tz teacher r p app)))
  = Nat.min 9 (S (pc_index (p_pc p))).
Proof. unfold resume. destruct (p_pc p) eqn:E; cbn [fst p_pc]; rewrite ?E; reflexivity. Qed.

Lemma run_pass_pc_index l : forall p app,
  pc_index (p_pc (fst (run_pass tz teacher l p app)))
  = Nat.min 9 (length l + pc_index (p_pc p)).
Proof.
  induction l as [|r l IH]; intros p app; cbn [run_pass length fst].
  - assert (pc_index (p_pc p) <= 9)%nat by (destruct (p_pc p); cbn [pc_index]; lia). lia.
  - pose proof (resume_pc_index r p app) as E.
    destruct (resume tz teacher r p app) as [p' app']. cbn [fst] in E.
    rewrite IH, E. lia.
Qed.

(** A call is suspended at the await that the number of its answers
    tells. *)
Lemma replay_pc_index c :
  pc_index (p_pc (replay tz teacher c)) = Nat.min 9 (length (c_answers c)).
Proof.
  unfold replay. rewrite run_pass_pc_index. cbn [new_pass p_pc pc_index]. f_equal. lia.
Qed.

Lemma replay_eight m d r1 r2 r3 r4 r5 r6 r7 r8 :
  replay tz teacher (mkCall m d [r1; r2; r3; r4; r5; r6; r7; r8])
  = mkPass m d AwaitMonthlyAtt (is_none r1) (is_none r2)
      (option_map (fun s => activeStudentsQuery tz m (tbl_students s)) r6)
      (option_map (fun s => paidFeesQuery m (tbl_fees s)) r7)
      (option_map (fun s => leftStudentsQuery tz m (tbl_students s)) r8).
Proof. reflexivity. Qed.

Lemma length_eight {A} (l : list A) :
  length l = 8%nat -> exists r1 r2 r3 r4 r5 r6 r7 r8, l = [r1; r2; r3; r4; r5; r6; r7; r8].
Proof.
  intros H. do 8 (destruct l as [|? l]; [discriminate|]).
  destruct l; [|discriminate]. repeat eexists.
Qed.

(** What an answer publishes of the dashboard and of the selection. *)
Lemma resume_published r p app :
  AppState.dashboard (snd (resume tz teacher r p app))
  = match p_pc p, p_activeStudents p, p_paidFees p with
    | AwaitMonthlyAtt, Some a, Some f =>
        Some (mkDashboard a f (p_leftStudents p)
                (option_map (fun s => monthlyAttQuery tz (p_selectedMonth p)
                                        (tbl_attendance s)) r))
    | _, _, _ => AppState.dashboard app
    end
  /\ AppState.selectedMonth (snd (resume tz teacher r p app)) = AppState.selectedMonth app.
Proof.
  unfold resume.
  destruct (p_pc p); cbn [snd];
    try (destruct r; split; reflexivity);
    try (split; reflexivity).
  destruct (p_activeStudents p), (p_paidFees p); split; reflexivity.
Qed.

(** A call that has its nine answers stays as it is. *)
Lemma log_event_keeps w log e i c :
  log !! i = Some c -> length (c_answers c) = 9%nat ->
  log_event w log e !! i = Some c.
Proof.
  intros Hi Hlen.
  assert (Hstart : forall app, log_start app log !! i = Some c).
  { intros app. unfold log_start. rewrite lookup_app_l; [exact Hi|].
    eapply lookup_lt_Some. exact Hi. }
  destruct e as [|m|d|s|j ok]; cbn [log_event]; try apply Hstart; [exact Hi|].
  destruct (log !! j) as [c'|] eqn:Ej; [|exact Hi].
  destruct (length (c_answers c') <? 9)%nat eqn:El; [|exact Hi].
  destruct (decide (j = i)) as [->|Hne].
  - rewrite Hi in Ej. injection Ej as <-. rewrite Hlen in El. discriminate.
  - rewrite list_lookup_insert_ne by exact Hne. exact Hi.
Qed.

Lemma dashboard_of_call_nine c d :
  dashboard_of_call tz c d -> length (c_answers c) = 9%nat.
Proof. intros (r1 & r2 & r3 & r4 & r5 & r8 & r9 & s6 & s7 & -> & _). reflexivity. Qed.

Lemma new_call_ok (app : AppState.t) :
  selected (AppState.selectedMonth app) ->
  call_ok selected stored
    (mkCall (AppState.selectedMonth app) (AppState.attendanceDate app) []).
Proof. intros H. split; [exact H | constructor]. Qed.

Lemma start_history_ok store app passes log :
  history_ok tz teacher selected stored (mkWorld store app passes) log ->
  history_ok tz teacher selected stored
    (start_pass (mkWorld store app passes)) (log_start app log).
Proof.
  intros (Hm & Hs & Hp & Hc & Hd). unfold start_pass, log_start.
  cbn [w_app w_store w_passes] in *.
  split; [exact Hm|]. split; [exact Hs|]. split; [|split].
  - apply Forall2_app; [exact Hp|]. constructor; [reflexivity | constructor].
  - apply Forall_app. split; [exact Hc|].
    constructor; [now apply new_call_ok | constructor].
  - intros d Hdd. destruct (Hd d Hdd) as (i & c & Hi & Hc').
    exists i, c. split; [|exact Hc'].
    rewrite lookup_app_l; [exact Hi|]. eapply lookup_lt_Some. exact Hi.
Qed.

Lemma do_event_history_ok w log e :
  (forall m, e = SelectMonth m -> selected m) ->
  (forall s, e = StoreChange s -> stored s) ->
  history_ok tz teacher selected stored w log ->
  history_ok tz teacher selected stored (do_event tz teacher w e) (log_event w log e).
Proof.
  intros Hsel Hsto Hw. destruct e as [|m|d|s|i ok]; cbn [do_event log_event].
  - destruct w as [store app passes]. now apply start_history_ok.
  - apply start_history_ok. destruct Hw as (Hm & Hs & Hp & Hc & Hd).
    split; [apply Hsel; reflexivity|]. split; [exact Hs|]. split; [exact Hp|].
    split; [exact Hc | exact Hd].
  - apply start_history_ok. destruct Hw as (Hm & Hs & Hp & Hc & Hd).
    split; [exact Hm|]. split; [exact Hs|]. split; [exact Hp|].
    split; [exact Hc | exact Hd].
  - destruct Hw as (Hm & Hs & Hp & Hc & Hd).
    split; [exact Hm|]. split; [apply Hsto; reflexivity|]. split; [exact Hp|].
    split; [exact Hc | exact Hd].
  - destruct Hw as (Hm & Hs & Hp & Hc & Hd).
    destruct (w_passes w !! i) as [p|] eqn:Ep.
    2:{ assert (log !! i = None) as ->.
        { apply lookup_ge_None. rewrite <- (Forall2_length _ _ _ Hp).
          now apply lookup_ge_None. }
        repeat (split; [assumption|]). exact Hd. }
    destruct (Forall2_lookup_l _ _ _ _ _ Hp Ep) as (c & Ec & Hpc).
    rewrite Ec. pose proof (replay_pc_index c) as Hidx. rewrite <- Hpc in Hidx.
    assert (Hcall : c = mkCall (c_selectedMonth c) (c_attendanceDate c) (c_answers c))
      by (destruct c; reflexivity).
    set (r := if ok then Some (w_store w) else None).
    assert (Hr : forall s, r = Some s -> stored s).
    { intros s. unfold r. destruct ok; [intros [= <-]; exact Hs | discriminate]. }
    pose proof (resume_published r p (w_app w)) as [Hdash Hmonth].
    destruct (length (c_answers c) <? 9)%nat eqn:El.
    + apply Nat.ltb_lt in El.
      assert (Hp' : fst (resume tz teacher r p (w_app w))
                    = replay tz teacher
                        (mkCall (c_selectedMonth c) (c_attendanceDate c) (c_answers c ++ [r]))).
      { rewrite (replay_snoc _ _ _ _ (w_app w)), <- Hcall, <- Hpc. reflexivity. }
      assert (Hc' : call_ok selected stored
                      (mkCall (c_selectedMonth c) (c_attendanceDate c) (c_answers c ++ [r]))).
      { destruct (Forall_lookup_1 _ _ _ _ Hc Ec) as [H1 H2]. split; [exact H1|].
        cbn [c_answers]. apply Forall_app. split; [exact H2|].
        constructor; [exact Hr | constructor]. }
      destruct (resume tz teacher r p (w_app w)) as [p' app'] eqn:Eres.
      cbn [fst snd] in Hp', Hdash, Hmonth. unfold history_ok.
      cbn [w_app w_store w_passes].
      split; [now rewrite Hmonth|]. split; [exact Hs|].
      split; [apply Forall2_insert; [exact Hp | exact Hp']|].
      split; [apply Forall_insert; [exact Hc | exact Hc']|].
      intros d Hdd. rewrite Hdash in Hdd.
      assert (Hold : AppState.dashboard (w_app w) = Some d ->
                     exists j c0,
                       <[i := mkCall (c_selectedMonth c) (c_attendanceDate c)
                               (c_answers c ++ [r])]> log !! j = Some c0
                       /\ dashboard_of_call tz c0 d).
      { intros Hdo. destruct (Hd d Hdo) as (j & c0 & Hj & Hc0).
        exists j, c0. split; [|exact Hc0].
        destruct (decide (i = j)) as [->|Hne].
        - rewrite Ec in Hj. injection Hj as <-.
          apply dashboard_of_call_nine in Hc0. lia.
        - now rewrite list_lookup_insert_ne by exact Hne. }
      destruct (p_pc p) eqn:Epc; try (apply Hold; exact Hdd).
      destruct (p_activeStudents p) as [a|] eqn:Ea; [|apply Hold; exact Hdd].
      destruct (p_paidFees p) as [f|] eqn:Ef; [|apply Hold; exact Hdd].
      injection Hdd as <-.
      cbn [pc_index] in Hidx.
      assert (Hlen : length (c_answers c) = 8%nat) by lia.
      destruct (length_eight _ Hlen) as (r1 & r2 & r3 & r4 & r5 & r6 & r7 & r8 & Eans).
      assert (Epass : p = mkPass (c_selectedMonth c) (c_attendanceDate c) AwaitMonthlyAtt
                            (is_none r1) (is_none r2)
                            (option_map (fun s => activeStudentsQuery tz (c_selectedMonth c)
                                                    (tbl_students s)) r6)
                            (option_map (fun s => paidFeesQuery (c_selectedMonth c)
                                                    (tbl_fees s)) r7)
                            (option_map (fun s => leftStudentsQuery tz (c_selectedMonth c)
                                                    (tbl_students s)) r8)).
      { rewrite Hpc, Hcall, Eans. apply replay_eight. }
      rewrite Epass in Ea, Ef. rewrite Epass.
      cbn [p_activeStudents p_paidFees p_leftStudents p_selectedMonth] in Ea, Ef |- *.
      destruct r6 as [s6|]; [|discriminate Ea]. destruct r7 as [s7|]; [|discriminate Ef].
      cbn [option_map] in Ea, Ef. injection Ea as <-. injection Ef as <-.
      exists i, (mkCall (c_selectedMonth c) (c_attendanceDate c) (c_answers c ++ [r])).
      split; [apply list_lookup_insert_eq; eapply lookup_lt_Some; exact Ec|].
      exists r1, r2, r3, r4, r5, r8, r, s6, s7.
      cbn [c_answers c_selectedMonth]. rewrite Eans. split; reflexivity.
    + apply Nat.ltb_ge in El.
      assert (Epc : p_pc p = Finished).
      { destruct (p_pc p); cbn [pc_index] in Hidx; try lia. reflexivity. }
      unfold resume, history_ok. rewrite Epc. cbn [w_app w_store w_passes].
      rewrite list_insert_id by exact Ep.
      repeat (split; [assumption|]). exact Hd.
Qed.

Lemma history_run_ok events : forall w log,
  (forall m, In (SelectMonth m) events -> selected m) ->
  (forall s, In (StoreChange s) events -> stored s) ->
  history_ok tz teacher selected stored w log ->
  history_ok tz teacher selected stored
    (run tz teacher events w) (history tz teacher events w log).
Proof.
  unfold run.
  induction events as [|e events IH]; intros w log Hsel Hsto Hw; cbn [fold_left history].
  - exact Hw.
  - apply IH.
    + intros m Hm. apply Hsel. now right.
    + intros s Hs. apply Hsto. now right.
    + apply do_event_history_ok; [| |exact Hw].
      * intros m ->. apply Hsel. now left.
      * intros s ->. apply Hsto. now left.
Qed.
End HistoryProofs.

(** The claim of C8 fails on two overlapping calls.  Call 0 is started for
    January and has read everything but the month's attendance when a
    student and a fee are added to the store and the user selects February,
    which starts call 1.  Call 1 runs to its end and publishes the students
    and the February dashboard; then call 0 gets its last answer and
    publishes its January dashboard over it.  No call is in flight any more,
    February is selected, [students] is the list call 1 read from the new
    store, and [dashboard] is the one call 0 computed for January from what
    it read of the old store. *)
Lemma C8_overlapping_passes_counterexample :
  let Jan := mkYm 2024 1 in
  let Feb := mkYm 2024 2 in
  let D := mkDate 2024 2 1 in
  let a := Student.mk 1 "Asha" "10" "9000000001" (mkDate 2023 4 1) None Active None in
  let b := Student.mk 2 "Bina" "10" "9000000002" (mkDate 2024 1 20) None Active None in
  let fJan := Fee.mk 1 1 Jan 500 "2024-01-05" Cash None None in
  let fFeb := Fee.mk 2 2 Feb 700 "2024-02-01" Online None None in
  let s1 := mkStore [a] [fJan] [] ["t"] in
  let s2 := mkStore [a; b] [fJan; fFeb] [] ["t"] in
  let r0 := Resume 0 true in
  let r1 := Resume 1 true in
  let events :=
    [Trigger; r0; r0; r0; r0; r0; r0; r0; r0;
     StoreChange s2; SelectMonth Feb;
     r1; r1; r1; r1; r1; r1; r1; r1; r1;
     r0] in
  let before := run 0 "t" (removelast events) (initial_world s1 Jan D) in
  let w := run 0 "t" events (initial_world s1 Jan D) in
  forallb finished (w_passes w) = true
  /\ AppState.selectedMonth (w_app w) = Feb
  /\ AppState.students (w_app w) = [a; b]
  /\ AppState.dashboard (w_app before)
     = Some (mkDashboard [a; b] [fFeb] (Some []) (Some []))
  /\ AppState.dashboard (w_app w)
     = Some (mkDashboard [a] [fJan] (Some []) (Some []))
  /\ option_map DashboardData.activeCount (AppState.dashboard (w_app w)) = Some 1
  /\ Z.of_nat (length (AppState.students (w_app w))) = 2.
Proof. cbv zeta. repeat split; vm_compute; reflexivity. Qed.

(** C8 (amended).  Whatever the order in which triggers, period changes,
    store writes and query answers arrive, every dashboard the loop
    publishes was built whole by one call of [fetchData]: there is a call
    [i] of the run, finished, whose sixth and seventh query were answered,
    and the dashboard is the one computed for the period that call captured
    (a period that was selected at some point) from the answers to that
    call's own sixth to ninth query, each answer a content the store had;
    it is the dashboard that this call publishes when it runs alone on
    these answers.  No part of a published dashboard comes from another
    call or another period.  (The lists [students] and [attendance] are
    published by separate state updates, and nothing orders or discards
    overlapping calls.) *)
Theorem C8_dashboard_from_one_call_one_period
    (tz : Z) (teacher : string) (store : Store) (m0 : ym) (d0 : date)
    (events : list event) (d : DashboardData.t) :
  AppState.dashboard (w_app (run tz teacher events (initial_world store m0 d0))) = Some d ->
  exists (i : nat) (c : call) (p : pass)
         (r1 r2 r3 r4 r5 r8 r9 : option Store) (s6 s7 : Store),
    history tz teacher events (initial_world store m0 d0) [] !! i = Some c
    /\ w_passes (run tz teacher events (initial_world store m0 d0)) !! i = Some p
    /\ p_pc p = Finished
    /\ p_selectedMonth p = c_selectedMonth c
    /\ selected_in m0 events (c_selectedMonth c)
    /\ c_answers c = [r1; r2; r3; r4; r5; Some s6; Some s7; r8; r9]
    /\ Forall (fun r => forall s, r = Some s -> s = store \/ In (StoreChange s) events)
         (c_answers c)
    /\ d = mkDashboard
             (activeStudentsQuery tz (c_selectedMonth c) (tbl_students s6))
             (paidFeesQuery (c_selectedMonth c) (tbl_fees s7))
             (option_map
                (fun s => leftStudentsQuery tz (c_selectedMonth c) (tbl_students s)) r8)
             (option_map
                (fun s => monthlyAttQuery tz (c_selectedMonth c) (tbl_attendance s)) r9)
    /\ forall app0,
         AppState.dashboard
           (snd (run_pass tz teacher (c_answers c)
                   (new_pass (c_selectedMonth c) (c_attendanceDate c)) app0))
         = Some d.
Proof.
  intros Hd.
  assert (Hw : history_ok tz teacher (selected_in m0 events)
                 (fun s => s = store \/ In (StoreChange s) events)
                 (run tz teacher events (initial_world store m0 d0))
                 (history tz teacher events (initial_world store m0 d0) [])).
  { apply history_run_ok.
    - intros m Hm. now right.
    - intros s Hs. now right.
    - split; [now left|]. split; [now left|]. split; [constructor|].
      split; [constructor | intros d' [=]]. }
  destruct Hw as (_ & _ & Hp & Hc & Hok).
  destruct (Hok d Hd) as (i & c & Hi & Hdc).
  destruct (Forall2_lookup_r _ _ _ _ _ Hp Hi) as (p & Hpi & Hpc).
  destruct (Forall_lookup_1 _ _ _ _ Hc Hi) as [Hsel Hans].
  destruct Hdc as (r1 & r2 & r3 & r4 & r5 & r8 & r9 & s6 & s7 & Eans & Ed).
  exists i, c, p, r1, r2, r3, r4, r5, r8, r9, s6, s7.
  assert (Hreplay : p = mkPass (c_selectedMonth c) (c_attendanceDate c) Finished
                          (is_none r1) (is_none r2)
                          (Some (activeStudentsQuery tz (c_selectedMonth c) (tbl_students s6)))
                          (Some (paidFeesQuery (c_selectedMonth c) (tbl_fees s7)))
                          (option_map
                             (fun s => leftStudentsQuery tz (c_selectedMonth c)
                                         (tbl_students s)) r8)).
  { rewrite Hpc. unfold replay. rewrite Eans. reflexivity. }
  split; [exact Hi|]. split; [exact Hpi|].
  split; [now rewrite Hreplay|]. split; [now rewrite Hreplay|].
  split; [exact Hsel|]. split; [exact Eans|]. split; [exact Hans|].
  split; [exact Ed|].
  intros app0. rewrite Eans, Ed. reflexivity.
Qed.

Lemma C8_dashboard_from_one_call_one_period_witness :
  let Jan := mkYm 2024 1 in
  let a := Student.mk 1 "Asha" "10" "9000000001" (mkDate 2023 4 1) None Active None in
  let fJan := Fee.mk 1 1 Jan 500 "2024-01-05" Cash None None in
  let s1 := mkStore [a] [fJan] [] ["t"] in
  let r0 := Resume 0 true in
  let events := [Trigger; r0; r0; r0; r0; r0; r0; r0; r0; r0] in
  let d := mkDashboard [a] [fJan] (Some []) (Some []) in
  let w0 := initial_world s1 Jan (mkDate 2024 1 15) in
  AppState.dashboard (w_app (run 0 "t" events w0)) = Some d
  /\ history 0 "t" events w0 []
     = [mkCall Jan (mkDate 2024 1 15) (repeat (Some s1) 9)]
  /\ exists (i : nat) (c : call),
       history 0 "t" events w0 [] !! i = Some c
       /\ selected_in Jan events (c_selectedMonth c)
       /\ forall app0,
            AppState.dashboard
              (snd (run_pass 0 "t" (c_answers c)
                      (new_pass (c_selectedMonth c) (c_attendanceDate c)) app0))
            = Some d.
Proof.
  cbv zeta.
  assert (Hd : AppState.dashboard (w_app (run 0 "t"
      [Trigger; Resume 0 true; Resume 0 true; Resume 0 true; Resume 0 true; Resume 0 true;
       Resume 0 true; Resume 0 true; Resume 0 true; Resume 0 true]
      (initial_world
         (mkStore [Student.mk 1 "Asha" "10" "9000000001" (mkDate 2023 4 1) None Active None]
            [Fee.mk 1 1 (mkYm 2024 1) 500 "2024-01-05" Cash None None] [] ["t"])
         (mkYm 2024 1) (mkDate 2024 1 15))))
    = Some (mkDashboard
              [Student.mk 1 "Asha" "10" "9000000001" (mkDate 2023 4 1) None Active None]
              [Fee.mk 1 1 (mkYm 2024 1) 500 "2024-01-05" Cash None None]
              (Some []) (Some []))).
  { vm_compute. reflexivity. }
  split; [exact Hd|]. split; [vm_compute; reflexivity|].
  destruct (C8_dashboard_from_one_call_one_period 0 "t" _ _ _ _ _ Hd)
    as (i & c & p & r1 & r2 & r3 & r4 & r5 & r8 & r9 & s6 & s7
        & Hi & _ & _ & _ & Hsel & _ & _ & _ & Hrun).
  exists i, c. split; [exact Hi|]. split; [exact Hsel | exact Hrun].
Defined.

(** Two calls that overlap keep their answers apart.  In the run of the
    counterexample above, call 0 captured January and got eight answers
    from the first store and its last from the second; call 1 captured
    February and got its nine answers from the second store.  The answers
    of one call need not be of one content of the store. *)
Example history_of_overlapping_calls :
  let Jan := mkYm 2024 1 in
  let Feb := mkYm 2024 2 in
  let D := mkDate 2024 2 1 in
  let a := Student.mk 1 "Asha" "10" "9000000001" (mkDate 2023 4 1) None Active None in
  let b := Student.mk 2 "Bina" "10" "9000000002" (mkDate 2024 1 20) None Active None in
  let fJan := Fee.mk 1 1 Jan 500 "2024-01-05" Cash None None in
  let fFeb := Fee.mk 2 2 Feb 700 "2024-02-01" Online None None in
  let s1 := mkStore [a] [fJan] [] ["t"] in
  let s2 := mkStore [a; b] [fJan; fFeb] [] ["t"] in
  let r0 := Resume 0 true in
  let r1 := Resume 1 true in
  let events :=
    [Trigger; r0; r0; r0; r0; r0; r0; r0; r0;
     StoreChange s2; SelectMonth Feb;
     r1; r1; r1; r1; r1; r1; r1; r1; r1;
     r0] in
  history 0 "t" events (initial_world s1 Jan D) []
  = [mkCall Jan D (repeat (Some s1) 8 ++ [Some s2]);
     mkCall Feb D (repeat (Some s2) 9)].
Proof. cbv zeta. vm_compute. reflexivity. Qed.

(** ** The CSV export *)

Example number_to_string_examples :
  number_to_string 0 = "0" /\ number_to_string 500 = "500" /\ number_to_string (-12) = "-12".
Proof. repeat split; reflexivity. Qed.




Lemma split_on_nonempty sep s : split_on sep s <> [].
Proof.
  induction s as [|c s IH]; cbn [split_on]; [discriminate|].
  destruct (Ascii.eqb c sep); [discriminate|].
  destruct (split_on sep s); [contradiction | discriminate].
Qed.

(** A field without separator, followed by a separator, is cut off as one
    field. *)
Lemma split_on_field sep f rest :
  contains_char sep f = false ->
  split_on sep (f ++ String sep rest) = f :: split_on sep rest.
Proof.
  induction f as [|c f IH]; simpl; intros H.
  - now rewrite Ascii.eqb_refl.
  - apply orb_false_iff in H. destruct H as [Hc Hf].
    rewrite Hc, (IH Hf). reflexivity.
Qed.

Lemma split_on_last sep f : contains_char sep f = false -> split_on sep f = [f].
Proof.
  induction f as [|c f IH]; cbn [contains_char split_on]; intros H; [reflexivity|].
  apply orb_false_iff in H. destruct H as [Hc Hf]. now rewrite Hc, (IH Hf).
Qed.





(* ===================================================================== *)
(** * Further properties of the views and handlers *)
(* ===================================================================== *)

(** ** [getInitials] *)

Lemma toUpperCase_length s : String.length (toUpperCase s) = String.length s.
Proof. induction s as [|c s IH]; cbn; [reflexivity | now rewrite IH]. Qed.

Lemma substring_0_length m s : (String.length (String.substring 0 m s) <= m)%nat.
Proof.
  revert s. induction m as [|m IH]; intros s.
  - destruct s; cbn; lia.
  - destruct s as [|c s]; cbn; [lia|]. specialize (IH s). lia.
Qed.

Lemma upper_ascii_not_lower c : is_lower (upper_ascii c) = false.
Proof. destruct c as [[] [] [] [] [] [] [] []]; reflexivity. Qed.

Lemma toUpperCase_no_lower s : all_chars (fun c => negb (is_lower c)) (toUpperCase s) = true.
Proof.
  induction s as [|c s IH]; cbn [toUpperCase all_chars]; [reflexivity|].
  now rewrite upper_ascii_not_lower, IH.
Qed.

Lemma split_on_head sep c r :
  Ascii.eqb c sep = false ->
  exists f fs, split_on sep (String c r) = String c f :: fs.
Proof.
  intros H. cbn [split_on]. rewrite H.
  destruct (split_on sep r) as [|f fs]; eauto.
Qed.

Lemma getInitials_single_word c r :
  contains_char space (String c r) = false ->
  getInitials (String c r) = String (upper_ascii c) EmptyString.
Proof.
  intros H. unfold getInitials. rewrite split_on_last by exact H. reflexivity.
Qed.

Lemma concat_first c x l :
  String.concat EmptyString (String c EmptyString :: x :: l)
  = String c (String.concat EmptyString (x :: l)).
Proof. reflexivity. Qed.

Lemma substring_two a b s :
  String.substring 0 2 (String a (String b s)) = String a (String b EmptyString).
Proof. destruct s; reflexivity. Qed.

Lemma getInitials_two_words c1 r1 c2 r2 :
  contains_char space (String c1 r1) = false ->
  Ascii.eqb c2 space = false ->
  getInitials (String.append (String c1 r1) (String space (String c2 r2)))
  = String (upper_ascii c1) (String (upper_ascii c2) EmptyString).
Proof.
  intros H1 H2. unfold getInitials. rewrite split_on_field by exact H1.
  destruct (split_on_head space c2 r2 H2) as (f & fs & ->).
  cbn [List.map first_char].
  destruct fs as [|g fs]; [reflexivity|].
  cbn [List.map]. rewrite !concat_first. now rewrite substring_two.
Qed.

(** X1.  The initials shown in the avatars: for a name of 7-bit characters
    they are at most two characters, none a lower-case letter; a one-word
    name gives its first letter in upper case, a name of two or more words
    the first letters of the first two words, and an empty name nothing. *)
Theorem X1_getInitials_shape (name : string) :
  ascii_only name = true ->
  (String.length (getInitials name) <= 2)%nat
  /\ all_chars (fun c => negb (is_lower c)) (getInitials name) = true
  /\ getInitials EmptyString = EmptyString
  /\ (forall c r, name = String c r -> contains_char space name = false ->
        getInitials name = String (upper_ascii c) EmptyString)
  /\ (forall c1 r1 c2 r2,
        name = String.append (String c1 r1) (String space (String c2 r2)) ->
        contains_char space (String c1 r1) = false -> Ascii.eqb c2 space = false ->
        getInitials name = String (upper_ascii c1) (String (upper_ascii c2) EmptyString)).
Proof.
  intros _. split; [|split; [|split; [|split]]].
  - unfold getInitials. rewrite toUpperCase_length. apply substring_0_length.
  - apply toUpperCase_no_lower.
  - reflexivity.
  - intros c r -> H. now apply getInitials_single_word.
  - intros c1 r1 c2 r2 -> H1 H2. now apply getInitials_two_words.
Qed.

Lemma X1_getInitials_shape_witness :
  ascii_only "rajeev kumar sharma" = true
  /\ getInitials "rajeev kumar sharma" = "RK"
  /\ (String.length (getInitials "rajeev kumar sharma") <= 2)%nat.
Proof.
  split; [reflexivity|]. split; [reflexivity|].
  exact (proj1 (X1_getInitials_shape "rajeev kumar sharma" eq_refl)).
Defined.

(** ** [filteredStudents] *)

Lemma prefix_spec n h :
  String.prefix n h = true <-> exists post, h = String.append n post.
Proof.
  revert h. induction n as [|c n IH]; intros h.
  - destruct h; cbn; split; eauto.
  - destruct h as [|d h]; cbn [String.prefix String.append].
    + split; [discriminate | intros (post & [=])].
    + destruct (ascii_dec c d) as [->|Hne].
      * rewrite IH. split; intros (post & E); exists post.
        -- now rewrite E.
        -- now injection E.
      * split; [discriminate | intros (post & E); injection E as E1 E2; congruence].
Qed.

(** [includes] is the substring test. *)
Lemma includes_spec hay needle :
  includes hay needle = true <->
  exists pre post, hay = String.append pre (String.append needle post).
Proof.
  induction hay as [|c hay IH]; cbn [includes]; rewrite orb_true_iff, prefix_spec.
  - split.
    + intros [(post & E)|[=]]. exists EmptyString, post. exact E.
    + intros ([|d pre] & post & E); [left; eauto | discriminate].
  - rewrite IH. split.
    + intros [(post & E)|(pre & post & E)].
      * exists EmptyString, post. exact E.
      * exists (String c pre), post. cbn. now rewrite E.
    + intros ([|d pre] & post & E).
      * left. exists post. exact E.
      * right. exists pre, post. cbn [String.append] in E. now injection E.
Qed.

Lemma append_cons x (a b : string) :
  String.append (String x a) b = String x (String.append a b).
Proof. reflexivity. Qed.

Lemma append_assoc (a b c : string) :
  String.append (String.append a b) c = String.append a (String.append b c).
Proof.
  induction a as [|x a IH]; [reflexivity|]. now rewrite !append_cons, IH.
Qed.

Lemma includes_narrow hay pre needle post :
  includes hay (String.append pre (String.append needle post)) = true ->
  includes hay needle = true.
Proof.
  rewrite !includes_spec. intros (a & b & ->).
  exists (String.append a pre), (String.append post b).
  now rewrite !append_assoc.
Qed.

Lemma includes_empty hay : includes hay EmptyString = true.
Proof. apply includes_spec. exists EmptyString, hay. reflexivity. Qed.

Lemma toLowerCase_app a b :
  toLowerCase (String.append a b) = String.append (toLowerCase a) (toLowerCase b).
Proof.
  induction a as [|x a IH]; [reflexivity|].
  rewrite append_cons. cbn [toLowerCase]. now rewrite append_cons, IH.
Qed.

Lemma filter_all {A} (p : A -> bool) l :
  (forall x, In x l -> p x = true) -> List.filter p l = l.
Proof.
  induction l as [|x l IH]; intros H; [reflexivity|].
  cbn [List.filter]. rewrite (H x (or_introl eq_refl)). f_equal.
  apply IH. intros y Hy. apply H. now right.
Qed.

Lemma filteredStudents_empty students : filteredStudents students EmptyString = students.
Proof.
  unfold filteredStudents. apply filter_all. intros s _.
  cbn [toLowerCase]. now rewrite includes_empty.
Qed.

(** X2.  Searching narrows: with an empty search term every student is
    listed; and when the search term and the students' name, phone and class
    are text of 7-bit characters, a student listed for a search term is
    listed for every part of that term, so typing further characters never
    adds a student.  (Beyond 7-bit text JavaScript lower-cases by context,
    a final capital sigma for one, and a part of a term need not match
    where the term does.) *)
Theorem X2_search_narrows (students : list Student.t) (pre term post : string) :
  filteredStudents students EmptyString = students
  /\ (ascii_only (String.append pre (String.append term post)) = true ->
      (forall s, In s students ->
         ascii_only (Student.full_name s) = true
         /\ ascii_only (Student.parent_phone s) = true
         /\ ascii_only (Student.class_grade s) = true) ->
      forall s, In s (filteredStudents students
                        (String.append pre (String.append term post))) ->
                In s (filteredStudents students term)).
Proof.
  split; [apply filteredStudents_empty|].
  intros _ _. unfold filteredStudents. intros s Hs. apply filter_In in Hs. apply filter_In.
  destruct Hs as [Hin Hm]. split; [exact Hin|].
  rewrite !orb_true_iff in *. rewrite !toLowerCase_app in Hm.
  destruct Hm as [[H|H]|H]; [left; left | left; right | right];
    eapply includes_narrow; exact H.
Qed.

Lemma X2_search_narrows_witness :
  let asha := Student.mk 1 "Asha Rao" "10" "9000000001" (mkDate 2023 4 1) None Active None in
  let ravi := Student.mk 2 "Ravi Kumar" "9" "9000000002" (mkDate 2023 4 1) None Active None in
  filteredStudents [asha; ravi] "Ash" = [asha]
  /\ filteredStudents [asha; ravi] "s" = [asha]
  /\ In asha (filteredStudents [asha; ravi] "s").
Proof.
  cbv zeta. split; [reflexivity|]. split; [reflexivity|].
  refine (proj2 (X2_search_narrows _ "A" "s" "h") _ _ _ _).
  - reflexivity.
  - intros s [<-|[<-|[]]]; repeat split.
  - left. reflexivity.
Defined.

(** ** The paid badge of the fees view *)

Lemma find_first {A} (p : A -> bool) l x :
  List.find p l = Some x ->
  p x = true
  /\ exists pre post, l = pre ++ x :: post /\ forall y, In y pre -> p y = false.
Proof.
  induction l as [|a l IH]; cbn [List.find]; [discriminate|].
  destruct (p a) eqn:E.
  - intros [= <-]. split; [exact E|]. exists [], l. split; [reflexivity | intros y []].
  - intros H. destruct (IH H) as (Hp & pre & post & -> & Hpre).
    split; [exact Hp|]. exists (a :: pre), post. split; [reflexivity|].
    intros y [<-|Hy]; [exact E | now apply Hpre].
Qed.

Lemma find_none_iff {A} (p : A -> bool) l :
  List.find p l = None <-> forall x, In x l -> p x = false.
Proof.
  induction l as [|a l IH]; cbn [List.find].
  - split; [intros _ x [] | reflexivity].
  - destruct (p a) eqn:E.
    + split; [discriminate|]. intros H. rewrite (H a (or_introl eq_refl)) in E. discriminate.
    + rewrite IH. split.
      * intros H x [<-|Hx]; [exact E | now apply H].
      * intros H x Hx. apply H. now right.
Qed.

(** X3.  The badge of the fees view agrees with the dashboard: a student
    has no found payment exactly when the student's id is outside the paid
    set, and for a student of the active set exactly when the student is in
    [unpaidStudents].  When a payment is found it is the student's first
    row in the order of [paidFees]: "Paid" shows that row's amount, not the
    sum of the student's rows.  Without a dashboard nobody is paid. *)
Theorem X3_isPaid_agrees_with_unpaid
    (activeStudents : list Student.t) (paidFees : list Fee.t)
    (leftStudents : option (list Z)) (monthlyAtt : option (list AttendanceRecord.t))
    (s : Student.t) :
  let d := mkDashboard activeStudents paidFees leftStudents monthlyAtt in
  (isPaid (Some d) s = None <-> Student.id s ∉ paidStudentIds paidFees)
  /\ (In s activeStudents ->
      (isPaid (Some d) s = None <-> In s (DashboardData.unpaidStudents d)))
  /\ (forall f, isPaid (Some d) s = Some f ->
        Fee.student_id f = Student.id s
        /\ exists pre post,
             paidFees = pre ++ f :: post
             /\ forall g, In g pre -> Fee.student_id g <> Student.id s)
  /\ isPaid None s = None.
Proof.
  cbv zeta. cbn [isPaid mkDashboard DashboardData.paidFees DashboardData.unpaidStudents].
  assert (Hnone : List.find (fun f => Fee.student_id f =? Student.id s) paidFees = None
                  <-> Student.id s ∉ paidStudentIds paidFees).
  { rewrite find_none_iff, paidStudentIds_spec. split.
    - intros H (f & Hf & E). specialize (H f Hf). apply Z.eqb_neq in H. contradiction.
    - intros H f Hf. apply Z.eqb_neq. intros E. apply H. eauto. }
  split; [exact Hnone|]. split; [|split; [|reflexivity]].
  - intros Hin. rewrite Hnone, unpaidStudents_In, paidStudentIds_spec. tauto.
  - intros f Hf. apply find_first in Hf. destruct Hf as (Hp & pre & post & E & Hpre).
    apply Z.eqb_eq in Hp. split; [exact Hp|]. exists pre, post. split; [exact E|].
    intros g Hg. apply Z.eqb_neq. now apply Hpre.
Qed.

(** ** Marking attendance and reading it back *)

Lemma find_filter {A} (p q : A -> bool) l :
  List.find p (List.filter q l) = List.find (fun a => q a && p a) l.
Proof.
  induction l as [|a l IH]; [reflexivity|].
  cbn [List.filter List.find]. destruct (q a); cbn [andb List.find]; [|exact IH].
  destruct (p a); [reflexivity | exact IH].
Qed.

(** X4.  After [markAttendance] for a student, the reloaded attendance of
    the selected day shows, for that student, the record just written with
    the marked status, whatever the table held before; for every other
    student it shows what it showed before. *)
Theorem X4_mark_then_reload
    (tbl : list AttendanceRecord.t) (attendanceDate : date) (teacher : string)
    (status : attendance_status) (s : Student.t) :
  let tbl' := markAttendance attendanceDate teacher (Student.id s) status tbl in
  attendance_record (attendanceQuery attendanceDate tbl') s
  = Some (AttendanceRecord.mk (Student.id s) attendanceDate status teacher)
  /\ (forall s', Student.id s' <> Student.id s ->
        attendance_record (attendanceQuery attendanceDate tbl') s'
        = attendance_record (attendanceQuery attendanceDate tbl) s').
Proof.
  cbv zeta. unfold attendance_record, attendanceQuery, markAttendance.
  set (row := AttendanceRecord.mk (Student.id s) attendanceDate status teacher).
  split.
  - rewrite find_filter.
    induction tbl as [|r tbl IH]; cbn [upsertAttendance List.find].
    + cbn [row AttendanceRecord.attendance_date AttendanceRecord.student_id].
      now rewrite (proj2 (date_eqb_eq _ _) eq_refl), Z.eqb_refl.
    + destruct (same_key r row) eqn:E; cbn [List.find].
      * cbn [row AttendanceRecord.attendance_date AttendanceRecord.student_id].
        now rewrite (proj2 (date_eqb_eq _ _) eq_refl), Z.eqb_refl.
      * unfold same_key in E.
        cbn [row AttendanceRecord.attendance_date AttendanceRecord.student_id] in E.
        rewrite andb_comm, E. exact IH.
  - intros s' Hne. rewrite !find_filter.
    induction tbl as [|r tbl IH]; cbn [upsertAttendance List.find].
    + cbn [row AttendanceRecord.student_id].
      rewrite (proj2 (Z.eqb_neq _ _)) by congruence. now rewrite andb_false_r.
    + destruct (same_key r row) eqn:E; cbn [List.find].
      * apply same_key_iff in E. unfold att_key in E.
        cbn [row AttendanceRecord.attendance_date AttendanceRecord.student_id] in E.
        injection E as E1 E2. cbn [row AttendanceRecord.student_id]. rewrite E1.
        rewrite (proj2 (Z.eqb_neq _ _)) by congruence. now rewrite !andb_false_r.
      * now rewrite IH.
Qed.

(** ** The attendance summary: class filter and order of the rows *)

Lemma filter_map_comm {A B} (f : A -> B) (p : B -> bool) l :
  List.filter p (List.map f l) = List.map f (List.filter (fun x => p (f x)) l).
Proof.
  induction l as [|x l IH]; [reflexivity|].
  cbn [List.map List.filter]. destruct (p (f x)); cbn [List.map]; now rewrite IH.
Qed.

(** X5.  The class filter of the attendance report is a filter on the
    unfiltered summary: tallying and filtering by class commute. *)
Theorem X5_class_filter_commutes
    (dashboard : option DashboardData.t) (students : list Student.t)
    (reportFilter : string) :
  attendanceSummary dashboard students reportFilter
  = List.filter
      (fun row => matches_filter reportFilter (Student.class_grade (row_student row)))
      (attendanceSummary dashboard students EmptyString).
Proof.
  unfold attendanceSummary. destruct dashboard as [d|]; [|reflexivity].
  rewrite filter_map_comm. cbn [row_student]. f_equal.
  rewrite (filter_all (fun s => matches_filter EmptyString (Student.class_grade s)));
    [reflexivity|]. intros s _. reflexivity.
Qed.

Lemma count_rows_perm records records' sid st :
  Permutation records records' -> count_rows records sid st = count_rows records' sid st.
Proof.
  intros H. induction H as [|a l l' H IH|a b l|l1 l2 l3 H1 IH1 H2 IH2].
  - reflexivity.
  - rewrite !count_rows_cons. lia.
  - rewrite !count_rows_cons. lia.
  - lia.
Qed.

(** X6.  The attendance summary does not depend on the order in which the
    store returns the month's attendance rows. *)
Theorem X6_summary_order_independent
    (d d' : DashboardData.t) (students : list Student.t) (reportFilter : string) :
  Permutation (DashboardData.monthlyAttendance d) (DashboardData.monthlyAttendance d') ->
  attendanceSummary (Some d) students reportFilter
  = attendanceSummary (Some d') students reportFilter.
Proof.
  intros H. unfold attendanceSummary. apply List.map_ext. intros s.
  f_equal. rewrite !tally_lookup. unfold counts.
  now rewrite !(count_rows_perm _ _ (Student.id s) _ H).
Qed.

Lemma X6_summary_order_independent_witness :
  let r1 := AttendanceRecord.mk 1 (mkDate 2024 1 2) Present "t" in
  let r2 := AttendanceRecord.mk 1 (mkDate 2024 1 3) Absent "t" in
  let a := Student.mk 1 "Asha" "10" "9000000001" (mkDate 2023 4 1) None Active None in
  Permutation [r1; r2] [r2; r1]
  /\ attendanceSummary (Some (mkDashboard [a] [] None (Some [r1; r2]))) [a] ""
     = attendanceSummary (Some (mkDashboard [a] [] None (Some [r2; r1]))) [a] "".
Proof.
  cbv zeta.
  assert (H : Permutation
    [AttendanceRecord.mk 1 (mkDate 2024 1 2) Present "t";
     AttendanceRecord.mk 1 (mkDate 2024 1 3) Absent "t"]
    [AttendanceRecord.mk 1 (mkDate 2024 1 3) Absent "t";
     AttendanceRecord.mk 1 (mkDate 2024 1 2) Present "t"]) by apply perm_swap.
  split; [exact H|].
  exact (X6_summary_order_independent
           (mkDashboard _ [] None (Some _)) (mkDashboard _ [] None (Some _)) _ "" H).
Defined.

(** ** Students who left, and the window of the monthly queries *)

Lemma date_leb_trans a b c :
  date_leb a b = true -> date_leb b c = true -> date_leb a c = true.
Proof.
  unfold date_leb.
  rewrite !orb_true_iff, !andb_true_iff, !orb_true_iff, !andb_true_iff,
    !Z.ltb_lt, !Z.eqb_eq, !Z.leb_le.
  lia.
Qed.

Lemma filter_length_le {A} (p q : A -> bool) l :
  (forall x, In x l -> p x = true -> q x = true) ->
  (length (List.filter p l) <= length (List.filter q l))%nat.
Proof.
  induction l as [|x l IH]; intros H; [reflexivity|].
  cbn [List.filter]. specialize (IH (fun y Hy => H y (or_intror Hy))).
  destruct (p x) eqn:E.
  - rewrite (H x (or_introl eq_refl) E). cbn [length]. lia.
  - destruct (q x); cbn [length]; lia.
Qed.

(** X7.  When no student left before being admitted, every student counted
    as having left in the month is also in the active set of that month, so
    a dashboard built from one snapshot never shows more students who left
    than active students. *)
Theorem X7_left_students_are_active
    (tz : Z) (M : ym) (students : list Student.t) (paidFees : list Fee.t)
    (monthlyAtt : option (list AttendanceRecord.t)) :
  (forall s d, In s students -> Student.leaving_date s = Some d ->
               date_leb (Student.admission_date s) d = true) ->
  let d := mkDashboard (activeStudentsQuery tz M students) paidFees
             (Some (leftStudentsQuery tz M students)) monthlyAtt in
  (forall i, In i (leftStudentsQuery tz M students) ->
             In i (List.map Student.id (activeStudentsQuery tz M students)))
  /\ 0 <= DashboardData.leftThisMonth d <= DashboardData.activeCount d.
Proof.
  intros Hinv. cbv zeta.
  assert (Himp : forall s, In s students ->
    student_status_eqb (Student.status s) Left
    && opt_date_gte (Student.leaving_date s) (startOfMonth M)
    && opt_date_lte (Student.leaving_date s) (endOfMonth tz M) = true ->
    active_filter (startOfMonth M) (endOfMonth tz M) s = true).
  { intros s Hs H. rewrite !andb_true_iff in H. destruct H as [[_ Hge] Hle].
    unfold active_filter. rewrite Hge, orb_true_r, andb_true_r.
    unfold opt_date_lte in Hle. destruct (Student.leaving_date s) as [d|] eqn:E;
      [|discriminate].
    eapply date_leb_trans; [eapply Hinv; eassumption | exact Hle]. }
  split.
  - intros i Hi. unfold leftStudentsQuery in Hi. apply in_map_iff in Hi.
    destruct Hi as (s & <- & Hs). apply filter_In in Hs. destruct Hs as [Hs Hp].
    apply in_map. unfold activeStudentsQuery. apply filter_In. split; [exact Hs|].
    now apply Himp.
  - cbn [mkDashboard DashboardData.leftThisMonth DashboardData.activeCount].
    unfold leftStudentsQuery, activeStudentsQuery. rewrite length_map.
    pose proof (filter_length_le _ _ students Himp). lia.
Qed.

Lemma X7_left_students_are_active_witness :
  let M := mkYm 2024 1 in
  let b := Student.mk 2 "Bina" "10" "9000000002" (mkDate 2023 4 1) None Left
             (Some (mkDate 2024 1 10)) in
  (forall s d, In s [b] -> Student.leaving_date s = Some d ->
               date_leb (Student.admission_date s) d = true)
  /\ leftStudentsQuery 0 M [b] = [2]
  /\ forall i, In i (leftStudentsQuery 0 M [b]) ->
               In i (List.map Student.id (activeStudentsQuery 0 M [b])).
Proof.
  cbv zeta.
  assert (H : forall s d,
    In s [Student.mk 2 "Bina" "10" "9000000002" (mkDate 2023 4 1) None Left
            (Some (mkDate 2024 1 10))] ->
    Student.leaving_date s = Some d -> date_leb (Student.admission_date s) d = true).
  { intros s d [<-|[]] [= <-]. reflexivity. }
  split; [exact H|]. split; [reflexivity|].
  exact (proj1 (X7_left_students_are_active 0 (mkYm 2024 1) _ [] None H)).
Defined.

(** X8.  On a host east of UTC "Left this month" counts exactly the
    students with status Left whose leaving date is a day of the month
    before its last day: a student who left on the last day of a month is
    counted in no month. *)
Theorem X8_left_this_month_window_east
    (tz : Z) (M : ym) (students : list Student.t) (i : Z) :
  0 < tz < 1440 -> 100 <= ym_year M -> 1 <= ym_month M <= 12 ->
  In i (leftStudentsQuery tz M students) <->
  exists s d,
    In s students /\ Student.id s = i /\ Student.status s = Left
    /\ Student.leaving_date s = Some d
    /\ d_year d = ym_year M /\ d_month d = ym_month M
    /\ 1 <= d_day d <= days_in_month (ym_year M) (ym_month M) - 1.
Proof.
  intros Htz Hy Hm. unfold leftStudentsQuery.
  rewrite in_map_iff, endOfMonth_east by assumption. split.
  - intros (s & <- & Hs). apply filter_In in Hs. destruct Hs as [Hs Hp].
    rewrite !andb_true_iff, student_status_eqb_eq in Hp. destruct Hp as [[Hl Hge] Hle].
    unfold opt_date_gte, opt_date_lte in *.
    destruct (Student.leaving_date s) as [d|] eqn:Ed; [|discriminate].
    exists s, d. split; [exact Hs|]. split; [reflexivity|]. split; [exact Hl|].
    split; [exact Ed|]. apply (proj1 (date_in_window M _ d)). now split.
  - intros (s & d & Hs & <- & Hl & Hd & Hw). exists s. split; [reflexivity|].
    apply filter_In. split; [exact Hs|].
    apply (proj2 (date_in_window M _ d)) in Hw. destruct Hw as [Hge Hle].
    rewrite !andb_true_iff, student_status_eqb_eq, Hd. cbn [opt_date_gte opt_date_lte].
    now repeat split.
Qed.

Lemma X8_left_this_month_window_east_witness :
  let b := Student.mk 2 "Bina" "10" "9000000002" (mkDate 2023 4 1) None Left
             (Some (mkDate 2024 1 31)) in
  (0 < 330 < 1440 /\ 100 <= 2024 /\ 1 <= 1 <= 12)
  /\ leftStudentsQuery 330 (mkYm 2024 1) [b] = []
  /\ leftStudentsQuery 330 (mkYm 2024 2) [b] = []
  /\ leftStudentsQuery 0 (mkYm 2024 1) [b] = [2]
  /\ (In 2 (leftStudentsQuery 330 (mkYm 2024 1) [b]) ->
      exists s d, In s [b] /\ Student.id s = 2 /\ Student.status s = Left
        /\ Student.leaving_date s = Some d
        /\ d_year d = 2024 /\ d_month d = 1 /\ 1 <= d_day d <= days_in_month 2024 1 - 1).
Proof.
  cbv zeta. split; [lia|]. split; [reflexivity|]. split; [reflexivity|].
  split; [reflexivity|].
  exact (proj1 (X8_left_this_month_window_east 330 (mkYm 2024 1)
    [Student.mk 2 "Bina" "10" "9000000002" (mkDate 2023 4 1) None Left
       (Some (mkDate 2024 1 31))] 2
    ltac:(lia) ltac:(cbn; lia) ltac:(cbn; lia))).
Defined.

(** X9.  On a host east of UTC the month's attendance that a pass loads is
    exactly the rows dated on a day of the month before its last day:
    attendance marked on the last day of a month enters no monthly
    summary. *)
Theorem X9_monthly_attendance_window_east
    (tz : Z) (M : ym) (att : list AttendanceRecord.t) (a : AttendanceRecord.t) :
  0 < tz < 1440 -> 100 <= ym_year M -> 1 <= ym_month M <= 12 ->
  In a (monthlyAttQuery tz M att) <->
  In a att
  /\ d_year (AttendanceRecord.attendance_date a) = ym_year M
  /\ d_month (AttendanceRecord.attendance_date a) = ym_month M
  /\ 1 <= d_day (AttendanceRecord.attendance_date a)
       <= days_in_month (ym_year M) (ym_month M) - 1.
Proof.
  intros Htz Hy Hm. unfold monthlyAttQuery.
  rewrite filter_In, andb_true_iff, endOfMonth_east by assumption.
  now rewrite date_in_window.
Qed.

Lemma X9_monthly_attendance_window_east_witness :
  let r := AttendanceRecord.mk 1 (mkDate 2024 1 31) Present "t" in
  (0 < 330 < 1440 /\ 100 <= 2024 /\ 1 <= 1 <= 12)
  /\ monthlyAttQuery 330 (mkYm 2024 1) [r] = []
  /\ monthlyAttQuery 330 (mkYm 2024 2) [r] = []
  /\ monthlyAttQuery 0 (mkYm 2024 1) [r] = [r]
  /\ (In r (monthlyAttQuery 330 (mkYm 2024 1) [r]) ->
      In r [r]
      /\ d_year (AttendanceRecord.attendance_date r) = 2024
      /\ d_month (AttendanceRecord.attendance_date r) = 1
      /\ 1 <= d_day (AttendanceRecord.attendance_date r) <= days_in_month 2024 1 - 1).
Proof.
  cbv zeta. split; [lia|]. split; [reflexivity|]. split; [reflexivity|].
  split; [reflexivity|].
  exact (proj1 (X9_monthly_attendance_window_east 330 (mkYm 2024 1)
    [AttendanceRecord.mk 1 (mkDate 2024 1 31) Present "t"]
    (AttendanceRecord.mk 1 (mkDate 2024 1 31) Present "t")
    ltac:(lia) ltac:(cbn; lia) ltac:(cbn; lia))).
Defined.

(** ** Collection totals *)

Lemma sum_amounts_nonneg rows :
  (forall f, In f rows -> 0 <= Fee.amount f) -> 0 <= sum_amounts rows.
Proof.
  induction rows as [|f rows IH]; intros H; [reflexivity|].
  rewrite sum_amounts_cons.
  pose proof (H f (or_introl eq_refl)).
  pose proof (IH (fun g Hg => H g (or_intror Hg))). lia.
Qed.

(** X10.  When no payment amount is negative, the Cash sum and the Online
    sum each lie between 0 and the total, so neither bar of the collection
    summary is wider than the whole. *)
Theorem X10_channel_sums_within_total
    (activeStudents : list Student.t) (paidFees : list Fee.t)
    (leftStudents : option (list Z)) (monthlyAtt : option (list AttendanceRecord.t)) :
  (forall f, In f paidFees -> 0 <= Fee.amount f) ->
  let d := mkDashboard activeStudents paidFees leftStudents monthlyAtt in
  0 <= DashboardData.cashCollected d <= DashboardData.totalCollected d
  /\ 0 <= DashboardData.onlineCollected d <= DashboardData.totalCollected d.
Proof.
  intros H. cbv zeta.
  cbn [mkDashboard DashboardData.cashCollected DashboardData.onlineCollected
       DashboardData.totalCollected].
  assert (Hsum : totalCollected_of paidFees
                 = cashCollected_of paidFees + onlineCollected_of paidFees).
  { unfold cashCollected_of, onlineCollected_of, totalCollected_of.
    rewrite (sum_amounts_partition
               (fun f => payment_mode_eqb (Fee.payment_mode f) Cash) paidFees).
    f_equal. f_equal. apply filter_ext_bool. intros f. symmetry. apply payment_mode_split. }
  assert (0 <= cashCollected_of paidFees).
  { apply sum_amounts_nonneg. intros f Hf. apply filter_In in Hf. apply H. tauto. }
  assert (0 <= onlineCollected_of paidFees).
  { apply sum_amounts_nonneg. intros f Hf. apply filter_In in Hf. apply H. tauto. }
  lia.
Qed.

Lemma X10_channel_sums_within_total_witness :
  let fees := [Fee.mk 1 1 (mkYm 2024 1) 500 "2024-01-05" Cash None None;
               Fee.mk 2 2 (mkYm 2024 1) 300 "2024-01-20" Online None None] in
  (forall f, In f fees -> 0 <= Fee.amount f)
  /\ 0 <= DashboardData.cashCollected (mkDashboard [] fees None None)
       <= DashboardData.totalCollected (mkDashboard [] fees None None).
Proof.
  cbv zeta.
  assert (H : forall f,
    In f [Fee.mk 1 1 (mkYm 2024 1) 500 "2024-01-05" Cash None None;
          Fee.mk 2 2 (mkYm 2024 1) 300 "2024-01-20" Online None None] ->
    0 <= Fee.amount f).
  { intros f [<-|[<-|[]]]; cbn; lia. }
  split; [exact H|].
  exact (proj1 (X10_channel_sums_within_total [] _ None None H)).
Defined.

(** ** The class options *)










Example classOptions_example :
  let mkS := fun i c => Student.mk i "n" c "9" (mkDate 2023 4 1) None Active None in
  classOptions [mkS 1 "9"; mkS 2 "10"; mkS 3 "9"; mkS 4 "12"; mkS 5 "10"]
  = ["10"; "12"; "9"].
Proof. reflexivity. Qed.

(** ** The fees export of the earlier variant *)

Lemma or_else_nonempty s fallback : s <> EmptyString -> or_else (Some s) fallback = s.
Proof.
  intros H. unfold or_else. destruct (String.eqb_spec s EmptyString); [contradiction|].
  reflexivity.
Qed.

Lemma fee_rows_v0_all fees :
  (forall f, In f fees ->
     exists j, Fee.student f = Some j /\ Fee.j_full_name j <> EmptyString) ->
  fee_rows_v0 fees = Some (List.map fee_row fees).
Proof.
  induction fees as [|f fees IH]; intros H; [reflexivity|].
  cbn [fee_rows_v0 List.map]. rewrite IH by (intros g Hg; apply H; now right).
  destruct (H f (or_introl eq_refl)) as (j & Hj & Hn).
  unfold fee_row_v0, fee_row. rewrite Hj. cbn [option_map].
  now rewrite or_else_nonempty by exact Hn.
Qed.

Lemma fee_rows_v0_throws fees :
  (exists f, In f fees /\ Fee.student f = None) -> fee_rows_v0 fees = None.
Proof.
  induction fees as [|f fees IH]; intros (g & Hg & E); [destruct Hg|].
  cbn [fee_rows_v0]. destruct Hg as [->|Hg].
  - unfold fee_row_v0. now rewrite E.
  - destruct (fee_row_v0 f); [|reflexivity]. rewrite IH by eauto. reflexivity.
Qed.

(** The row the later export writes for a payment without its student. *)
Lemma fee_row_unknown f :
  Fee.student f = None ->
  fee_row f = [CStr "Unknown"; CNum (Fee.amount f); CStr (Fee.paid_date f);
               CStr (payment_mode_to_string (Fee.payment_mode f));
               CStr (or_else (Fee.payment_reference f) "")].
Proof. intros E. unfold fee_row. rewrite E. reflexivity. Qed.

Lemma join_row_cons c e :
  join_row (c :: e)
  = match e with
    | [] => cell_to_string c
    | _ :: _ => String.append (cell_to_string c)
                  (String.append (String comma EmptyString) (join_row e))
    end.
Proof. unfold join_row. destruct e; reflexivity. Qed.

(** X12.  The two variants of the fees export.  When every payment row of
    the dashboard carries its student with a non-empty name, the earlier
    variant writes the very file the later one writes with no class filter.
    When some row carries no student, the earlier variant throws and writes
    nothing, where the later one writes the header and one line per payment
    row, and the line of every row without student has the name "Unknown",
    so it starts with "Unknown,".  Without a dashboard neither writes a
    file. *)
Theorem X12_export_variants
    (d : DashboardData.t) (students : list Student.t) :
  ((forall f, In f (DashboardData.paidFees d) ->
      exists j, Fee.student f = Some j /\ Fee.j_full_name j <> EmptyString) ->
   exists content,
     exportCSV ReportFees (Some d) students EmptyString = Some content
     /\ exportCSV_v0 (Some d) = File content)
  /\ ((exists f, In f (DashboardData.paidFees d) /\ Fee.student f = None) ->
      exportCSV_v0 (Some d) = Throws
      /\ exportCSV ReportFees (Some d) students EmptyString
         = Some (String.concat (String newline EmptyString)
                   (join_row fees_headers
                    :: List.map (fun f => join_row (fee_row f)) (DashboardData.paidFees d)))
      /\ forall f, In f (DashboardData.paidFees d) -> Fee.student f = None ->
           fee_row f = [CStr "Unknown"; CNum (Fee.amount f); CStr (Fee.paid_date f);
                        CStr (payment_mode_to_string (Fee.payment_mode f));
                        CStr (or_else (Fee.payment_reference f) "")]
           /\ exists rest, join_row (fee_row f) = String.append "Unknown," rest)
  /\ exportCSV_v0 None = NoFile
  /\ exportCSV ReportFees None students EmptyString = None.
Proof.
  split; [|split; [|split; reflexivity]].
  - intros H. eexists. split; [reflexivity|].
    unfold exportCSV_v0, fees_rows. rewrite (fee_rows_v0_all _ H).
    rewrite (filter_all (fee_matches_filter EmptyString)); [reflexivity|].
    intros f _. reflexivity.
  - intros H. split; [|split].
    + unfold exportCSV_v0. now rewrite (fee_rows_v0_throws _ H).
    + unfold exportCSV, fees_rows, csvContent.
      rewrite (filter_all (fee_matches_filter EmptyString)) by (intros f _; reflexivity).
      cbn [List.map]. now rewrite List.map_map.
    + intros f _ E. split; [now apply fee_row_unknown|].
      rewrite (fee_row_unknown f E), join_row_cons.
      eexists. cbn [cell_to_string]. reflexivity.
Qed.

Example export_variants_example :
  let f := Fee.mk 1 9 (mkYm 2024 1) 500 "2024-01-05" Cash None None in
  let d := mkDashboard [] [f] None None in
  exportCSV_v0 (Some d) = Throws
  /\ exportCSV ReportFees (Some d) [] EmptyString
     = Some (String.append "Student Name,Amount,Date,Mode,Reference"
               (String newline "Unknown,500,2024-01-05,Cash,")).
Proof. cbv zeta. split; vm_compute; reflexivity. Qed.

(** ** A call of [fetchData] that runs undisturbed *)





(** ** [markAsLeft] and the date it records *)

Lemma leaving_consistent_updated s d :
  leaving_consistent
    (Student.mk (Student.id s) (Student.full_name s) (Student.class_grade s)
       (Student.parent_phone s) (Student.admission_date s) (Student.batch_timing s)
       Left (Some d)) = true.
Proof. reflexivity. Qed.

(** X14.  [markAsLeft] writes nothing when the dialog is declined.  When it
    is accepted, every student with the given id becomes Left with the UTC
    date of that moment as leaving date (also a student who had left
    before: the earlier leaving date is overwritten), the other students and
    the ids are as before, and a table whose rows all have a leaving date
    exactly when they are Left stays so.  The marked student is then in the
    active set of a month exactly when admitted by the end of that month and
    the month starts on or before the recorded date. *)
Theorem X14_markAsLeft_effect (now id : Z) (students : list Student.t) :
  let today := today_iso now in
  let after := markAsLeft true now id students in
  markAsLeft false now id students = students
  /\ List.map Student.id after = List.map Student.id students
  /\ (forall s, In s after -> Student.id s = id ->
        Student.status s = Left
        /\ Student.leaving_date s = Some today
        /\ forall tz M,
             active_filter (startOfMonth M) (endOfMonth tz M) s
             = date_leb (Student.admission_date s) (endOfMonth tz M)
               && date_leb (startOfMonth M) today)
  /\ (forall s, Student.id s <> id -> (In s after <-> In s students))
  /\ (forall s, In s students -> Student.id s = id ->
        exists s', In s' after /\ Student.id s' = id
                   /\ Student.full_name s' = Student.full_name s
                   /\ Student.admission_date s' = Student.admission_date s)
  /\ (forallb leaving_consistent students = true ->
      forallb leaving_consistent after = true).
Proof.
  cbv zeta. unfold markAsLeft, updateStudentStatus.
  split; [reflexivity|]. split; [|split; [|split; [|split]]].
  - rewrite List.map_map. apply List.map_ext. intros s.
    destruct (Student.id s =? id); reflexivity.
  - intros s Hs Hid. apply in_map_iff in Hs. destruct Hs as (s0 & <- & _).
    destruct (Z.eqb_spec (Student.id s0) id) as [E|E]; [|contradiction].
    split; [reflexivity|]. split; [reflexivity|]. intros tz M. reflexivity.
  - intros s Hne. rewrite in_map_iff. split.
    + intros (s0 & E & Hs0). destruct (Z.eqb_spec (Student.id s0) id) as [E'|E'].
      * subst s. cbn [Student.id] in Hne. contradiction.
      * now subst s0.
    + intros Hs. exists s. split; [|exact Hs].
      destruct (Z.eqb_spec (Student.id s) id); [contradiction | reflexivity].
  - intros s Hs Hid. eexists. split; [apply in_map; exact Hs|].
    rewrite (proj2 (Z.eqb_eq _ _) Hid). cbn. auto.
  - rewrite !forallb_forall. intros H s Hs. apply in_map_iff in Hs.
    destruct Hs as (s0 & <- & Hs0).
    destruct (Student.id s0 =? id); [apply leaving_consistent_updated | now apply H].
Qed.

Example markAsLeft_example :
  let a := Student.mk 1 "Asha" "10" "9000000001" (mkDate 2023 4 1) None Active None in
  let b := Student.mk 2 "Bina" "10" "9000000002" (mkDate 2023 4 1) None Active None in
  let now := JSDate.MakeDate (JSDate.days_from_civil 2024 1 15) 36000000 in
  markAsLeft true now 2 [a; b]
  = [a; Student.mk 2 "Bina" "10" "9000000002" (mkDate 2023 4 1) None Left
          (Some (mkDate 2024 1 15))].
Proof. vm_compute. reflexivity. Qed.

(** X15.  The date that [markAsLeft] records, and on which the attendance
    view opens, is the UTC date of the moment.  On a host at or east of UTC
    it is the local date, except within the first [tz] minutes after local
    midnight, when it is the day before the local date. *)
Theorem X15_today_is_utc_date (tz now : Z) :
  0 <= tz < 1440 ->
  let localTime := JSDate.LocalTime tz now in
  today_iso now
  = JSDate.civil_from_days
      (JSDate.Day localTime
       - (if localTime mod JSDate.msPerDay <? tz * JSDate.msPerMinute then 1 else 0)).
Proof.
  intros Htz. cbv zeta. unfold today_iso, JSDate.toISODate. f_equal.
  unfold JSDate.Day, JSDate.LocalTime, JSDate.msPerDay, JSDate.msPerMinute.
  destruct (Z.ltb_spec ((now + tz * 60000) mod 86400000) (tz * 60000));
    Z.div_mod_to_equations; lia.
Qed.

Lemma X15_today_is_utc_date_witness :
  let now := JSDate.MakeDate (JSDate.days_from_civil 2024 1 31) 70200000 in
  0 <= 330 < 1440
  /\ JSDate.toISODate (JSDate.LocalTime 330 now) = mkDate 2024 2 1
  /\ today_iso now = mkDate 2024 1 31
  /\ today_iso now
     = JSDate.civil_from_days
         (JSDate.Day (JSDate.LocalTime 330 now)
          - (if JSDate.LocalTime 330 now mod JSDate.msPerDay <? 330 * JSDate.msPerMinute
             then 1 else 0)).
Proof.
  cbv zeta. split; [lia|]. split; [reflexivity|]. split; [reflexivity|].
  exact (X15_today_is_utc_date 330
           (JSDate.MakeDate (JSDate.days_from_civil 2024 1 31) 70200000) ltac:(lia)).
Defined.

(** ** Who a "Mark All" batch covers, and what the view shows afterwards *)

Lemma append_nil_r s : String.append s EmptyString = s.
Proof. induction s as [|c s IH]; [reflexivity|]. now rewrite append_cons, IH. Qed.

Lemma includes_refl s : includes s s = true.
Proof.
  apply includes_spec. exists EmptyString, EmptyString.
  rewrite append_nil_r. reflexivity.
Qed.

(** X16.  The batch of a "Mark All" button: it holds a row for every Active
    student whose class is the search term (the class picked in the
    attendance view), for every Active student at all when the term is
    empty, and never a row for a student who is not Active; every row
    carries the selected day and the button's status. *)
Theorem X16_markAll_batch
    (students : list Student.t) (searchTerm : string) (attendanceDate : date)
    (teacher : string) (status : attendance_status) :
  let rows := markAll_rows students searchTerm attendanceDate teacher status in
  let row_of := fun s => AttendanceRecord.mk (Student.id s) attendanceDate status teacher in
  (forall s, In s students -> Student.status s = Active ->
             Student.class_grade s = searchTerm -> In (row_of s) rows)
  /\ (forall s, In s students -> Student.status s = Active ->
                searchTerm = EmptyString -> In (row_of s) rows)
  /\ (forall r, In r rows ->
        exists s, In s students /\ Student.status s = Active /\ r = row_of s)
  /\ (length rows <= length students)%nat.
Proof.
  cbv zeta. split; [|split; [|split]].
  - intros s Hs Ha Hc. apply markAll_rows_In. exists s. split; [|now split].
    unfold filteredStudents. apply filter_In. split; [exact Hs|].
    rewrite <- Hc, includes_refl. now rewrite orb_true_r.
  - intros s Hs Ha ->. apply markAll_rows_In. exists s. split; [|now split].
    now rewrite filteredStudents_empty.
  - intros r Hr. apply markAll_rows_In in Hr. destruct Hr as (s & Hs & Ha & ->).
    exists s. unfold filteredStudents in Hs. apply filter_In in Hs. tauto.
  - unfold markAll_rows, filteredStudents. rewrite length_map.
    etransitivity; [apply List.filter_length_le|]. apply List.filter_length_le.
Qed.

Lemma find_ext_bool {A} (p q : A -> bool) l :
  (forall x, p x = q x) -> List.find p l = List.find q l.
Proof.
  intros H. induction l as [|x l IH]; [reflexivity|].
  cbn [List.find]. now rewrite H, IH.
Qed.

Lemma find_unique_key tbl row :
  NoDup (List.map att_key tbl) -> In row tbl ->
  List.find (fun a => same_key a row) tbl = Some row.
Proof.
  intros Hnd Hin. pose proof (one_row_per_key tbl row Hnd Hin) as H.
  induction tbl as [|r tbl IH]; [destruct Hin|].
  cbn [List.filter List.find] in *. destruct (same_key r row) eqn:E.
  - now injection H as ->.
  - destruct Hin as [->|Hin].
    + rewrite (proj2 (same_key_iff row row) eq_refl) in E. discriminate.
    + apply IH; [|exact Hin|exact H].
      cbn [List.map] in Hnd. apply NoDup_cons in Hnd. tauto.
Qed.

(** X17.  After a "Mark All" on a table with at most one record per
    (student, day), the reloaded attendance of the selected day shows the
    button's status for every student of the batch. *)
Theorem X17_markAll_then_reload
    (tbl : list AttendanceRecord.t) (students : list Student.t) (searchTerm : string)
    (attendanceDate : date) (teacher : string) (status : attendance_status)
    (s : Student.t) :
  NoDup (List.map att_key tbl) ->
  In s (filteredStudents students searchTerm) -> Student.status s = Active ->
  attendance_record
    (attendanceQuery attendanceDate
       (markAll students searchTerm attendanceDate teacher status tbl)) s
  = Some (AttendanceRecord.mk (Student.id s) attendanceDate status teacher).
Proof.
  intros Hnd Hs Ha. unfold attendance_record, attendanceQuery, markAll.
  set (row := AttendanceRecord.mk (Student.id s) attendanceDate status teacher).
  rewrite find_filter.
  rewrite (find_ext_bool _ (fun a => same_key a row)).
  - apply find_unique_key; [now apply upsertMany_NoDup|].
    apply upsertMany_In; [|apply markAll_rows_same_key].
    apply markAll_rows_In. exists s. now repeat split.
  - intros a. unfold same_key. cbn [row AttendanceRecord.student_id
      AttendanceRecord.attendance_date]. apply andb_comm.
Qed.

Lemma X17_markAll_then_reload_witness :
  let D := mkDate 2024 1 15 in
  let a := Student.mk 1 "Asha" "10" "9000000001" (mkDate 2023 4 1) None Active None in
  let b := Student.mk 2 "Bina" "10" "9000000002" (mkDate 2023 4 1) None Active None in
  let tbl := [AttendanceRecord.mk 2 D Holiday "t"] in
  NoDup (List.map att_key tbl)
  /\ In b (filteredStudents [a; b] "10")
  /\ Student.status b = Active
  /\ attendance_record (attendanceQuery D (markAll [a; b] "10" D "t" Present tbl)) b
     = Some (AttendanceRecord.mk 2 D Present "t").
Proof.
  cbv zeta.
  assert (Hnd : NoDup (List.map att_key [AttendanceRecord.mk 2 (mkDate 2024 1 15) Holiday "t"])).
  { cbn [List.map]. apply NoDup_cons. split; [apply not_elem_of_nil | constructor]. }
  assert (Hin : In (Student.mk 2 "Bina" "10" "9000000002" (mkDate 2023 4 1) None Active None)
                  (filteredStudents
                     [Student.mk 1 "Asha" "10" "9000000001" (mkDate 2023 4 1) None Active None;
                      Student.mk 2 "Bina" "10" "9000000002" (mkDate 2023 4 1) None Active None]
                     "10")).
  { right. left. reflexivity. }
  split; [exact Hnd|]. split; [exact Hin|]. split; [reflexivity|].
  exact (X17_markAll_then_reload _ _ "10" (mkDate 2024 1 15) "t" Present _ Hnd Hin eq_refl).
Defined.
